(** * Airline AI test generator: spreadsheet normalisation and provider layer

    A shallow embedding of the TypeScript sources

    - [apps/backend/src/services/excel-parser.ts], the current parser and
      validator                                         (module [Backend])
    - [apps copy/backend/src/services/excel-parser.ts], the earlier parser
      and validator                                     (module [BackendCopy])
    - the provider service of [apps copy/backend]: the mock provider and
      the first registry                    (modules [MockAI], [Registry])
    - the registry configured from the environment and the OpenAI and
      Gemini adapters       (modules [Registry], [RegistryInit], [Remote])
    - the same adapters on answers outside the declared type
                                                  (module [RemoteJson])
    - the authentication service and the guards of the routes
                                                        (module [Auth])

    followed by the vocabulary of the properties and by the properties
    themselves.

    JavaScript strings are modelled as Rocq strings, that is, sequences of
    code units below 256 (the Latin-1 range).  All literals of the sources
    are ASCII, and inside that range no non-ASCII code unit is ever mapped
    to an ASCII one by [toLowerCase] or by case-insensitive matching, so
    the restriction does not change which literal a text matches.  A
    thrown [Error] is modelled by its message. *)

From Stdlib Require Import ZArith Lia Ascii String DecimalString.
From Stdlib Require DecimalNat DecimalFacts.
From stdpp Require Import gmap strings list.

Open Scope string_scope.
Open Scope list_scope.

(** ** JavaScript string primitives *)

Module JS.

(** [WhiteSpace] and [LineTerminator] code units below 256: TAB, LF, VT,
    FF, CR, SPACE and NBSP.  These are what [String.prototype.trim]
    removes. *)
Definition is_space (c : ascii) : bool :=
  let n := nat_of_ascii c in
  (((9 <=? n) && (n <=? 13)) || (n =? 32) || (n =? 160))%nat.

Fixpoint trimStart (s : string) : string :=
  match s with
  | String c s' => if is_space c then trimStart s' else s
  | EmptyString => EmptyString
  end.

Fixpoint trimEnd (s : string) : string :=
  match s with
  | String c s' =>
      match trimEnd s' with
      | EmptyString => if is_space c then EmptyString else String c EmptyString
      | t => String c t
      end
  | EmptyString => EmptyString
  end.

Definition trim (s : string) : string := trimEnd (trimStart s).

(** [toLowerCase] on one code unit: A-Z, and the Latin-1 capitals
    U+00C0..U+00DE except the multiplication sign U+00D7. *)
Definition lower_char (c : ascii) : ascii :=
  let n := nat_of_ascii c in
  if (((65 <=? n) && (n <=? 90))
      || ((192 <=? n) && (n <=? 222) && negb (n =? 215)))%nat
  then ascii_of_nat (n + 32) else c.

Fixpoint toLowerCase (s : string) : string :=
  match s with
  | String c s' => String (lower_char c) (toLowerCase s')
  | EmptyString => EmptyString
  end.

(** [s.startsWith(p)] *)
Fixpoint startsWith (p s : string) : bool :=
  match p, s with
  | EmptyString, _ => true
  | String a p', String b s' => if Ascii.eqb a b then startsWith p' s' else false
  | String _ _, EmptyString => false
  end.

(** Truthiness of a string: only the empty string is falsy. *)
Definition truthy (s : string) : bool :=
  match s with EmptyString => false | String _ _ => true end.

(** [a || b] on strings. *)
Definition or_else (a b : string) : string := if truthy a then a else b.

(** [String(n)] for a non-negative integer. *)
Definition of_nat (n : nat) : string := NilZero.string_of_uint (Nat.to_uint n).

(** [String(z)] for an integer. *)
Definition of_Z (z : Z) : string := NilZero.string_of_int (Z.to_int z).

Fixpoint zeros (n : nat) : string :=
  match n with O => EmptyString | S k => String "0" (zeros k) end.

(** [s.padStart(width, '0')] *)
Definition padStart0 (width : nat) (s : string) : string :=
  zeros (width - String.length s) +:+ s.

(** The double quote character, as a one-character string. *)
Definition dquote : string := String (ascii_of_nat 34) EmptyString.

(** [s.split(',')] *)
Fixpoint split_comma (s : string) : list string :=
  match s with
  | EmptyString => [EmptyString]
  | String c s' =>
      if Ascii.eqb c ","%char then EmptyString :: split_comma s'
      else match split_comma s' with
           | [] => [String c EmptyString]
           | piece :: pieces => String c piece :: pieces
           end
  end.

(** [xs.join(sep)] *)
Fixpoint join (sep : string) (xs : list string) : string :=
  match xs with
  | [] => EmptyString
  | [x] => x
  | x :: rest => x +:+ sep +:+ join sep rest
  end.

End JS.

(** ** The regular expressions of the column patterns

    Every pattern of the sources has the shape [/^(a1|a2|...)$/i] where an
    alternative is a sequence of literal characters, optional literal
    characters ([s?]) and optional wildcards ([.?]). *)

Module Regex.

Inductive atom : Type :=
| Lit (c : ascii)      (* a literal character *)
| Dot.                 (* [.] : any character but a line terminator *)

Inductive item : Type :=
| One (a : atom)       (* [a]  *)
| Opt (a : atom).      (* [a?] *)

Definition alternative := list item.

(** An anchored alternation [^(a1|...|an)$] under the [i] flag. *)
Definition pattern := list alternative.

(** Canonicalisation of the [i] flag (no [u] flag): the upper-case
    mapping a-z -> A-Z and U+00E0..U+00FE (but the division sign U+00F7)
    -> U+00C0..U+00DE.  The remaining Latin-1 letters either have no
    single-unit upper case or one outside the range that no other code
    unit of the range shares. *)
Definition canonicalize (c : ascii) : ascii :=
  let n := nat_of_ascii c in
  if (((97 <=? n) && (n <=? 122))
      || ((224 <=? n) && (n <=? 254) && negb (n =? 247)))%nat
  then ascii_of_nat (n - 32) else c.

Definition line_terminator (c : ascii) : bool :=
  let n := nat_of_ascii c in ((n =? 10) || (n =? 13))%nat.

Definition atom_matches (a : atom) (c : ascii) : bool :=
  match a with
  | Lit x => Ascii.eqb (canonicalize x) (canonicalize c)
  | Dot => negb (line_terminator c)
  end.

(** Backtracking match of a whole string against one alternative. *)
Fixpoint matches_alt (p : alternative) (s : string) : bool :=
  match p with
  | [] => match s with EmptyString => true | _ => false end
  | One a :: p' =>
      match s with
      | String c s' => atom_matches a c && matches_alt p' s'
      | EmptyString => false
      end
  | Opt a :: p' =>
      match s with
      | String c s' => (atom_matches a c && matches_alt p' s') || matches_alt p' s
      | EmptyString => matches_alt p' s
      end
  end.

(** [pattern.test(s)] *)
Definition test (p : pattern) (s : string) : bool :=
  existsb (fun a => matches_alt a s) p.

(** Pattern syntax: a small reader for the alternatives as they are
    written in the sources ([x?] and [.?] are the only operators). *)
Fixpoint read_alt (s : string) : alternative :=
  match s with
  | EmptyString => []
  | String c rest =>
      let a := if Ascii.eqb c "."%char then Dot else Lit c in
      match rest with
      | String "?"%char rest' => Opt a :: read_alt rest'
      | _ => One a :: read_alt rest
      end
  end.

(** [re ["a"; "b.?c"]] stands for [/^(a|b.?c)$/i]. *)
Definition re (alts : list string) : pattern := map read_alt alts.

End Regex.

(** ** Cells of the decoded sheet

    [sheet_to_json] yields strings, numbers, booleans and dates.  The
    parsers look at a non-string value in two ways only: its truthiness
    and its rendering by [String(v)] (or [v.toString()]). *)

Inductive cell : Type :=
| CStr (s : string)
| COther (truthy : bool) (shown : string).

Definition cell_truthy (c : cell) : bool :=
  match c with
  | CStr s => JS.truthy s
  | COther t _ => t
  end.

Definition cell_to_string (c : cell) : string :=
  match c with
  | CStr s => s
  | COther _ shown => shown
  end.

Inductive Priority : Type := low | medium | high | critical.

(** [interface GherkinUserStory]; [notes], [acId], [tags] and [priority]
    are optional properties. *)
Record GherkinUserStory : Type := mkStory {
  us_id : string;
  us_description : string;
  us_asA : string;
  us_iWant : string;
  us_soThat : string;
  us_acceptanceCriteria : string;
  us_requirements : string;
  us_given : string;
  us_when : string;
  us_then : string;
  us_notes : option string;
  us_acId : option string;
  us_tags : option (list string);
  us_priority : option Priority
}.

(** What a call of a row parser does: it throws [new Error(message)],
    or returns a story or [null]. *)
Inductive row_outcome : Type :=
| Threw (message : string)
| Returned (story : option GherkinUserStory).

(** ** The current parser: apps/backend/src/services/excel-parser.ts *)

Module Backend.

Record ParseResult : Type := mkParseResult {
  success : bool;
  data : list GherkinUserStory;
  errors : list string;
  totalRows : nat;
  validRows : nat
}.

(** [ColumnMapping]: every property is a column index or [null]; the
    object is read and written through its property names, so it is a
    finite map from the names to the indices, [null] being [None]. *)
Abbreviation ColumnMapping := (gmap string nat).

(** [columnPatterns], in the order of [Object.entries]. *)
Definition columnPatterns : list (string * Regex.pattern) :=
  [ ("id", Regex.re ["id"; "story.?id"; "user.?story.?id"]);
    ("description", Regex.re ["description"; "story.?description"; "title"]);
    ("asA", Regex.re ["as.?a"; "role"; "user.?role"; "persona"]);
    ("iWant", Regex.re ["i.?want"; "want"; "goal"; "objective"]);
    ("soThat", Regex.re ["so.?that"; "benefit"; "value"; "outcome"]);
    ("acceptanceCriteria", Regex.re ["acceptance.?criteria"; "ac"; "criteria"]);
    ("requirements", Regex.re ["requirements?"; "req"; "specification"]);
    ("given", Regex.re ["given"; "precondition"; "setup"]);
    ("when", Regex.re ["when"; "action"; "step"]);
    ("then", Regex.re ["then"; "expected"; "result"; "outcome"]);
    ("notes", Regex.re ["notes?"; "comments?"; "remarks?"]);
    ("acId", Regex.re ["ac.?id"; "criteria.?id"]) ].

Definition requiredFields : list string :=
  ["description"; "given"; "when"; "then"].

(** The inner [for (const [field, pattern] of ...)] loop with its
    [break]. *)
Fixpoint assign_first (ps : list (string * Regex.pattern))
    (cleanHeader : string) (index : nat) (mapping : ColumnMapping)
    : ColumnMapping :=
  match ps with
  | [] => mapping
  | (field, pattern) :: rest =>
      if Regex.test pattern cleanHeader
      then <[field := index]> mapping
      else assign_first rest cleanHeader index mapping
  end.

(** The callback of [headerRow.forEach]. *)
Definition visit_header (header : cell) (index : nat)
    (mapping : ColumnMapping) : ColumnMapping :=
  match header with
  | CStr h =>
      if JS.truthy h
      then assign_first columnPatterns (JS.toLowerCase (JS.trim h)) index mapping
      else mapping
  | COther _ _ => mapping
  end.

Fixpoint scan_headers (headerRow : list cell) (index : nat)
    (mapping : ColumnMapping) : ColumnMapping :=
  match headerRow with
  | [] => mapping
  | header :: rest =>
      scan_headers rest (S index) (visit_header header index mapping)
  end.

Definition hasRequiredFields (mapping : ColumnMapping) : bool :=
  forallb (fun field => bool_decide (is_Some (mapping !! field))) requiredFields.

Definition detectColumnMapping (headerRow : list cell) : option ColumnMapping :=
  let mapping := scan_headers headerRow 0 ∅ in
  if hasRequiredFields mapping then Some mapping else None.

(** [getCellValue] of [parseRow]. *)
Definition getCellValue (row : list cell) (columnIndex : option nat) : string :=
  match columnIndex with
  | None => ""
  | Some i =>
      match row !! i with
      | None => ""                       (* columnIndex >= row.length *)
      | Some value =>
          if cell_truthy value then JS.trim (cell_to_string value) else ""
      end
  end.

Definition parseRow (row : list cell) (mapping : ColumnMapping)
    (rowNumber : nat) : row_outcome :=
  let description := getCellValue row (mapping !! "description") in
  let given := getCellValue row (mapping !! "given") in
  let when_ := getCellValue row (mapping !! "when") in
  let then_ := getCellValue row (mapping !! "then") in
  if negb (JS.truthy description) && negb (JS.truthy given)
     && negb (JS.truthy when_) && negb (JS.truthy then_)
  then Returned None
  else if negb (JS.truthy description) then Threw "Description is required"
  else if negb (JS.truthy given) then Threw "Given condition is required"
  else if negb (JS.truthy when_) then Threw "When action is required"
  else if negb (JS.truthy then_) then Threw "Then result is required"
  else
    let id := JS.or_else (getCellValue row (mapping !! "id"))
                ("US-" +:+ JS.padStart0 3 (JS.of_nat rowNumber)) in
    let asA := JS.or_else (getCellValue row (mapping !! "asA")) "User" in
    let iWant := JS.or_else (getCellValue row (mapping !! "iWant")) description in
    let soThat :=
      JS.or_else (getCellValue row (mapping !! "soThat")) "I can achieve my goal" in
    Returned (Some {|
      us_id := id;
      us_description := description;
      us_asA := asA;
      us_iWant := iWant;
      us_soThat := soThat;
      us_acceptanceCriteria := getCellValue row (mapping !! "acceptanceCriteria");
      us_requirements := getCellValue row (mapping !! "requirements");
      us_given := given;
      us_when := when_;
      us_then := then_;
      us_notes := Some (getCellValue row (mapping !! "notes"));
      us_acId := Some (getCellValue row (mapping !! "acId"));
      us_tags := Some [];
      us_priority := Some medium
    |}).

(** The callback of [dataRows.forEach]: the [try]/[catch] around
    [parseRow], acting on the two accumulators. *)
Definition visit_row (mapping : ColumnMapping) (row : list cell) (rowIndex : nat)
    (acc : list GherkinUserStory * list string)
    : list GherkinUserStory * list string :=
  let '(stories, errors) := acc in
  match parseRow row mapping (rowIndex + 2) with
  | Returned (Some story) => (stories ++ [story], errors)
  | Returned None => (stories, errors)
  | Threw message =>
      (stories, errors ++ ["Row " +:+ JS.of_nat (rowIndex + 2) +:+ ": " +:+ message])
  end.

Fixpoint scan_rows (mapping : ColumnMapping) (dataRows : list (list cell))
    (rowIndex : nat) (acc : list GherkinUserStory * list string)
    : list GherkinUserStory * list string :=
  match dataRows with
  | [] => acc
  | row :: rest =>
      scan_rows mapping rest (S rowIndex) (visit_row mapping row rowIndex acc)
  end.

Definition parseDataRows (dataRows : list (list cell)) (mapping : ColumnMapping)
    : list GherkinUserStory * list string :=
  scan_rows mapping dataRows 0 ([], []).

(** [parseExcelFile] from the point where the sheet has been decoded
    into [jsonData]; reading the workbook is the external library's
    work. *)
Definition parseExcelFile (jsonData : list (list cell)) : ParseResult :=
  match jsonData with
  | headerRow :: ((_ :: _) as dataRows) =>
      match detectColumnMapping headerRow with
      | None =>
          {| success := false; data := [];
             errors := ["Unable to detect required columns. Please ensure your Excel file has proper headers."];
             totalRows := length jsonData; validRows := 0 |}
      | Some columnMapping =>
          let '(stories, errs) := parseDataRows dataRows columnMapping in
          {| success := Nat.eqb (length errs) 0;
             data := stories;
             errors := errs;
             totalRows := length dataRows;
             validRows := length stories |}
      end
  | _ =>
      {| success := false; data := [];
         errors := ["File must contain at least a header row and one data row"];
         totalRows := length jsonData; validRows := 0 |}
  end.

(** [Partial<GherkinUserStory>] as far as [validateUserStory] reads it. *)
Record PartialStory : Type := mkPartial {
  p_description : option string;
  p_given : option string;
  p_when : option string;
  p_then : option string
}.

(** [!value?.trim()] *)
Definition blank (value : option string) : bool :=
  match value with
  | None => true
  | Some s => negb (JS.truthy (JS.trim s))
  end.

(** [value && !value.toLowerCase().startsWith(word)] *)
Definition lacks_prefix (word : string) (value : option string) : bool :=
  match value with
  | None => false
  | Some s => JS.truthy s && negb (JS.startsWith word (JS.toLowerCase s))
  end.

(** [if (cond) errors.push(message)] *)
Definition push_if (cond : bool) (message : string) (errors : list string)
    : list string :=
  if cond then errors ++ [message] else errors.

Definition validateUserStory (story : PartialStory) : bool * list string :=
  let errors := [] in
  let errors := push_if (blank (p_description story)) "Description is required" errors in
  let errors := push_if (blank (p_given story)) "Given condition is required" errors in
  let errors := push_if (blank (p_when story)) "When action is required" errors in
  let errors := push_if (blank (p_then story)) "Then result is required" errors in
  let errors := push_if (lacks_prefix "given" (p_given story))
                  ("Given condition should start with " +:+ JS.dquote +:+ "Given" +:+ JS.dquote) errors in
  let errors := push_if (lacks_prefix "when" (p_when story))
                  ("When action should start with " +:+ JS.dquote +:+ "When" +:+ JS.dquote) errors in
  let errors := push_if (lacks_prefix "then" (p_then story))
                  ("Then result should start with " +:+ JS.dquote +:+ "Then" +:+ JS.dquote) errors in
  (Nat.eqb (length errors) 0, errors).

End Backend.

(** ** The earlier parser: apps copy/backend/src/services/excel-parser.ts *)

Module BackendCopy.

Record Summary : Type := mkSummary {
  totalRows : nat;
  validStories : nat;
  errorCount : nat           (* [summary.errors] *)
}.

(** The result of [parseWorksheet] ([ParseResult] without the file
    name, which [parseGherkinFile] adds). *)
Record ParseResult : Type := mkParseResult {
  success : bool;
  userStories : list GherkinUserStory;
  errors : list string;
  summary : Summary
}.

(** [patterns] of [detectColumnMapping], in the order of
    [Object.entries]. *)
Definition patterns : list (string * Regex.pattern) :=
  [ ("id", Regex.re ["id"; "story.?id"; "user.?story.?id"]);
    ("description", Regex.re ["description"; "story"; "title"; "summary"]);
    ("asA", Regex.re ["as.?a"; "role"; "user.?type"; "actor"]);
    ("iWant", Regex.re ["i.?want"; "want"; "goal"; "objective"]);
    ("soThat", Regex.re ["so.?that"; "benefit"; "value"; "outcome"]);
    ("acceptanceCriteria",
      Regex.re ["acceptance.?criteria"; "ac"; "criteria"; "acceptance"]);
    ("requirements", Regex.re ["requirements?"; "req"; "business.?rules?"]);
    ("notes", Regex.re ["notes?"; "comments?"; "remarks?"]);
    ("acId", Regex.re ["ac.?id"; "criteria.?id"; "acceptance.?id"]);
    ("given", Regex.re ["given"; "precondition"; "setup"]);
    ("when", Regex.re ["when"; "action"; "trigger"; "event"]);
    ("then", Regex.re ["then"; "expected"; "result"; "outcome"]);
    ("tags", Regex.re ["tags?"; "labels?"; "categories?"]);
    ("priority", Regex.re ["priority"; "importance"; "level"]) ].

Definition requiredColumns : list string :=
  ["description"; "given"; "when"; "then"].

(** [!mapping[key]]: the property is missing, or it is the number 0. *)
Definition not_mapped (mapping : gmap string nat) (key : string) : bool :=
  match mapping !! key with
  | None => true
  | Some index => Nat.eqb index 0
  end.

(** The inner [for (const [key, pattern] of ...)] loop with its guarded
    assignment and [break]. *)
Fixpoint assign_first (ps : list (string * Regex.pattern))
    (cleanHeader : string) (index : nat) (mapping : gmap string nat)
    : gmap string nat :=
  match ps with
  | [] => mapping
  | (key, pattern) :: rest =>
      if Regex.test pattern cleanHeader && not_mapped mapping key
      then <[key := index]> mapping
      else assign_first rest cleanHeader index mapping
  end.

Definition visit_header (header : cell) (index : nat)
    (mapping : gmap string nat) : gmap string nat :=
  match header with
  | CStr h =>
      if JS.truthy h
      then assign_first patterns (JS.trim h) index mapping
      else mapping
  | COther _ _ => mapping
  end.

Fixpoint scan_headers (headerRow : list cell) (index : nat)
    (mapping : gmap string nat) : gmap string nat :=
  match headerRow with
  | [] => mapping
  | header :: rest =>
      scan_headers rest (S index) (visit_header header index mapping)
  end.

Definition hasRequired (mapping : gmap string nat) : bool :=
  forallb (fun col => bool_decide (is_Some (mapping !! col))) requiredColumns.

Definition detectColumnMapping (headerRow : list cell) : option (gmap string nat) :=
  let mapping := scan_headers headerRow 0 ∅ in
  if hasRequired mapping then Some mapping else None.

(** [getValue] of [parseUserStoryRow]; [row[index]] is [undefined]
    beyond the end of the row. *)
Definition getValue (row : list cell) (columnMapping : gmap string nat)
    (key : string) : string :=
  match columnMapping !! key with
  | None => ""
  | Some index =>
      match row !! index with
      | None => ""
      | Some value =>
          if cell_truthy value then JS.trim (cell_to_string value) else ""
      end
  end.

Definition parse_priority (priorityText : string) : Priority :=
  if String.eqb priorityText "high" then high
  else if String.eqb priorityText "critical" then critical
  else if String.eqb priorityText "low" then low
  else medium.

Definition parse_tags (tagsText : string) : list string :=
  if JS.truthy tagsText
  then filter (fun tag => JS.truthy tag = true) (map JS.trim (JS.split_comma tagsText))
  else [].

Definition parseUserStoryRow (row : list cell) (columnMapping : gmap string nat)
    (rowNumber : nat) : row_outcome :=
  let getValue := getValue row columnMapping in
  let description := getValue "description" in
  let given := getValue "given" in
  let when_ := getValue "when" in
  let then_ := getValue "then" in
  if negb (JS.truthy description) && negb (JS.truthy given)
     && negb (JS.truthy when_) && negb (JS.truthy then_)
  then Returned None
  else if negb (JS.truthy description) then Threw "Description is required"
  else if negb (JS.truthy given) then Threw "Given clause is required"
  else if negb (JS.truthy when_) then Threw "When clause is required"
  else if negb (JS.truthy then_) then Threw "Then clause is required"
  else
    let id := JS.or_else (getValue "id")
                ("US-" +:+ JS.padStart0 3 (JS.of_nat rowNumber)) in
    let priority := parse_priority (JS.toLowerCase (getValue "priority")) in
    let tags := parse_tags (getValue "tags") in
    Returned (Some {|
      us_id := id;
      us_description := description;
      us_asA := getValue "asA";
      us_iWant := getValue "iWant";
      us_soThat := getValue "soThat";
      us_acceptanceCriteria := getValue "acceptanceCriteria";
      us_requirements := getValue "requirements";
      us_given := given;
      us_when := when_;
      us_then := then_;
      us_notes := Some (getValue "notes");
      us_acId := Some (getValue "acId");
      us_tags := Some tags;
      us_priority := Some priority
    |}).

(** One turn of the [for (let rowIndex = 1; ...)] loop. *)
Definition visit_row (columnMapping : gmap string nat) (row : list cell)
    (rowIndex : nat) (acc : list GherkinUserStory * list string)
    : list GherkinUserStory * list string :=
  let '(userStories, errors) := acc in
  match parseUserStoryRow row columnMapping (rowIndex + 1) with
  | Returned (Some userStory) => (userStories ++ [userStory], errors)
  | Returned None => (userStories, errors)
  | Threw message =>
      (userStories, errors ++ ["Row " +:+ JS.of_nat (rowIndex + 1) +:+ ": " +:+ message])
  end.

Fixpoint scan_rows (columnMapping : gmap string nat) (rows : list (list cell))
    (rowIndex : nat) (acc : list GherkinUserStory * list string)
    : list GherkinUserStory * list string :=
  match rows with
  | [] => acc
  | row :: rest =>
      scan_rows columnMapping rest (S rowIndex)
        (visit_row columnMapping row rowIndex acc)
  end.

(** [parseWorksheet] from the point where the sheet has been decoded
    into [jsonData]. *)
Definition parseWorksheet (jsonData : list (list cell)) : ParseResult :=
  match jsonData with
  | headerRow :: ((_ :: _) as rows) =>
      match detectColumnMapping headerRow with
      | None =>
          {| success := false; userStories := [];
             errors := ["Could not detect valid Gherkin format columns. Please check your Excel structure."];
             summary := {| totalRows := length jsonData; validStories := 0;
                           errorCount := 1 |} |}
      | Some columnMapping =>
          let '(stories, errs) := scan_rows columnMapping rows 1 ([], []) in
          {| success := Nat.ltb 0 (length stories);
             userStories := stories;
             errors := errs;
             summary := {| totalRows := length jsonData - 1;
                           validStories := length stories;
                           errorCount := length errs |} |}
      end
  | _ =>
      {| success := false; userStories := [];
         errors := ["Excel file must contain at least a header row and one data row"];
         summary := {| totalRows := length jsonData; validStories := 0;
                       errorCount := 1 |} |}
  end.

Definition push_if (cond : bool) (message : string) (errors : list string)
    : list string :=
  if cond then errors ++ [message] else errors.

(** [value && !value.toLowerCase().startsWith(word)] *)
Definition lacks_prefix (word value : string) : bool :=
  JS.truthy value && negb (JS.startsWith word (JS.toLowerCase value)).

Definition validateGherkinStory (story : GherkinUserStory) : list string :=
  let errors := [] in
  let errors := push_if (negb (JS.truthy (us_description story)))
                  "Description is required" errors in
  let errors := push_if (negb (JS.truthy (us_given story)))
                  "Given clause is required" errors in
  let errors := push_if (negb (JS.truthy (us_when story)))
                  "When clause is required" errors in
  let errors := push_if (negb (JS.truthy (us_then story)))
                  "Then clause is required" errors in
  let errors := push_if (lacks_prefix "given" (us_given story))
                  ("Given clause should start with " +:+ JS.dquote +:+ "Given" +:+ JS.dquote)
                  errors in
  let errors := push_if (lacks_prefix "when" (us_when story))
                  ("When clause should start with " +:+ JS.dquote +:+ "When" +:+ JS.dquote)
                  errors in
  let errors := push_if (lacks_prefix "then" (us_then story))
                  ("Then clause should start with " +:+ JS.dquote +:+ "Then" +:+ JS.dquote)
                  errors in
  errors.

End BackendCopy.

(** ** Reading the system clock

    [Date.now()] is the only effect of the providers' own code.  The
    n-th reading of the clock is [clock n]; a computation threads the
    number of readings made so far. *)

Module Clock.

Definition M (A : Type) : Type := nat -> A * nat.

Definition ret {A} (a : A) : M A := fun n => (a, n).

Definition bind {A B} (c : M A) (k : A -> M B) : M B :=
  fun n => let '(a, n') := c n in k a n'.

Definition now (clock : nat -> Z) : M Z := fun n => (clock n, S n).

End Clock.

Notation "'let*' x ':=' c 'in' k" := (Clock.bind c (fun x => k))
  (at level 10, x name, c at level 100, k at level 200).

(** ** The mock provider and the first registry:
       apps copy/backend/src (services/ai-service.ts) *)

Module MockAI.

Record TestStep : Type := mkStep {
  stepNumber : nat;
  action : string;
  step_expectedResult : string;
  step_testData : option string
}.

Record TestCase : Type := mkTestCase {
  tc_id : string;
  title : string;
  tc_description : string;
  module : string;
  tc_userType : string;
  priority : Priority;
  tags : list string;
  steps : list TestStep;
  expectedResult : string;
  testData : option string;
  preconditions : option (list string);
  postconditions : option (list string);
  sourceStoryId : option string
}.

Inductive TestingScope : Type := smoke | regression | full | custom.

Record TestGenerationContext : Type := mkContext {
  userStories : list GherkinUserStory;
  selectedModules : list string;
  userType : string;
  testingScope : TestingScope;
  includeNegativeTests : bool;
  includePerformanceTests : bool;
  includeSecurityTests : bool
}.

(** A value held by a tally.  The tallies are declared as
    [Record<string, number>] and built in a plain object, whose
    properties inherited from [Object.prototype] are read like its own:
    under such a name the tally gets a string instead of a number. *)
Inductive Tally : Type :=
| Count (n : nat)
| Text (s : string).

Record ResultSummary : Type := mkResultSummary {
  totalGenerated : nat;
  byModule : gmap string Tally;
  byPriority : gmap string Tally;
  generationTime : Z
}.

Record Metadata : Type := mkMetadata {
  provider : string;
  model : string;
  timestamp : string;
  context : TestGenerationContext
}.

Record TestGenerationResult : Type := mkResult {
  success : bool;
  testCases : list TestCase;
  summary : ResultSummary;
  errors : list string;
  metadata : Metadata
}.

Definition priority_name (p : Priority) : string :=
  match p with
  | low => "low" | medium => "medium" | high => "high" | critical => "critical"
  end.

(** [text.replace(/^<word>\s*/i, '')] for a lower-case [word]: the
    keyword at the start, in any letter case, and the white space after
    it are removed. *)
Fixpoint strip_prefix_ci (word text : string) : option string :=
  match word, text with
  | EmptyString, _ => Some text
  | String a word', String b text' =>
      if Ascii.eqb (Regex.canonicalize a) (Regex.canonicalize b)
      then strip_prefix_ci word' text' else None
  | String _ _, EmptyString => None
  end.

Definition strip_keyword (word text : string) : string :=
  match strip_prefix_ci word text with
  | Some rest => JS.trimStart rest
  | None => text
  end.

(** [story.priority || 'medium'] and [story.tags || []] *)
Definition story_priority (story : GherkinUserStory) : Priority :=
  match us_priority story with Some p => p | None => medium end.

Definition story_tags (story : GherkinUserStory) : list string :=
  match us_tags story with Some ts => ts | None => [] end.

(** What [Object.prototype] holds under a name: a built-in method, or
    the accessor [__proto__]. *)
Inductive Inherited : Type :=
| Method (name : string)
| ProtoAccessor.

(** The properties of [Object.prototype]; [constructor] is the
    function [Object], every other method is named like its property. *)
Definition Object_prototype (key : string) : option Inherited :=
  if String.eqb key "__proto__" then Some ProtoAccessor
  else if String.eqb key "constructor" then Some (Method "Object")
  else if existsb (String.eqb key)
            [ "__defineGetter__"; "__defineSetter__"; "hasOwnProperty";
              "__lookupGetter__"; "__lookupSetter__"; "isPrototypeOf";
              "propertyIsEnumerable"; "toString"; "valueOf"; "toLocaleString" ]
  then Some (Method key)
  else None.

(** [String(f)] for a built-in function [f], as Node renders it. *)
Definition native_source (name : string) : string :=
  "function " +:+ name +:+ "() { [native code] }".

(** [(acc[key] || 0) + 1] on a plain object [acc]: an own property is
    read first, an inherited one otherwise; a number is incremented, and
    [+ 1] appends [1] to a string and to the rendering of a function or
    of an object. *)
Definition incremented (key : string) (acc : gmap string Tally) : Tally :=
  match acc !! key with
  | Some (Count n) => Count (n + 1)
  | Some (Text s) => if JS.truthy s then Text (s +:+ "1") else Count 1
  | None =>
      match Object_prototype key with
      | Some (Method name) => Text (native_source name +:+ "1")
      | Some ProtoAccessor => Text ("[object Object]" +:+ "1")
      | None => Count 1
      end
  end.

(** [acc[key] = value] for a number or a string [value]: the setter of
    [__proto__] ignores a value that is neither an object nor [null];
    under any other name the object gets or updates an own property. *)
Definition assign (key : string) (value : Tally) (acc : gmap string Tally)
    : gmap string Tally :=
  match acc !! key, Object_prototype key with
  | None, Some ProtoAccessor => acc
  | _, _ => <[key := value]> acc
  end.

(** [acc[key] = (acc[key] || 0) + 1] *)
Definition bump (key : string) (acc : gmap string Tally) : gmap string Tally :=
  assign key (incremented key acc) acc.

Definition countByModule (testCases : list TestCase) : gmap string Tally :=
  fold_left (fun acc test => bump (module test) acc) testCases ∅.

Definition countByPriority (testCases : list TestCase) : gmap string Tally :=
  fold_left (fun acc test => bump (priority_name (priority test)) acc) testCases ∅.

Section Provider.

(** The n-th value of [Date.now()], and [new Date(t).toISOString()]. *)
Variable clock : nat -> Z.
Variable toISOString : Z -> string.

Definition navigate (module : string) : TestStep :=
  {| stepNumber := 1;
     action := "Navigate to " +:+ module +:+ " section";
     step_expectedResult := module +:+ " page loads successfully";
     step_testData := None |}.

Definition createPositiveTestCase (story : GherkinUserStory) (module : string)
    (context : TestGenerationContext) : Clock.M TestCase :=
  let* t := Clock.now clock in
  let testId := "TC_" +:+ us_id story +:+ "_" +:+ module +:+ "_POS_" +:+ JS.of_Z t in
  Clock.ret {|
    tc_id := testId;
    title := "Positive Test: " +:+ us_description story +:+ " - " +:+ module;
    tc_description := "Verify that " +:+ JS.toLowerCase (us_description story)
                      +:+ " works correctly for " +:+ module +:+ " module";
    module := module;
    tc_userType := userType context;
    priority := story_priority story;
    tags := ["positive"; "functional"; module] ++ story_tags story;
    steps :=
      [ navigate module;
        {| stepNumber := 2;
           action := strip_keyword "given" (us_given story);
           step_expectedResult := "Preconditions are met";
           step_testData := None |};
        {| stepNumber := 3;
           action := strip_keyword "when" (us_when story);
           step_expectedResult := "Action is performed successfully";
           step_testData := None |};
        {| stepNumber := 4;
           action := "Verify the result";
           step_expectedResult := strip_keyword "then" (us_then story);
           step_testData := None |} ];
    expectedResult := strip_keyword "then" (us_then story);
    testData := None;
    preconditions := Some
      [ "User is logged in with appropriate permissions";
        "Access to " +:+ module +:+ " module is available";
        "System is in stable state" ];
    postconditions := None;
    sourceStoryId := Some (us_id story)
  |}.

Definition createNegativeTestCase (story : GherkinUserStory) (module : string)
    (context : TestGenerationContext) : Clock.M TestCase :=
  let* t := Clock.now clock in
  let testId := "TC_" +:+ us_id story +:+ "_" +:+ module +:+ "_NEG_" +:+ JS.of_Z t in
  Clock.ret {|
    tc_id := testId;
    title := "Negative Test: " +:+ us_description story +:+ " - " +:+ module;
    tc_description := "Verify error handling when "
                      +:+ JS.toLowerCase (us_description story)
                      +:+ " fails in " +:+ module +:+ " module";
    module := module;
    tc_userType := userType context;
    priority := story_priority story;
    tags := ["negative"; "error-handling"; module] ++ story_tags story;
    steps :=
      [ navigate module;
        {| stepNumber := 2;
           action := "Set up invalid preconditions";
           step_expectedResult := "Invalid state is established";
           step_testData := None |};
        {| stepNumber := 3;
           action := strip_keyword "when" (us_when story);
           step_expectedResult := "System shows appropriate error message";
           step_testData := None |};
        {| stepNumber := 4;
           action := "Verify error handling";
           step_expectedResult :=
             "Appropriate error message is displayed and system remains stable";
           step_testData := None |} ];
    expectedResult :=
      "System handles error gracefully and shows meaningful error message";
    testData := None;
    preconditions := Some
      [ "User is logged in with appropriate permissions";
        "Invalid or insufficient data is prepared" ];
    postconditions := None;
    sourceStoryId := Some (us_id story)
  |}.

Definition createEdgeCaseTest (story : GherkinUserStory) (module : string)
    (context : TestGenerationContext) : Clock.M TestCase :=
  let* t := Clock.now clock in
  let testId := "TC_" +:+ us_id story +:+ "_" +:+ module +:+ "_EDGE_" +:+ JS.of_Z t in
  Clock.ret {|
    tc_id := testId;
    title := "Edge Case: " +:+ us_description story +:+ " - " +:+ module;
    tc_description := "Test boundary conditions for "
                      +:+ JS.toLowerCase (us_description story)
                      +:+ " in " +:+ module +:+ " module";
    module := module;
    tc_userType := userType context;
    priority := low;
    tags := ["edge-case"; "boundary"; module] ++ story_tags story;
    steps :=
      [ navigate module;
        {| stepNumber := 2;
           action := "Set up boundary conditions (max/min values)";
           step_expectedResult := "Boundary data is prepared";
           step_testData := None |};
        {| stepNumber := 3;
           action := strip_keyword "when" (us_when story) +:+ " with boundary values";
           step_expectedResult := "Action completes with boundary data";
           step_testData := None |};
        {| stepNumber := 4;
           action := "Verify boundary behavior";
           step_expectedResult := "System handles boundary conditions correctly";
           step_testData := None |} ];
    expectedResult := "System processes boundary conditions appropriately";
    testData := None;
    preconditions := Some
      [ "User is logged in with appropriate permissions";
        "Boundary test data is available" ];
    postconditions := None;
    sourceStoryId := Some (us_id story)
  |}.

(** The body of the inner loop, for one story and one module. *)
Definition generate_pair (context : TestGenerationContext)
    (story : GherkinUserStory) (module : string) (testCases : list TestCase)
    : Clock.M (list TestCase) :=
  let* positiveTest := createPositiveTestCase story module context in
  let testCases := testCases ++ [positiveTest] in
  let* testCases :=
    (if includeNegativeTests context
     then let* negativeTest := createNegativeTestCase story module context in
          Clock.ret (testCases ++ [negativeTest])
     else Clock.ret testCases) in
  let* edgeTest := createEdgeCaseTest story module context in
  Clock.ret (testCases ++ [edgeTest]).

(** [for (const module of context.selectedModules)] *)
Fixpoint for_modules (context : TestGenerationContext) (story : GherkinUserStory)
    (modules : list string) (testCases : list TestCase)
    : Clock.M (list TestCase) :=
  match modules with
  | [] => Clock.ret testCases
  | module :: rest =>
      let* testCases := generate_pair context story module testCases in
      for_modules context story rest testCases
  end.

(** [for (const story of context.userStories)] *)
Fixpoint for_stories (context : TestGenerationContext)
    (stories : list GherkinUserStory) (testCases : list TestCase)
    : Clock.M (list TestCase) :=
  match stories with
  | [] => Clock.ret testCases
  | story :: rest =>
      let* testCases := for_modules context story (selectedModules context) testCases in
      for_stories context rest testCases
  end.

Definition mock_name : string := "Mock AI Provider".
Definition mock_model : string := "mock-v1.0".

(** [MockAIProvider.generateTestCases].  With a context of the
    declared type no statement of the [try] block throws, so the
    [catch] branch is not entered. *)
Definition generateTestCases (context : TestGenerationContext)
    : Clock.M TestGenerationResult :=
  let* startTime := Clock.now clock in
  let* testCases := for_stories context (userStories context) [] in
  let* endTime := Clock.now clock in
  let generationTime := (endTime - startTime)%Z in
  let summary :=
    {| totalGenerated := length testCases;
       byModule := countByModule testCases;
       byPriority := countByPriority testCases;
       generationTime := generationTime |} in
  let* stamp := Clock.now clock in
  Clock.ret {|
    success := true;
    testCases := testCases;
    summary := summary;
    errors := [];
    metadata := {| provider := mock_name; model := mock_model;
                   timestamp := toISOString stamp; context := context |}
  |}.

(** [MockAIProvider.validateConfiguration] *)
Definition validateConfiguration : Clock.M bool := Clock.ret true.

End Provider.

End MockAI.

(** ** The provider registries

    A provider is an object with two asynchronous operations.  Whatever
    they do (network calls, clock readings) is an effect on a state of
    type [World]; the callers await them one after the other, so a call
    is a state transformer.  A thrown [Error] is modelled by its
    message. *)

Module Registry.

Section Providers.

Variables World Context Result : Type.

(** [abstract class BaseAIProvider] *)
Record BaseAIProvider : Type := mkProvider {
  name : string;
  model : string;
  validateConfiguration : World -> bool * World;
  generateTestCases : Context -> World -> Result * World
}.

(** [class AIService] of apps copy/backend. *)
Record AIServiceCopy : Type := mkServiceCopy {
  copy_providers : gmap string BaseAIProvider;
  copy_defaultProvider : string
}.

(** [providerName || this.defaultProvider], for an optional
    argument. *)
Definition selectedProvider (service : AIServiceCopy)
    (providerName : option string) : string :=
  match providerName with
  | Some given => JS.or_else given (copy_defaultProvider service)
  | None => copy_defaultProvider service
  end.

Definition registerProvider (name : string) (provider : BaseAIProvider)
    (service : AIServiceCopy) : AIServiceCopy :=
  {| copy_providers := <[name := provider]> (copy_providers service);
     copy_defaultProvider := copy_defaultProvider service |}.

(** [AIService.generateTestCases(context, providerName?)] of
    apps copy/backend. *)
Definition generateTestCases_copy (service : AIServiceCopy)
    (context : Context) (providerName : option string) (w : World)
    : (string + Result) * World :=
  let selected := selectedProvider service providerName in
  match copy_providers service !! selected with
  | None => (inl ("AI provider '" +:+ selected +:+ "' not found"), w)
  | Some provider =>
      let '(isValid, w) := validateConfiguration provider w in
      if isValid
      then let '(result, w) := generateTestCases provider context w in
           (inr result, w)
      else (inl ("AI provider '" +:+ selected +:+ "' is not properly configured"), w)
  end.

(** [class AIService] with the environment-configured providers
    (the second registry). *)
Record AIService : Type := mkService {
  providers : gmap string BaseAIProvider;
  defaultProvider : string
}.

(** [AIService.generateTestCases(providerName, context)] of the
    second registry. *)
Definition generateTestCases_env (service : AIService)
    (providerName : string) (context : Context) (w : World)
    : (string + Result) * World :=
  match providers service !! providerName with
  | None => (inl ("Provider " +:+ providerName +:+ " not found"), w)
  | Some provider =>
      let '(isValid, w) := validateConfiguration provider w in
      if isValid
      then let '(result, w) := generateTestCases provider context w in
           (inr result, w)
      else (inl ("Provider " +:+ providerName +:+ " configuration is invalid"), w)
  end.

End Providers.

Arguments name {World Context Result} _.
Arguments model {World Context Result} _.
Arguments validateConfiguration {World Context Result} _ _.
Arguments generateTestCases {World Context Result} _ _ _.
Arguments mkProvider {World Context Result} _ _ _ _.
Arguments copy_providers {World Context Result} _.
Arguments copy_defaultProvider {World Context Result} _.
Arguments mkServiceCopy {World Context Result} _ _.
Arguments selectedProvider {World Context Result} _ _.
Arguments registerProvider {World Context Result} _ _ _.
Arguments generateTestCases_copy {World Context Result} _ _ _ _.
Arguments providers {World Context Result} _.
Arguments defaultProvider {World Context Result} _.
Arguments mkService {World Context Result} _ _.
Arguments generateTestCases_env {World Context Result} _ _ _ _.

(** [new MockAIProvider()]: its world is the number of clock readings. *)
Definition MockAIProvider (clock : nat -> Z) (toISOString : Z -> string)
    : BaseAIProvider nat MockAI.TestGenerationContext MockAI.TestGenerationResult :=
  {| name := MockAI.mock_name;
     model := MockAI.mock_model;
     validateConfiguration := MockAI.validateConfiguration;
     generateTestCases := MockAI.generateTestCases clock toISOString |}.

(** [new AIService()] of apps copy/backend: the constructor registers
    the mock provider under the name [mock]. *)
Definition new_AIServiceCopy (clock : nat -> Z) (toISOString : Z -> string)
    : AIServiceCopy nat MockAI.TestGenerationContext MockAI.TestGenerationResult :=
  registerProvider "mock" (MockAIProvider clock toISOString)
    {| copy_providers := ∅; copy_defaultProvider := "mock" |}.

End Registry.

(** ** The remote adapters (OpenAI and Gemini) *)

Module Remote.

Record ResultMetadata : Type := mkResultMetadata {
  totalGenerated : nat;
  successful : nat;
  failed : nat;
  warnings : list string
}.

(** [interface TestGenerationResult] of the adapters.  It has no
    [success] property. *)
Record TestGenerationResult (TestCase : Type) : Type := mkResult {
  testCases : list TestCase;
  generationTime : Z;
  tokensUsed : option nat;
  model : option string;
  provider : string;
  metadata : ResultMetadata
}.

Arguments mkResult {TestCase} _ _ _ _ _ _.
Arguments testCases {TestCase} _.
Arguments generationTime {TestCase} _.
Arguments tokensUsed {TestCase} _.
Arguments model {TestCase} _.
Arguments provider {TestCase} _.
Arguments metadata {TestCase} _.

(** The names of the properties of a result object that hold a value,
    in the order of the object literals that build it ([model] and
    [tokensUsed] may be [undefined]). *)
Definition property_names {TestCase} (r : TestGenerationResult TestCase)
    : list string :=
  ["testCases"; "generationTime"]
  ++ (if tokensUsed r is Some _ then ["tokensUsed"] else [])
  ++ (if model r is Some _ then ["model"] else [])
  ++ ["provider"; "metadata"].

(** What the completion endpoint of OpenAI answers, as far as the
    adapter reads it: [choices[0]?.message?.content] and
    [usage?.total_tokens]. *)
Record ChatCompletion : Type := mkCompletion {
  content : option string;
  total_tokens : option nat
}.

(** The length of a match of [```json\n?|\n?```] at the start of [s]. *)
Definition fence_length (s : string) : option nat :=
  if JS.startsWith "```json" s then
    Some (if JS.startsWith (String (ascii_of_nat 10) EmptyString)
               (String.substring 7 1 s) then 8 else 7)
  else if JS.startsWith "```" s then Some 3
  else if JS.startsWith (String (ascii_of_nat 10) "```") s then Some 4
  else None.

(** [content.replace(/```json\n?|\n?```/g, '')]; [skip] counts the
    characters of the current match still to be dropped. *)
Fixpoint strip_fences (skip : nat) (s : string) : string :=
  match s with
  | EmptyString => EmptyString
  | String c s' =>
      match skip with
      | S k => strip_fences k s'
      | O =>
          match fence_length s with
          | Some n => strip_fences (n - 1) s'
          | None => String c (strip_fences 0 s')
          end
      end
  end.

Inductive Adapter : Type := OpenAI | Gemini.

Definition adapter_name (a : Adapter) : string :=
  match a with OpenAI => "OpenAI" | Gemini => "Google Gemini" end.

Section Adapters.

(** Declarations that the sources import from elsewhere. *)
Variables TestCase TestGenerationContext Json : Type.

(** [BaseAIProvider.buildAirlinePrompt], a text rendered from the
    context alone. *)
Variable buildAirlinePrompt : TestGenerationContext -> string.

(** The external services: each call either throws an [Error] (left,
    its message) or answers.  The arguments are the model name and
    the prompt. *)
Variable openai_create : string -> string -> string + ChatCompletion.
Variable gemini_generateContent : string -> string -> string + string.

(** [JSON.parse], and the reading of [parsed.testCases || []], which
    throws a [TypeError] when [parsed] is [null].  The reading follows
    the declared type of the result: what is kept is an array.  The
    answers outside that type are the matter of [RemoteJson]. *)
Variable JSON_parse : string -> string + Json.
Variable testCases_of : Json -> string + list TestCase.

Variable clock : nat -> Z.

(** [try { body } catch (error) { handler }]; in a computation [inl]
    is a throw, carrying the message of the error. *)
Definition try_catch {A : Type} (body : Clock.M (string + A))
    (handler : string -> Clock.M (string + A)) : Clock.M (string + A) :=
  let* outcome := body in
  match outcome with
  | inr a => Clock.ret (inr a)
  | inl message => handler message
  end.

(** The [catch] block shared by both adapters. *)
Definition on_failure (a : Adapter) (startTime : Z) (message : string)
    : Clock.M (string + TestGenerationResult TestCase) :=
  let* t := Clock.now clock in
  let generationTime := (t - startTime)%Z in
  Clock.ret (inr {|
    testCases := [];
    generationTime := generationTime;
    tokensUsed := None;
    model := None;
    provider := adapter_name a;
    metadata := {| totalGenerated := 0; successful := 0; failed := 1;
                   warnings := ["Generation failed: " +:+ message] |}
  |}).

(** The statements after the response has been received: parse it
    and build the result. *)
Definition parse_response (a : Adapter) (model_name text : string)
    (generationTime : Z) (tokens : option nat)
    : string + TestGenerationResult TestCase :=
  match JSON_parse text with
  | inl e => inl e
  | inr parsedResponse =>
      match testCases_of parsedResponse with
      | inl e => inl e
      | inr cases =>
          inr {| testCases := cases;
                 generationTime := generationTime;
                 tokensUsed := tokens;
                 model := Some model_name;
                 provider := adapter_name a;
                 metadata := {| totalGenerated := length cases;
                                successful := length cases;
                                failed := 0;
                                warnings := [] |} |}
      end
  end.

(** The [try] block of [OpenAIProvider.generateTestCases]. *)
Definition openai_try (model_name : string) (context : TestGenerationContext)
    (startTime : Z) : Clock.M (string + TestGenerationResult TestCase) :=
  let prompt := buildAirlinePrompt context in
  match openai_create model_name prompt with
  | inl e => Clock.ret (inl e)
  | inr response =>
      let* t := Clock.now clock in
      let generationTime := (t - startTime)%Z in
      match content response with
      | Some text =>
          if JS.truthy text
          then Clock.ret (parse_response OpenAI model_name text generationTime
                            (total_tokens response))
          else Clock.ret (inl "No content received from OpenAI")
      | None => Clock.ret (inl "No content received from OpenAI")
      end
  end.

(** The [try] block of [GeminiProvider.generateTestCases]. *)
Definition gemini_try (model_name : string) (context : TestGenerationContext)
    (startTime : Z) : Clock.M (string + TestGenerationResult TestCase) :=
  let prompt := buildAirlinePrompt context in
  match gemini_generateContent model_name prompt with
  | inl e => Clock.ret (inl e)
  | inr text =>
      let* t := Clock.now clock in
      let generationTime := (t - startTime)%Z in
      let cleanedContent := JS.trim (strip_fences 0 text) in
      Clock.ret (parse_response Gemini model_name cleanedContent generationTime None)
  end.

(** The [try] block of an adapter. *)
Definition attempt (a : Adapter) (model_name : string)
    (context : TestGenerationContext) (startTime : Z)
    : Clock.M (string + TestGenerationResult TestCase) :=
  match a with
  | OpenAI => openai_try model_name context startTime
  | Gemini => gemini_try model_name context startTime
  end.

(** [generateTestCases] of an adapter: what the caller gets is the
    result ([inr]) or a thrown error ([inl]). *)
Definition generateTestCases (a : Adapter) (model_name : string)
    (context : TestGenerationContext)
    : Clock.M (string + TestGenerationResult TestCase) :=
  let* startTime := Clock.now clock in
  try_catch (attempt a model_name context startTime)
            (on_failure a startTime).

(** The ways in which the external call or the handling of its
    answer fails, with the message of the thrown error. *)
Inductive Fails (model_name : string) (context : TestGenerationContext)
    : Adapter -> string -> Prop :=
| openai_call_fails e :
    openai_create model_name (buildAirlinePrompt context) = inl e ->
    Fails model_name context OpenAI e
| openai_no_content response :
    openai_create model_name (buildAirlinePrompt context) = inr response ->
    content response = None \/ content response = Some "" ->
    Fails model_name context OpenAI "No content received from OpenAI"
| openai_parse_fails response text e :
    openai_create model_name (buildAirlinePrompt context) = inr response ->
    content response = Some text -> text <> "" ->
    JSON_parse text = inl e ->
    Fails model_name context OpenAI e
| openai_shape_fails response text parsed e :
    openai_create model_name (buildAirlinePrompt context) = inr response ->
    content response = Some text -> text <> "" ->
    JSON_parse text = inr parsed -> testCases_of parsed = inl e ->
    Fails model_name context OpenAI e
| gemini_call_fails e :
    gemini_generateContent model_name (buildAirlinePrompt context) = inl e ->
    Fails model_name context Gemini e
| gemini_parse_fails text e :
    gemini_generateContent model_name (buildAirlinePrompt context) = inr text ->
    JSON_parse (JS.trim (strip_fences 0 text)) = inl e ->
    Fails model_name context Gemini e
| gemini_shape_fails text parsed e :
    gemini_generateContent model_name (buildAirlinePrompt context) = inr text ->
    JSON_parse (JS.trim (strip_fences 0 text)) = inr parsed ->
    testCases_of parsed = inl e ->
    Fails model_name context Gemini e.

End Adapters.

End Remote.

(** ** The adapters on answers of any shape

    [Remote] follows the declared type of the result, in which
    [testCases] is an array.  Nothing checks what [JSON.parse] returns
    against that type: the adapters keep any truthy [testCases] of the
    answer and read its [length].  This module models the same
    statements on arbitrary JSON values. *)

Module RemoteJson.

(** A value of [JSON.parse].  Of a number the adapters see its
    truthiness only.  The members of an object are in the order of the
    text; a name that is repeated holds its last value. *)
#[warnings="-register-all"] Inductive Json : Type :=
| JNull
| JBool (b : bool)
| JNumber (nonzero : bool) (literal : string)
| JString (s : string)
| JArray (items : list Json)
| JObject (members : list (string * Json)).

Definition truthy (v : Json) : bool :=
  match v with
  | JNull => false
  | JBool b => b
  | JNumber nonzero _ => nonzero
  | JString s => JS.truthy s
  | JArray _ | JObject _ => true
  end.

(** The own property [key] of a parsed object. *)
Fixpoint member (key : string) (members : list (string * Json)) : option Json :=
  match members with
  | [] => None
  | (name, v) :: rest =>
      match member key rest with
      | Some later => Some later
      | None => if String.eqb name key then Some v else None
      end
  end.

(** What the property [length] of a value is: a number, [undefined],
    or the member of that name of a parsed object. *)
Inductive Length : Type :=
| Number (n : nat)
| Undefined
| Value (v : Json).

Record ResultMetadata : Type := mkResultMetadata {
  totalGenerated : Length;
  successful : Length;
  failed : nat;
  warnings : list string
}.

(** The result object of an adapter, as it is at run time. *)
Record TestGenerationResult : Type := mkResult {
  testCases : Json;
  generationTime : Z;
  tokensUsed : option nat;
  model : option string;
  provider : string;
  metadata : ResultMetadata
}.

Section Adapters.

Variable TestGenerationContext : Type.
Variable buildAirlinePrompt : TestGenerationContext -> string.

(** The external services and [JSON.parse], as in [Remote]. *)
Variable openai_create : string -> string -> string + Remote.ChatCompletion.
Variable gemini_generateContent : string -> string -> string + string.
Variable JSON_parse : string -> string + Json.

(** The message of the [TypeError] for reading a property of [null]. *)
Variable null_read : string -> string.

Variable clock : nat -> Z.

(** [value.<property>]: [null] has no properties; an object has its
    members ([Object.prototype] has neither [testCases] nor [length]);
    an array and a string have a [length]; anything else has neither
    property. *)
Definition get_testCases (value : Json) : string + option Json :=
  match value with
  | JNull => inl (null_read "testCases")
  | JObject members => inr (member "testCases" members)
  | _ => inr None
  end.

Definition get_length (value : Json) : string + Length :=
  match value with
  | JNull => inl (null_read "length")
  | JArray items => inr (Number (length items))
  | JString s => inr (Number (String.length s))
  | JObject members =>
      inr (match member "length" members with
           | Some v => Value v
           | None => Undefined
           end)
  | JBool _ | JNumber _ _ => inr Undefined
  end.

(** [field || []] *)
Definition or_empty (field : option Json) : Json :=
  match field with
  | Some v => if truthy v then v else JArray []
  | None => JArray []
  end.

(** The [catch] block shared by both adapters. *)
Definition on_failure (a : Remote.Adapter) (startTime : Z) (message : string)
    : Clock.M (string + TestGenerationResult) :=
  let* t := Clock.now clock in
  let generationTime := (t - startTime)%Z in
  Clock.ret (inr {|
    testCases := JArray [];
    generationTime := generationTime;
    tokensUsed := None;
    model := None;
    provider := Remote.adapter_name a;
    metadata := {| totalGenerated := Number 0; successful := Number 0; failed := 1;
                   warnings := ["Generation failed: " +:+ message] |}
  |}).

(** The statements after the response has been received:
    [JSON.parse], [parsedResponse.testCases || []] and the object
    literal of the result, which reads [testCases.length] twice. *)
Definition parse_response (a : Remote.Adapter) (model_name text : string)
    (generationTime : Z) (tokens : option nat)
    : string + TestGenerationResult :=
  match JSON_parse text with
  | inl e => inl e
  | inr parsedResponse =>
      match get_testCases parsedResponse with
      | inl e => inl e
      | inr field =>
          let testCases := or_empty field in
          match get_length testCases with
          | inl e => inl e
          | inr count =>
              inr {| testCases := testCases;
                     generationTime := generationTime;
                     tokensUsed := tokens;
                     model := Some model_name;
                     provider := Remote.adapter_name a;
                     metadata := {| totalGenerated := count;
                                    successful := count;
                                    failed := 0;
                                    warnings := [] |} |}
          end
      end
  end.

(** The [try] block of [OpenAIProvider.generateTestCases]. *)
Definition openai_try (model_name : string) (context : TestGenerationContext)
    (startTime : Z) : Clock.M (string + TestGenerationResult) :=
  let prompt := buildAirlinePrompt context in
  match openai_create model_name prompt with
  | inl e => Clock.ret (inl e)
  | inr response =>
      let* t := Clock.now clock in
      let generationTime := (t - startTime)%Z in
      match Remote.content response with
      | Some text =>
          if JS.truthy text
          then Clock.ret (parse_response Remote.OpenAI model_name text generationTime
                            (Remote.total_tokens response))
          else Clock.ret (inl "No content received from OpenAI")
      | None => Clock.ret (inl "No content received from OpenAI")
      end
  end.

(** The [try] block of [GeminiProvider.generateTestCases]. *)
Definition gemini_try (model_name : string) (context : TestGenerationContext)
    (startTime : Z) : Clock.M (string + TestGenerationResult) :=
  let prompt := buildAirlinePrompt context in
  match gemini_generateContent model_name prompt with
  | inl e => Clock.ret (inl e)
  | inr text =>
      let* t := Clock.now clock in
      let generationTime := (t - startTime)%Z in
      let cleanedContent := JS.trim (Remote.strip_fences 0 text) in
      Clock.ret (parse_response Remote.Gemini model_name cleanedContent
                   generationTime None)
  end.

Definition attempt (a : Remote.Adapter) (model_name : string)
    (context : TestGenerationContext) (startTime : Z)
    : Clock.M (string + TestGenerationResult) :=
  match a with
  | Remote.OpenAI => openai_try model_name context startTime
  | Remote.Gemini => gemini_try model_name context startTime
  end.

(** [generateTestCases] of an adapter. *)
Definition generateTestCases (a : Remote.Adapter) (model_name : string)
    (context : TestGenerationContext)
    : Clock.M (string + TestGenerationResult) :=
  let* startTime := Clock.now clock in
  Remote.try_catch (attempt a model_name context startTime)
                   (on_failure a startTime).

End Adapters.

End RemoteJson.

(** ** The start-up of the second registry and the other operations of
       the two registries *)

Module RegistryInit.

Import Registry.

(** The environment variables that [initializeProviders] reads; an unset
    variable is [None]. *)
Record Env : Type := mkEnv {
  OPENAI_API_KEY : option string;
  OPENAI_MODEL : option string;
  GEMINI_API_KEY : option string;
  GEMINI_MODEL : option string
}.

(** [value || fallback] for a variable of the environment. *)
Definition or_default (value : option string) (fallback : string) : string :=
  match value with
  | Some s => JS.or_else s fallback
  | None => fallback
  end.

Section Init.

Variables World Context Result : Type.

(** [new OpenAIProvider(key, model)], [new GeminiProvider(key, model)]
    and [new MockAIProvider()]. *)
Variable new_OpenAIProvider : string -> string -> BaseAIProvider World Context Result.
Variable new_GeminiProvider : string -> string -> BaseAIProvider World Context Result.
Variable new_MockAIProvider : BaseAIProvider World Context Result.

(** [new AIService()] of the second registry: the field initialisers
    and [initializeProviders]. *)
Definition initializeProviders (env : Env) : AIService World Context Result :=
  let service := {| providers := ∅; defaultProvider := "mock" |} in
  let service :=
    match OPENAI_API_KEY env with
    | Some openaiKey =>
        if JS.truthy openaiKey
        then {| providers :=
                  <["openai" := new_OpenAIProvider openaiKey
                                  (or_default (OPENAI_MODEL env) "gpt-4")]>
                    (providers service);
                defaultProvider := "openai" |}
        else service
    | None => service
    end in
  let service :=
    match GEMINI_API_KEY env with
    | Some geminiKey =>
        if JS.truthy geminiKey
        then {| providers :=
                  <["gemini" := new_GeminiProvider geminiKey
                                  (or_default (GEMINI_MODEL env) "gemini-pro")]>
                    (providers service);
                defaultProvider :=
                  if String.eqb (defaultProvider service) "mock"
                  then "gemini" else defaultProvider service |}
        else service
    | None => service
    end in
  {| providers := <["mock" := new_MockAIProvider]> (providers service);
     defaultProvider := defaultProvider service |}.

(** [getDefaultProvider()] *)
Definition getDefaultProvider (service : AIService World Context Result) : string :=
  defaultProvider service.

(** [validateProvider(providerName)] of the first registry. *)
Definition validateProvider (service : AIServiceCopy World Context Result)
    (providerName : string) (w : World) : bool * World :=
  match copy_providers service !! providerName with
  | None => (false, w)
  | Some provider => validateConfiguration provider w
  end.

End Init.

Arguments initializeProviders {World Context Result} _ _ _ _.
Arguments getDefaultProvider {World Context Result} _.
Arguments validateProvider {World Context Result} _ _ _.

End RegistryInit.

(** ** Authentication: the service and the guards of the routes

    The database client, the password hashing and the token library are
    outside the sources; they are parameters.  A call that throws an
    [Error] returns its message on the left. *)

Module Auth.

(** [s.split(' ')] *)
Fixpoint split_space (s : string) : list string :=
  match s with
  | EmptyString => [EmptyString]
  | String c s' =>
      if Ascii.eqb c " "%char then EmptyString :: split_space s'
      else match split_space s' with
           | [] => [String c EmptyString]
           | piece :: pieces => String c piece :: pieces
           end
  end.

(** [interface JwtPayload] *)
Record JwtPayload : Type := mkPayload {
  userId : string;
  payload_email : string;
  payload_role : string
}.

(** What a guard does with a request: it answers with a status and a
    message ([success] is false in all its answers), or it calls
    [next()], the request carrying the user. *)
Inductive Guard : Type :=
| Answer (status : nat) (message : string)
| Next (user : option JwtPayload).

(** The errors of [jwt.verify] as the guard tells them apart:
    [TokenExpiredError], any other [JsonWebTokenError], anything else. *)
Inductive VerifyError : Type :=
| TokenExpiredError
| JsonWebTokenError
| OtherError.

Section Middleware.

(** [jwt.verify(token, process.env.JWT_SECRET)] *)
Variable jwt_verify : string -> VerifyError + JwtPayload.

(** [authMiddleware]; [authorization] is the header of that name. *)
Definition authMiddleware (authorization : option string) : Guard :=
  match authorization with
  | None => Answer 401 "No authorization header provided"
  | Some authHeader =>
      if negb (JS.truthy authHeader)
      then Answer 401 "No authorization header provided"
      else
        match split_space authHeader !! 1 with
        | None => Answer 401 "No token provided"
        | Some token =>
            if negb (JS.truthy token) then Answer 401 "No token provided"
            else
              match jwt_verify token with
              | inr decoded => Next (Some decoded)
              | inl TokenExpiredError => Answer 401 "Token expired"
              | inl JsonWebTokenError => Answer 401 "Invalid token"
              | inl OtherError => Answer 401 "Authentication failed"
              end
        end
  end.

End Middleware.





(** A row of the users table, as far as the service reads it. *)
Record User : Type := mkUser {
  user_id : string;
  user_email : string;
  user_name : string;
  user_password : string;
  user_role : string;
  user_department : option string
}.

(** The [data] of [prisma.user.create]. *)
Record UserData : Type := mkUserData {
  data_email : string;
  data_name : string;
  data_password : string;
  data_role : string;
  data_department : option string
}.

(** The argument of [register]; [role] and [department] are optional. *)
Record Registration : Type := mkRegistration {
  reg_email : string;
  reg_name : string;
  reg_password : string;
  reg_role : option string;
  reg_department : option string
}.

(** The [user] of an [AuthResult]. *)
Record PublicUser : Type := mkPublicUser {
  pub_id : string;
  pub_email : string;
  pub_name : string;
  pub_role : string;
  pub_department : option string
}.

Record AuthResult : Type := mkAuthResult {
  user : PublicUser;
  token : string
}.

(** [value || undefined] and [value || fallback] for optional strings. *)
Definition or_undefined (value : option string) : option string :=
  match value with
  | Some s => if JS.truthy s then Some s else None
  | None => None
  end.

Definition or_string (value : option string) (fallback : string) : string :=
  match value with
  | Some s => JS.or_else s fallback
  | None => fallback
  end.

Definition public (u : User) : PublicUser :=
  {| pub_id := user_id u; pub_email := user_email u; pub_name := user_name u;
     pub_role := user_role u; pub_department := or_undefined (user_department u) |}.

Definition payload_of (u : User) : JwtPayload :=
  {| userId := user_id u; payload_email := user_email u; payload_role := user_role u |}.

Section Service.

(** The state of the database. *)
Variable DB : Type.

(** [prisma.user.findUnique({ where: { email } })], a read. *)
Variable findUnique : string -> DB -> option User.

(** [prisma.user.create({ data })] and
    [prisma.user.update({ where: { id }, data: { lastLogin } })]; the
    time of the login is the second argument of the update. *)
Variable create : UserData -> DB -> (string + User) * DB.
Variable update_lastLogin : string -> Z -> DB -> (string + unit) * DB.

(** [bcrypt.compare(password, hash)] and [bcrypt.hash(password, rounds)],
    whose salt is drawn from the n-th reading of the random source. *)
Variable bcrypt_compare : string -> string -> bool.
Variable bcrypt_hash : string -> nat -> nat -> string.

(** [jwt.sign(payload, process.env.JWT_SECRET, { expiresIn: '7d' })] at
    a time. *)
Variable jwt_sign : JwtPayload -> Z -> string + string.

Variable clock : nat -> Z.

(** The state that the service acts on: the database and the number of
    readings of the clock and of the random source made so far. *)
Definition World : Type := (DB * nat)%type.

(** [AuthService.login] *)
Definition login (email password : string) (w : World)
    : (string + AuthResult) * World :=
  let '(db, n) := w in
  match findUnique email db with
  | None => (inl "Invalid email or password", (db, n))
  | Some u =>
      if negb (bcrypt_compare password (user_password u))
      then (inl "Invalid email or password", (db, n))
      else
        match update_lastLogin (user_id u) (clock n) db with
        | (inl e, db') => (inl e, (db', S n))
        | (inr _, db') =>
            match jwt_sign (payload_of u) (clock (S n)) with
            | inl e => (inl e, (db', S (S n)))
            | inr signed =>
                (inr {| user := public u; token := signed |}, (db', S (S n)))
            end
        end
  end.

(** [AuthService.register] *)
Definition register (userData : Registration) (w : World)
    : (string + AuthResult) * World :=
  let '(db, n) := w in
  match findUnique (reg_email userData) db with
  | Some _ => (inl "User with this email already exists", (db, n))
  | None =>
      if Nat.ltb (String.length (reg_password userData)) 6
      then (inl "Password must be at least 6 characters long", (db, n))
      else
        let hashedPassword := bcrypt_hash (reg_password userData) 10 n in
        match create {| data_email := reg_email userData;
                        data_name := reg_name userData;
                        data_password := hashedPassword;
                        data_role := or_string (reg_role userData) "QA_ANALYST";
                        data_department := reg_department userData |} db with
        | (inl e, db') => (inl e, (db', S n))
        | (inr u, db') =>
            match jwt_sign (payload_of u) (clock (S n)) with
            | inl e => (inl e, (db', S (S n)))
            | inr signed =>
                (inr {| user := public u; token := signed |}, (db', S (S n)))
            end
        end
  end.

End Service.

Arguments login {DB}.
Arguments register {DB}.

End Auth.

(** * The vocabulary of the properties *)

(** A header row of string cells, and a data row of string cells. *)
Definition sheet (headers : list string) : list cell := map CStr headers.

(** ** The header-to-field mapper *)

Module MapperSpec.

(** The first field, in the enumeration order of [ps], whose pattern
    matches the text. *)
Definition first_matching (ps : list (string * Regex.pattern)) (text : string)
    : option string :=
  option_map fst (List.find (fun fp => Regex.test (snd fp) text) ps).


(** The field that a header cell of the current parser stands for:
    the first field matching its trimmed, lower-cased text; none for
    an empty or non-string cell. *)
Definition header_field (header : cell) : option string :=
  match header with
  | CStr h =>
      if JS.truthy h
      then first_matching Backend.columnPatterns (JS.toLowerCase (JS.trim h))
      else None
  | COther _ _ => None
  end.

(** The last column of the row whose header stands for [field]. *)
Fixpoint last_column (headerRow : list cell) (field : string) : option nat :=
  match headerRow with
  | [] => None
  | header :: rest =>
      match last_column rest field with
      | Some i => Some (S i)
      | None => if decide (header_field header = Some field) then Some 0 else None
      end
  end.

(** First-match-wins per field, as a property of a scanning function:
    a column appended to the row never changes a field that an earlier
    column has claimed. *)
Definition first_match_wins
    (scan : list cell -> nat -> gmap string nat -> gmap string nat) : Prop :=
  forall (headerRow : list cell) (later : cell) (field : string) (i : nat),
    scan headerRow 0 ∅ !! field = Some i ->
    scan (headerRow ++ [later]) 0 ∅ !! field = Some i.

(** A header row recognises [field] when some column holds a string
    that the pattern of [field] matches (after trimming, in any letter
    case). *)
Definition recognised (ps : list (string * Regex.pattern)) (headerRow : list cell)
    (field : string) : Prop :=
  exists (h : string) (pattern : Regex.pattern),
    In (CStr h) headerRow /\ In (field, pattern) ps
    /\ Regex.test pattern (JS.toLowerCase (JS.trim h)) = true.

(** A header row that names the Then column [Outcome]. *)
Definition outcome_row : list cell :=
  sheet ["Description"; "Given"; "When"; "Outcome"].

End MapperSpec.

(** ** The rows of the current parser *)

Module RowSpec.

(** The four required fields, in the order in which [parseRow] checks
    them. *)
Inductive Required : Type := Description | Given | When | Then.

Definition key (r : Required) : string :=
  match r with
  | Description => "description" | Given => "given"
  | When => "when" | Then => "then"
  end.

(** The name of the field in the error message. *)
Definition label (r : Required) : string :=
  match r with
  | Description => "Description" | Given => "Given condition"
  | When => "When action" | Then => "Then result"
  end.

Definition rank (r : Required) : nat :=
  match r with Description => 0 | Given => 1 | When => 2 | Then => 3 end.

(** The trimmed text of the cell that the mapping assigns to a
    property name; empty when the column is absent or out of range. *)
Definition cell_text (mapping : gmap string nat) (row : list cell)
    (property : string) : string :=
  Backend.getCellValue row (mapping !! property).

Definition required_text (mapping : gmap string nat) (row : list cell)
    (r : Required) : string :=
  cell_text mapping row (key r).

(** What the rows from index [first] on add to the two sequences. *)
Definition rows_from (mapping : gmap string nat) (rows : list (list cell))
    (first : nat) : list GherkinUserStory * list string :=
  Backend.scan_rows mapping rows first ([], []).

(** The mapping of the header row Description, Given, When, Then. *)
Definition plain : gmap string nat :=
  Backend.scan_headers (sheet ["Description"; "Given"; "When"; "Then"]) 0 ∅.

(** [result] is [value], or [fallback] when [value] is empty. *)
Definition defaulted (value fallback result : string) : Prop :=
  (value <> "" -> result = value) /\ (value = "" -> result = fallback).

End RowSpec.

(** ** The reports and the record validators *)

Module ReportSpec.

(** The invariant that C5 claims of a report: the count of valid rows
    is the number of records, and [success] holds exactly when there
    are no errors. *)
Definition coherent {Record_ : Type} (success : bool) (records : list Record_)
    (errors : list string) (valid : nat) : Prop :=
  valid = length records /\ (success = true <-> errors = []).

(** C5 read on the report of the earlier parser. *)
Definition copy_coherent (grid : list (list cell)) : Prop :=
  let r := BackendCopy.parseWorksheet grid in
  coherent (BackendCopy.success r) (BackendCopy.userStories r)
    (BackendCopy.errors r) (BackendCopy.validStories (BackendCopy.summary r)).

End ReportSpec.

Module ValidatorSpec.

Import RowSpec.

(** The word that a Given, When or Then text should start with. *)
Definition keyword (r : Required) : string :=
  match r with
  | Description => "" | Given => "Given" | When => "When" | Then => "Then"
  end.

Definition required_message (r : Required) : string :=
  label r +:+ " is required".

Definition prefix_message (r : Required) : string :=
  label r +:+ " should start with " +:+ JS.dquote +:+ keyword r +:+ JS.dquote.

(** The value of a required field in a partial record. *)
Definition value (story : Backend.PartialStory) (r : Required) : option string :=
  match r with
  | Description => Backend.p_description story
  | Given => Backend.p_given story
  | When => Backend.p_when story
  | Then => Backend.p_then story
  end.

(** The field is missing or empty after trimming. *)
Definition empty_after_trim (v : option string) : Prop :=
  match v with None => True | Some s => JS.trim s = "" end.

(** The field holds a non-empty text that does not start, in lower
    case, with the lower-case [word]. *)
Definition lacks_keyword (word : string) (v : option string) : Prop :=
  match v with
  | None => False
  | Some s => s <> "" /\ JS.startsWith (JS.toLowerCase word) (JS.toLowerCase s) = false
  end.

(** The same vocabulary for the earlier validator, which reads a full
    record and words its messages with [clause]. *)
Definition copy_label (r : Required) : string :=
  match r with
  | Description => "Description" | Given => "Given clause"
  | When => "When clause" | Then => "Then clause"
  end.

Definition copy_required_message (r : Required) : string :=
  copy_label r +:+ " is required".

Definition copy_prefix_message (r : Required) : string :=
  copy_label r +:+ " should start with " +:+ JS.dquote +:+ keyword r +:+ JS.dquote.

Definition copy_value (story : GherkinUserStory) (r : Required) : string :=
  match r with
  | Description => us_description story
  | Given => us_given story
  | When => us_when story
  | Then => us_then story
  end.

(** The messages of a validator, in the order in which it pushes
    them. *)
Definition all_messages (required prefixed : Required -> string) : list string :=
  map required [Description; Given; When; Then] ++ map prefixed [Given; When; Then].

(** What C7 claims of the error list of the earlier validator: every
    required field that is empty after trimming has its entry. *)
Definition copy_lists_trimmed_blanks (story : GherkinUserStory) : Prop :=
  forall r, JS.trim (copy_value story r) = "" ->
            In (copy_required_message r) (BackendCopy.validateGherkinStory story).

End ValidatorSpec.

(** ** The mock provider *)

Module MockSpec.

Inductive Kind : Type := Positive | Negative | Edge.

(** The kind of an artifact, read from the first of its tags. *)
Definition kind_of (test : MockAI.TestCase) : option Kind :=
  match MockAI.tags test with
  | tag :: _ =>
      if String.eqb tag "positive" then Some Positive
      else if String.eqb tag "negative" then Some Negative
      else if String.eqb tag "edge-case" then Some Edge
      else None
  | [] => None
  end.

(** The kinds generated for one story and one module. *)
Definition pair_kinds (negativeTests : bool) : list Kind :=
  if negativeTests then [Positive; Negative; Edge] else [Positive; Edge].

(** Where an artifact comes from and what it is. *)
Definition origin (test : MockAI.TestCase) : option string * string * option Kind :=
  (MockAI.sourceStoryId test, MockAI.module test, kind_of test).

(** The origins that a context calls for: for every story, for every
    selected module, the kinds of the pair. *)
Definition expected_origins (context : MockAI.TestGenerationContext)
    : list (option string * string * option Kind) :=
  flat_map (fun story =>
    flat_map (fun module =>
      map (fun k => (Some (us_id story), module, Some k))
          (pair_kinds (MockAI.includeNegativeTests context)))
      (MockAI.selectedModules context))
    (MockAI.userStories context).

Definition edge_is_low (test : MockAI.TestCase) : Prop :=
  kind_of test = Some Edge -> MockAI.priority test = low.

End MockSpec.

(** ** The registries and the adapters *)

Module RegistrySpec.

Import Registry.

(** A call of a provider operation, as a recording provider logs it. *)
Inductive Call : Type :=
| Validated (provider : string)
| Generated (provider : string).

(** A provider that does nothing but log its calls: its configuration
    check answers [valid] and its generation answers [result]. *)
Definition recording {Context Result : Type} (name : string) (valid : bool)
    (result : Result) : BaseAIProvider (list Call) Context Result :=
  {| name := name;
     model := "recorder";
     validateConfiguration := fun log => (valid, log ++ [Validated name]);
     generateTestCases := fun _ log => (result, log ++ [Generated name]) |}.



(** A context without stories and modules. *)
Definition empty_context : MockAI.TestGenerationContext :=
  {| MockAI.userStories := []; MockAI.selectedModules := [];
     MockAI.userType := "airline_user"; MockAI.testingScope := MockAI.full;
     MockAI.includeNegativeTests := true; MockAI.includePerformanceTests := false;
     MockAI.includeSecurityTests := false |}.

End RegistrySpec.

Module RemoteSpec.

(** The result object has a [success] property. *)
Definition has_success_flag {TestCase : Type}
    (r : Remote.TestGenerationResult TestCase) : Prop :=
  In "success" (Remote.property_names r).

(** C10 read literally: whenever the call or the parsing fails, the
    adapter returns a result that carries a [success] property (set to
    false). *)
Definition failure_sets_success_flag : Prop :=
  forall (TestCase Context Json : Type) (buildAirlinePrompt : Context -> string)
         (openai_create : string -> string -> string + Remote.ChatCompletion)
         (gemini_generateContent : string -> string -> string + string)
         (JSON_parse : string -> string + Json)
         (testCases_of : Json -> string + list TestCase)
         (clock : nat -> Z) (a : Remote.Adapter) (model_name : string)
         (context : Context) (message : string) (n : nat),
    Remote.Fails TestCase Context Json buildAirlinePrompt openai_create
      gemini_generateContent JSON_parse testCases_of model_name context a message ->
    exists result,
      fst (Remote.generateTestCases TestCase Context Json buildAirlinePrompt
             openai_create gemini_generateContent JSON_parse testCases_of clock
             a model_name context n) = inr result
      /\ has_success_flag result.

(** The Gemini adapter on an answer that is prose, not JSON. *)
Definition gemini_on_prose : string + Remote.TestGenerationResult unit :=
  fst (Remote.generateTestCases unit unit unit (fun _ => "prompt")
         (fun _ _ => inl "unused") (fun _ _ => inr "Sorry, I cannot help")
         (fun _ => inl "Unexpected token S in JSON at position 0")
         (fun _ => inr []) (fun n => Z.of_nat n)
         Remote.Gemini "gemini-pro" tt 0).

End RemoteSpec.

(** ** Sheets as a whole *)

Module SheetSpec.

Import RowSpec.

(** What a data row is for the parser: blank (its four required texts
    are empty), partial (some but not all are empty) or complete. *)
Inductive RowKind : Type := Blank | Partial | Complete.

Definition row_kind (mapping : gmap string nat) (row : list cell) : RowKind :=
  let filled := map (fun r => JS.truthy (required_text mapping row r))
                    [Description; Given; When; Then] in
  if forallb (fun b => b) filled then Complete
  else if existsb (fun b => b) filled then Partial
  else Blank.

Definition is_kind (k : RowKind) (mapping : gmap string nat) (row : list cell) : bool :=
  match k, row_kind mapping row with
  | Blank, Blank | Partial, Partial | Complete, Complete => true
  | _, _ => false
  end.

(** The number of rows of a kind. *)
Definition count_kind (k : RowKind) (mapping : gmap string nat)
    (rows : list (list cell)) : nat :=
  length (List.filter (is_kind k mapping) rows).

(** Column [i] lies inside the header row and holds a string that the
    pattern of [key] in the earlier mapper matches. *)
Definition copy_points_to (headerRow : list cell) (key : string) (i : nat) : Prop :=
  i < length headerRow
  /\ exists h pattern,
       headerRow !! i = Some (CStr h)
       /\ In (key, pattern) BackendCopy.patterns
       /\ Regex.test pattern (JS.trim h) = true.

(** A text that [trim] leaves as it is. *)
Definition trimmed (s : string) : Prop := JS.trim s = s.

(** What every record of the current parser satisfies. *)
Definition well_formed (story : GherkinUserStory) : Prop :=
  us_id story <> "" /\ us_description story <> "" /\ us_asA story <> ""
  /\ us_iWant story <> "" /\ us_soThat story <> ""
  /\ us_given story <> "" /\ us_when story <> "" /\ us_then story <> ""
  /\ trimmed (us_description story) /\ trimmed (us_given story)
  /\ trimmed (us_when story) /\ trimmed (us_then story)
  /\ us_tags story = Some [] /\ us_priority story = Some medium.

(** A record seen as the partial record that the validator reads. *)
Definition as_partial (story : GherkinUserStory) : Backend.PartialStory :=
  {| Backend.p_description := Some (us_description story);
     Backend.p_given := Some (us_given story);
     Backend.p_when := Some (us_when story);
     Backend.p_then := Some (us_then story) |}.

(** The three keyword checks of the validator on a record. *)
Definition follows_keywords (story : GherkinUserStory) : Prop :=
  JS.startsWith "given" (JS.toLowerCase (us_given story)) = true
  /\ JS.startsWith "when" (JS.toLowerCase (us_when story)) = true
  /\ JS.startsWith "then" (JS.toLowerCase (us_then story)) = true.

(** Two row outcomes, one of each parser, that tell the same: both skip
    the row, both reject it for the same field, or both build a record
    with the same texts. *)
Definition outcomes_agree (current earlier : row_outcome) : Prop :=
  match current, earlier with
  | Returned None, Returned None => True
  | Threw m1, Threw m2 =>
      exists r, m1 = label r +:+ " is required"
                /\ m2 = ValidatorSpec.copy_label r +:+ " is required"
  | Returned (Some a), Returned (Some b) =>
      us_id a = us_id b /\ us_description a = us_description b
      /\ us_given a = us_given b /\ us_when a = us_when b /\ us_then a = us_then b
      /\ us_acceptanceCriteria a = us_acceptanceCriteria b
      /\ us_requirements a = us_requirements b
      /\ us_notes a = us_notes b /\ us_acId a = us_acId b
  | _, _ => False
  end.

(** A sheet with a complete, a blank and a partial row. *)
Definition three_rows : list (list cell) :=
  [ sheet ["Description"; "Given"; "When"; "Then"];
    sheet ["Login"; "Given a"; "When b"; "Then c"];
    sheet [""; ""; ""; ""];
    sheet ["Logout"; ""; "When b"; "Then c"] ].

End SheetSpec.

(** ** Artifacts of the mock provider, one by one *)

Module ArtifactSpec.

(** How often a key occurs among the keys of the test cases. *)
Definition occurrences (key_of : MockAI.TestCase -> string) (key : string)
    (testCases : list MockAI.TestCase) : nat :=
  length (List.filter (fun test => String.eqb (key_of test) key) testCases).

(** What a tally holds for a key that occurs [n] times and is no
    property of [Object.prototype]: the count, and nothing for 0. *)
Definition counted (n : nat) : option MockAI.Tally :=
  match n with
  | O => None
  | S _ => Some (MockAI.Count n)
  end.

(** [n] times the digit 1. *)
Fixpoint ones (n : nat) : string :=
  match n with
  | O => ""
  | S k => "1" +:+ ones k
  end.

(** What a tally holds for any key that occurs [n] times: under the
    name of a method of [Object.prototype] the rendering of the method
    followed by one digit 1 for each occurrence; under [__proto__]
    nothing; under any other name the count. *)
Definition expected_tally (key : string) (n : nat) : option MockAI.Tally :=
  match n with
  | O => None
  | S _ =>
      match MockAI.Object_prototype key with
      | None => Some (MockAI.Count n)
      | Some (MockAI.Method name) =>
          Some (MockAI.Text (MockAI.native_source name +:+ ones n))
      | Some MockAI.ProtoAccessor => None
      end
  end.

(** What a key holds after one more occurrence, given what it held. *)
Definition bumped (key : string) (held : option MockAI.Tally) : option MockAI.Tally :=
  match held with
  | Some (MockAI.Count n) => Some (MockAI.Count (n + 1))
  | Some (MockAI.Text s) =>
      Some (if JS.truthy s then MockAI.Text (s +:+ "1") else MockAI.Count 1)
  | None =>
      match MockAI.Object_prototype key with
      | None => Some (MockAI.Count 1)
      | Some (MockAI.Method name) =>
          Some (MockAI.Text (MockAI.native_source name +:+ "1"))
      | Some MockAI.ProtoAccessor => None
      end
  end.

(** The shape of an artifact generated for a context. *)
Definition shaped (context : MockAI.TestGenerationContext)
    (test : MockAI.TestCase) : Prop :=
  map MockAI.stepNumber (MockAI.steps test) = [1; 2; 3; 4]
  /\ In (MockAI.module test) (MockAI.selectedModules context)
  /\ MockAI.tc_userType test = MockAI.userType context
  /\ (exists story, In story (MockAI.userStories context)
        /\ MockAI.sourceStoryId test = Some (us_id story)
        /\ MockAI.story_tags story = drop 3 (MockAI.tags test))
  /\ MockAI.tags test !! 2 = Some (MockAI.module test).

(** A character occurs in a string. *)
Fixpoint contains (c : ascii) (s : string) : bool :=
  match s with
  | EmptyString => false
  | String d s' => Ascii.eqb c d || contains c s'
  end.

(** What every tag of the earlier parser satisfies. *)
Definition clean_tag (tag : string) : Prop :=
  tag <> "" /\ JS.trim tag = tag /\ contains ","%char tag = false.

End ArtifactSpec.

(** ** The start-up of the second registry *)

Module StartupSpec.

(** A variable of the environment is set to a non-empty value. *)
Definition is_set (value : option string) : bool :=
  match value with
  | Some s => JS.truthy s
  | None => false
  end.

(** A registry of the first kind with one recording provider, [mock]. *)
Definition one_recorder
    : Registry.AIServiceCopy (list RegistrySpec.Call) unit nat :=
  {| Registry.copy_providers := {[ "mock" := RegistrySpec.recording "mock" true 2 ]};
     Registry.copy_defaultProvider := "mock" |}.

End StartupSpec.

(** ** The answers of the remote services *)

Module AnswerSpec.

(** The line feed and the backquote, and the fences around a body. *)
Definition LF : string := String (ascii_of_nat 10) EmptyString.
Definition backquote : ascii := ascii_of_nat 96.

Definition fenced (body : string) : string :=
  "```json" +:+ LF +:+ body +:+ LF +:+ "```".

(** The external call of an adapter answers, and the answer parses into
    [cases]; [tokens] is the token count that the result reports. *)
Inductive Answers {TestCase Context Json : Type}
    (buildAirlinePrompt : Context -> string)
    (openai_create : string -> string -> string + Remote.ChatCompletion)
    (gemini_generateContent : string -> string -> string + string)
    (JSON_parse : string -> string + Json)
    (testCases_of : Json -> string + list TestCase)
    (model_name : string) (context : Context)
    : Remote.Adapter -> list TestCase -> option nat -> Prop :=
| openai_answers response text parsed cases :
    openai_create model_name (buildAirlinePrompt context) = inr response ->
    Remote.content response = Some text -> text <> "" ->
    JSON_parse text = inr parsed -> testCases_of parsed = inr cases ->
    Answers buildAirlinePrompt openai_create gemini_generateContent JSON_parse
      testCases_of model_name context Remote.OpenAI cases
      (Remote.total_tokens response)
| gemini_answers text parsed cases :
    gemini_generateContent model_name (buildAirlinePrompt context) = inr text ->
    JSON_parse (JS.trim (Remote.strip_fences 0 text)) = inr parsed ->
    testCases_of parsed = inr cases ->
    Answers buildAirlinePrompt openai_create gemini_generateContent JSON_parse
      testCases_of model_name context Remote.Gemini cases None.

End AnswerSpec.

(** Vocabulary for the authentication properties. *)
Module AuthSpec.

Import Auth.

(** A word: a string without a space. *)
Fixpoint word (s : string) : Prop :=
  match s with
  | EmptyString => True
  | String c s' => c <> " "%char /\ word s'
  end.

(** The payload signed for a user of an [AuthResult]. *)
Definition payload_for (u : PublicUser) : JwtPayload :=
  {| userId := pub_id u; payload_email := pub_email u; payload_role := pub_role u |}.

(** A database for the examples: the rows in the order of their
    creation, the n-th row getting the id [u<n>]. *)
Definition Rows : Type := list User.

Definition rows_findUnique (email : string) (db : Rows) : option User :=
  List.find (fun u => String.eqb (user_email u) email) db.

Definition rows_create (data : UserData) (db : Rows) : (string + User) * Rows :=
  match rows_findUnique (data_email data) db with
  | Some _ => (inl "Unique constraint failed on the fields: (`email`)", db)
  | None =>
      let u := {| user_id := "u" +:+ JS.of_nat (length db);
                  user_email := data_email data;
                  user_name := data_name data;
                  user_password := data_password data;
                  user_role := data_role data;
                  user_department := data_department data |} in
      (inr u, u :: db)
  end.

Definition rows_update (id : string) (time : Z) (db : Rows) : (string + unit) * Rows :=
  if existsb (fun u => String.eqb (user_id u) id) db
  then (inr tt, db)
  else (inl "Record to update not found.", db).

Definition toy_hash (password : string) (rounds salt : nat) : string :=
  "hash:" +:+ password.

Definition toy_compare (password hash : string) : bool :=
  String.eqb hash ("hash:" +:+ password).

Definition toy_sign (payload : JwtPayload) (time : Z) : string + string :=
  inr ("jwt." +:+ userId payload +:+ "." +:+ JS.of_Z time).

Definition toy_clock (n : nat) : Z := (1700000000000 + Z.of_nat n)%Z.

Definition toy_verify (token : string) : VerifyError + JwtPayload :=
  if String.eqb token "good"
  then inr {| userId := "u0"; payload_email := "ann@example.com"; payload_role := "QA_LEAD" |}
  else if String.eqb token "old" then inl TokenExpiredError
  else inl JsonWebTokenError.

Definition ann : Registration :=
  {| reg_email := "ann@example.com"; reg_name := "Ann"; reg_password := "secret1";
     reg_role := None; reg_department := Some "" |}.

Definition toy_register := register rows_findUnique rows_create toy_hash toy_sign toy_clock.

Definition toy_login :=
  login rows_findUnique rows_update toy_compare toy_sign toy_clock.

End AuthSpec.

(** ** The policy of the earlier mapper *)

Module CopyMapperSpec.

Import MapperSpec.







End CopyMapperSpec.

(** ** The extraction of cells *)

Module CellSpec.

(** The cell that a row holds for a property name: none when the
    mapping has no column for it or the row ends before the column. *)
Definition raw_cell (mapping : gmap string nat) (row : list cell)
    (property : string) : option cell :=
  match mapping !! property with
  | None => None
  | Some i => row !! i
  end.

(** The extraction as the specification words it: the empty string
    for an absent or out-of-range column, otherwise the raw cell
    stringified and trimmed. *)
Definition stringify_and_trim (mapping : gmap string nat) (row : list cell)
    (property : string) : string :=
  match raw_cell mapping row property with
  | None => ""
  | Some (CStr s) => JS.trim s
  | Some (COther _ shown) => JS.trim shown
  end.

(** The extraction of the parser: as above, but a falsy cell that is
    not a string (the number 0, [false]) counts as empty, whatever its
    rendering. *)
Definition extracted (mapping : gmap string nat) (row : list cell)
    (property : string) : string :=
  match raw_cell mapping row property with
  | None => ""
  | Some (CStr s) => JS.trim s
  | Some (COther true shown) => JS.trim shown
  | Some (COther false _) => ""
  end.

(** The raw cell is a falsy value that is not a string. *)
Definition falsy_value (mapping : gmap string nat) (row : list cell)
    (property : string) : Prop :=
  exists shown, raw_cell mapping row property = Some (COther false shown).

(** The number 0 as a cell. *)
Definition zero : cell := COther false "0".

(** A row whose description cell holds the number 0 and whose given
    cell is empty, under the mapping of Description, Given, When,
    Then. *)
Definition zero_description_row : list cell :=
  [zero; CStr ""; CStr "When b"; CStr "Then c"].

(** A complete row whose identifier cell holds the number 0, and the
    mapping of its header row. *)
Definition with_id : gmap string nat :=
  Backend.scan_headers (sheet ["ID"; "Description"; "Given"; "When"; "Then"]) 0 ∅.

Definition zero_id_row : list cell :=
  [zero; CStr "Login"; CStr "Given a"; CStr "When b"; CStr "Then c"].

End CellSpec.

(** ** The results of the adapters on answers of any shape *)

Module JsonAnswerSpec.

Import RemoteJson.

(** What every result of an adapter satisfies.  The two counts are the
    [length] of [testCases], hence the number of its items when it is
    an array.  The result is a success without warnings, or a failure
    with one warning and the empty array of test cases. *)
Definition consistent (null_read : string -> string) (a : Remote.Adapter)
    (model_name : string) (r : TestGenerationResult) : Prop :=
  provider r = Remote.adapter_name a
  /\ get_length null_read (testCases r) = inr (totalGenerated (metadata r))
  /\ successful (metadata r) = totalGenerated (metadata r)
  /\ (forall items, testCases r = JArray items ->
        totalGenerated (metadata r) = Number (length items))
  /\ ((failed (metadata r) = 0
       /\ warnings (metadata r) = []
       /\ model r = Some model_name)
      \/ (failed (metadata r) = 1
          /\ testCases r = JArray []
          /\ model r = None
          /\ exists message,
               warnings (metadata r) = ["Generation failed: " +:+ message])).

(** The reading of [parsed.testCases || []] under the declared type:
    the items of the array that is kept. *)
Definition typed_cases (null_read : string -> string) (parsed : Json)
    : string + list Json :=
  match get_testCases null_read parsed with
  | inl e => inl e
  | inr field =>
      match or_empty field with
      | JArray items => inr items
      | _ => inr []
      end
  end.

(** The answer has the declared type: what is kept of it is an array. *)
Definition well_typed (null_read : string -> string) (parsed : Json) : Prop :=
  match get_testCases null_read parsed with
  | inl _ => True
  | inr field => exists items, or_empty field = JArray items
  end.

(** A result of the declared type as it is at run time. *)
Definition at_run_time (r : Remote.TestGenerationResult Json) : TestGenerationResult :=
  {| testCases := JArray (Remote.testCases r);
     generationTime := Remote.generationTime r;
     tokensUsed := Remote.tokensUsed r;
     model := Remote.model r;
     provider := Remote.provider r;
     metadata :=
       {| totalGenerated := Number (Remote.totalGenerated (Remote.metadata r));
          successful := Number (Remote.successful (Remote.metadata r));
          failed := Remote.failed (Remote.metadata r);
          warnings := Remote.warnings (Remote.metadata r) |} |}.

(** An answer whose [testCases] is an object, not an array. *)
Definition object_answer : Json :=
  JObject [("testCases", JObject [("id", JString "TC_001")])].

(** An answer of the declared type, with one test case. *)
Definition array_answer : Json :=
  JObject [("testCases", JArray [JObject [("id", JString "TC_001")]])].

End JsonAnswerSpec.

(** * Properties *)

Section MapperLemmas.

Import MapperSpec.

Lemma last_column_Some (headerRow : list cell) (field : string) (i : nat) :
  last_column headerRow field = Some i ->
  (exists header, headerRow !! i = Some header /\ header_field header = Some field)
  /\ forall j header, i < j -> headerRow !! j = Some header ->
                      header_field header <> Some field.
Proof.
  revert i. induction headerRow as [|h rest IH]; intros i; simpl; [discriminate|].
  destruct (last_column rest field) as [k|] eqn:Hk.
  - intros [= <-]. destruct (IH k eq_refl) as [[hd [Hl Hf]] Hlast]. split.
    + exists hd. auto.
    + intros [|j] header Hlt Hj; [lia|]. simpl in Hj. eapply Hlast; [|exact Hj]. lia.
  - destruct (decide (header_field h = Some field)) as [Hh|Hh]; [|discriminate].
    intros [= <-]. split; [exists h; auto|].
    intros [|j] header Hlt Hj; [lia|]. simpl in Hj.
    clear IH Hlt Hh. revert j Hj Hk.
    induction rest as [|r rest IH]; intros j Hj Hk; [destruct j; discriminate|].
    simpl in Hk. destruct (last_column rest field) eqn:E; [discriminate|].
    destruct (decide (header_field r = Some field)); [discriminate|].
    destruct j as [|j]; simpl in Hj.
    + injection Hj as <-. assumption.
    + eapply IH; eauto.
Qed.


Lemma backend_assign_first (ps : list (string * Regex.pattern)) (text : string)
    (i : nat) (m : gmap string nat) :
  Backend.assign_first ps text i m =
    match first_matching ps text with
    | Some field => <[field := i]> m
    | None => m
    end.
Proof.
  unfold first_matching. induction ps as [|[f p] rest IH]; simpl; [reflexivity|].
  destruct (Regex.test p text); simpl; [reflexivity|exact IH].
Qed.

Lemma backend_visit_header (header : cell) (i : nat) (m : gmap string nat) :
  Backend.visit_header header i m =
    match header_field header with
    | Some field => <[field := i]> m
    | None => m
    end.
Proof.
  destruct header as [h|t shown]; [|reflexivity].
  unfold Backend.visit_header, header_field.
  destruct (JS.truthy h); [apply backend_assign_first|reflexivity].
Qed.

(** After a scan, every field holds the last column that stands for
    it, or what it held before when no column does. *)
Lemma backend_scan_lookup (headerRow : list cell) (k : nat) (m : gmap string nat)
    (field : string) :
  Backend.scan_headers headerRow k m !! field =
    match last_column headerRow field with
    | Some i => Some (k + i)
    | None => m !! field
    end.
Proof.
  revert k m. induction headerRow as [|h rest IH]; intros k m; simpl; [reflexivity|].
  rewrite IH, backend_visit_header.
  destruct (last_column rest field) as [i|]; [f_equal; lia|].
  destruct (decide (header_field h = Some field)) as [Hh|Hh].
  - rewrite Hh, lookup_insert_eq. f_equal. lia.
  - destruct (header_field h) as [g|]; [|reflexivity].
    rewrite lookup_insert_ne; [reflexivity|congruence].
Qed.




End MapperLemmas.

Section CaseInsensitivity.






End CaseInsensitivity.

Section CopyMapperLemmas.

Import MapperSpec CopyMapperSpec.









End CopyMapperLemmas.

Section Mapper.

Import MapperSpec CopyMapperSpec.


(** In the earlier parser the guard [!mapping[key]] lets a later column
    take over a field that column 0 has claimed. *)
Lemma copy_column_zero_is_taken_over :
  ~ first_match_wins BackendCopy.scan_headers.
Proof.
  intros H.
  specialize (H (sheet ["Title"; "Given"; "When"; "Then"])
                (CStr "Description") "description" 0).
  vm_compute in H. specialize (H eq_refl). discriminate H.
Qed.




(** C2 fails on the header row Description, Given, When, Outcome.  All
    four required fields are recognised in it ([outcome] is an
    alternative of the pattern of [then]), yet both parsers reject the
    row: [outcome] is also an alternative of [soThat], which is tested
    first and takes the column. *)
Theorem C2_outcome_header_is_rejected :
  (forall field, In field Backend.requiredFields ->
     recognised Backend.columnPatterns outcome_row field
     /\ recognised BackendCopy.patterns outcome_row field)
  /\ Backend.detectColumnMapping outcome_row = None
  /\ BackendCopy.detectColumnMapping outcome_row = None
  /\ Backend.scan_headers outcome_row 0 ∅ !! "soThat" = Some 3.
Proof.
  split; [|repeat split; vm_compute; reflexivity].
  intros field Hin. unfold recognised.
  destruct Hin as [<-|[<-|[<-|[<-|[]]]]].
  - split; [exists "Description", (Regex.re ["description"; "story.?description"; "title"])
           |exists "Description", (Regex.re ["description"; "story"; "title"; "summary"])];
      vm_compute; tauto.
  - split; exists "Given", (Regex.re ["given"; "precondition"; "setup"]);
      vm_compute; tauto.
  - split; [exists "When", (Regex.re ["when"; "action"; "step"])
           |exists "When", (Regex.re ["when"; "action"; "trigger"; "event"])];
      vm_compute; tauto.
  - split; exists "Outcome", (Regex.re ["then"; "expected"; "result"; "outcome"]);
      vm_compute; tauto.
Qed.

End Mapper.

(** ** The row normaliser and the batch parser *)

Section Rows.

Import RowSpec.

Variable mapping : gmap string nat.

Lemma scan_rows_acc (rows : list (list cell)) (k : nat)
    (stories : list GherkinUserStory) (errs : list string) :
  Backend.scan_rows mapping rows k (stories, errs) =
    (stories ++ fst (rows_from mapping rows k),
     errs ++ snd (rows_from mapping rows k)).
Proof.
  unfold rows_from. revert k stories errs.
  induction rows as [|row rest IH]; intros k stories errs.
  - cbn. now rewrite !app_nil_r.
  - cbn [Backend.scan_rows]. unfold Backend.visit_row.
    destruct (Backend.parseRow row mapping (k + 2)) as [message|[story|]];
      cbn [app].
    + rewrite IH, (IH _ [] [_]). cbn [fst snd]. now rewrite <- app_assoc.
    + rewrite IH, (IH _ [_] []). cbn [fst snd]. now rewrite <- app_assoc.
    + apply IH.
Qed.

Lemma scan_rows_app (pre post : list (list cell)) (k : nat)
    (acc : list GherkinUserStory * list string) :
  Backend.scan_rows mapping (pre ++ post) k acc =
    Backend.scan_rows mapping post (k + length pre)
      (Backend.scan_rows mapping pre k acc).
Proof.
  revert k acc. induction pre as [|row rest IH]; intros k acc; cbn.
  - f_equal. lia.
  - rewrite IH. f_equal. lia.
Qed.

(** The batch is the concatenation of what its rows contribute, each
    row being parsed under its own index. *)
Lemma parseDataRows_split (pre post : list (list cell)) (row : list cell) :
  Backend.parseDataRows (pre ++ row :: post) mapping =
    let before := Backend.parseDataRows pre mapping in
    let here := Backend.visit_row mapping row (length pre) ([], []) in
    let after := rows_from mapping post (S (length pre)) in
    (fst before ++ fst here ++ fst after, snd before ++ snd here ++ snd after).
Proof.
  unfold Backend.parseDataRows. rewrite scan_rows_app.
  cbn [Backend.scan_rows Nat.add].
  destruct (Backend.scan_rows mapping pre 0 ([], [])) as [s1 e1] eqn:E1.
  cbn [fst snd].
  assert (Backend.visit_row mapping row (length pre) (s1, e1) =
          (s1 ++ fst (Backend.visit_row mapping row (length pre) ([], [])),
           e1 ++ snd (Backend.visit_row mapping row (length pre) ([], [])))) as ->.
  { unfold Backend.visit_row.
    destruct (Backend.parseRow row mapping (length pre + 2)) as [m|[st|]];
      cbn [fst snd]; now rewrite ?app_nil_r. }
  rewrite scan_rows_acc. now rewrite <- !app_assoc.
Qed.

Lemma truthy_false (s : string) : JS.truthy s = false <-> s = "".
Proof. destruct s; cbn; split; congruence. Qed.

Lemma truthy_true (s : string) : JS.truthy s = true <-> s <> "".
Proof. destruct s; cbn; split; congruence. Qed.

Lemma or_else_defaulted (value fallback : string) :
  defaulted value fallback (JS.or_else value fallback).
Proof.
  unfold defaulted, JS.or_else. destruct value; cbn; split; congruence.
Qed.

End Rows.

Section RowOutcomes.

Import RowSpec.

Variable mapping : gmap string nat.
Variable row : list cell.

Local Ltac required_cases :=
  cbv beta iota delta [required_text cell_text key rank label] in *;
  repeat match goal with
         | H : (_ < _) -> _ |- _ =>
             first [ specialize (H ltac:(lia));
                     apply (proj2 (truthy_true _)) in H
                   | clear H ]
         end;
  destruct (JS.truthy (Backend.getCellValue row (mapping !! "description")));
  destruct (JS.truthy (Backend.getCellValue row (mapping !! "given")));
  destruct (JS.truthy (Backend.getCellValue row (mapping !! "when")));
  destruct (JS.truthy (Backend.getCellValue row (mapping !! "then")));
  try congruence; try reflexivity.

Lemma parseRow_missing (rowNumber : nat) (missing present : Required) :
  required_text mapping row missing = "" ->
  (forall q, rank q < rank missing -> required_text mapping row q <> "") ->
  required_text mapping row present <> "" ->
  Backend.parseRow row mapping rowNumber = Threw (label missing +:+ " is required").
Proof.
  intros He Hb Hp.
  pose proof (Hb Description) as B0. pose proof (Hb Given) as B1.
  pose proof (Hb When) as B2. pose proof (Hb Then) as B3. clear Hb.
  apply (proj2 (truthy_false _)) in He. apply (proj2 (truthy_true _)) in Hp.
  unfold Backend.parseRow.
  destruct missing, present; required_cases.
Qed.

Lemma parseRow_blank (rowNumber : nat) :
  (forall r, required_text mapping row r = "") ->
  Backend.parseRow row mapping rowNumber = Returned None.
Proof.
  intros Hall.
  pose proof (proj2 (truthy_false _) (Hall Description)) as B0.
  pose proof (proj2 (truthy_false _) (Hall Given)) as B1.
  pose proof (proj2 (truthy_false _) (Hall When)) as B2.
  pose proof (proj2 (truthy_false _) (Hall Then)) as B3. clear Hall.
  unfold Backend.parseRow. required_cases.
Qed.

Lemma parseRow_complete (rowNumber : nat) :
  (forall r, required_text mapping row r <> "") ->
  Backend.parseRow row mapping rowNumber =
    Returned (Some {|
      us_id := JS.or_else (cell_text mapping row "id")
                 ("US-" +:+ JS.padStart0 3 (JS.of_nat rowNumber));
      us_description := required_text mapping row Description;
      us_asA := JS.or_else (cell_text mapping row "asA") "User";
      us_iWant := JS.or_else (cell_text mapping row "iWant")
                    (required_text mapping row Description);
      us_soThat := JS.or_else (cell_text mapping row "soThat") "I can achieve my goal";
      us_acceptanceCriteria := cell_text mapping row "acceptanceCriteria";
      us_requirements := cell_text mapping row "requirements";
      us_given := required_text mapping row Given;
      us_when := required_text mapping row When;
      us_then := required_text mapping row Then;
      us_notes := Some (cell_text mapping row "notes");
      us_acId := Some (cell_text mapping row "acId");
      us_tags := Some [];
      us_priority := Some medium |}).
Proof.
  intros Hall.
  pose proof (proj2 (truthy_true _) (Hall Description)) as B0.
  pose proof (proj2 (truthy_true _) (Hall Given)) as B1.
  pose proof (proj2 (truthy_true _) (Hall When)) as B2.
  pose proof (proj2 (truthy_true _) (Hall Then)) as B3. clear Hall.
  unfold Backend.parseRow. required_cases.
Qed.

End RowOutcomes.

Section Extraction.

Import RowSpec CellSpec.

(** [getCellValue] computes the extraction in which a falsy cell
    counts as empty. *)
Lemma getCellValue_extracted (mapping : gmap string nat) (row : list cell)
    (property : string) :
  Backend.getCellValue row (mapping !! property) = extracted mapping row property.
Proof.
  unfold Backend.getCellValue, extracted, raw_cell.
  destruct (mapping !! property) as [i|]; [|reflexivity].
  destruct (row !! i) as [[s|[] shown]|]; try reflexivity.
  destruct s; reflexivity.
Qed.

(** The two extractions differ on falsy cells that are not strings
    only. *)
Lemma extracted_stringify (mapping : gmap string nat) (row : list cell)
    (property : string) :
  ~ falsy_value mapping row property ->
  extracted mapping row property = stringify_and_trim mapping row property.
Proof.
  unfold falsy_value, extracted, stringify_and_trim.
  destruct (raw_cell mapping row property) as [[s|[] shown]|]; try reflexivity.
  intros H. exfalso. apply H. eauto.
Qed.

End Extraction.

Section Batch.

Import RowSpec CellSpec.

(** Once the header row is accepted, the report of the batch parser
    holds the records and the errors of [parseDataRows]. *)
Lemma parseExcelFile_accepted (headerRow row : list cell) (rows : list (list cell))
    (mapping : gmap string nat) :
  Backend.detectColumnMapping headerRow = Some mapping ->
  Backend.data (Backend.parseExcelFile (headerRow :: row :: rows))
    = fst (Backend.parseDataRows (row :: rows) mapping)
  /\ Backend.errors (Backend.parseExcelFile (headerRow :: row :: rows))
    = snd (Backend.parseDataRows (row :: rows) mapping).
Proof.
  intros Hm. unfold Backend.parseExcelFile. rewrite Hm.
  destruct (Backend.parseDataRows (row :: rows) mapping) as [stories errs].
  split; reflexivity.
Qed.

(** The claim C3, worded with cells that are empty after stringifying and
    trimming, fails on a cell that holds the number 0: in the row 0,
    (empty), When b, Then c the description is not empty after
    trimming and the first empty field is the given one, yet the error
    names the description. *)
Lemma C3_zero_cell_counts_as_missing :
  stringify_and_trim plain zero_description_row "description" = "0"
  /\ stringify_and_trim plain zero_description_row "given" = ""
  /\ Backend.parseDataRows [zero_description_row] plain
     = ([], ["Row 2: Description is required"]).
Proof. repeat split; vm_compute; reflexivity. Qed.

(** C3 (amended).  A required cell is missing when its extracted text
    is empty: the column is absent or out of range, the cell is falsy
    (the empty string, the number 0, [false]) or its rendering is empty
    after trimming.  A data row in which some required cell is missing
    and some other is not adds exactly one message to the errors and
    nothing to the records.  The message names the first missing field
    in the order description, given, when, then, and its row number is
    the index of the row among the data rows plus 2.  The extracted
    text is the stringified and trimmed cell unless the cell is a falsy
    value that is not a string. *)
Theorem C3_partial_row_gives_one_error
    (mapping : gmap string nat) (pre post : list (list cell)) (row : list cell)
    (missing present : Required) :
  extracted mapping row (key missing) = "" ->
  (forall q, rank q < rank missing -> extracted mapping row (key q) <> "") ->
  extracted mapping row (key present) <> "" ->
  Backend.parseDataRows (pre ++ row :: post) mapping =
    (fst (Backend.parseDataRows pre mapping)
       ++ fst (rows_from mapping post (S (length pre))),
     snd (Backend.parseDataRows pre mapping)
       ++ ["Row " +:+ JS.of_nat (length pre + 2) +:+ ": "
             +:+ label missing +:+ " is required"]
       ++ snd (rows_from mapping post (S (length pre))))
  /\ (forall property, ~ falsy_value mapping row property ->
        extracted mapping row property = stringify_and_trim mapping row property).
Proof.
  intros He Hb Hp. split; [|intros property; apply extracted_stringify].
  rewrite parseDataRows_split. cbv zeta.
  unfold Backend.visit_row.
  rewrite (parseRow_missing mapping row _ missing present).
  - reflexivity.
  - unfold required_text, cell_text. now rewrite getCellValue_extracted.
  - intros q Hq. unfold required_text, cell_text.
    rewrite getCellValue_extracted. now apply Hb.
  - unfold required_text, cell_text. now rewrite getCellValue_extracted.
Qed.

Lemma C3_partial_row_gives_one_error_witness :
  Backend.parseDataRows ([] ++ [zero; CStr "Given a"; CStr " "; CStr "Then c"] :: [])
    plain
  = ([], ["Row 2: Description is required"]).
Proof.
  apply (C3_partial_row_gives_one_error plain [] []
           [zero; CStr "Given a"; CStr " "; CStr "Then c"] Description Given).
  - vm_compute. reflexivity.
  - intros q Hq. destruct q; vm_compute in Hq; lia.
  - vm_compute. discriminate.
Defined.

(** C4.  A data row whose four required cells are all empty after
    trimming adds nothing to the records and nothing to the errors,
    whatever its other cells hold. *)
Theorem C4_blank_row_is_skipped
    (mapping : gmap string nat) (pre post : list (list cell)) (row : list cell) :
  (forall r, required_text mapping row r = "") ->
  Backend.parseDataRows (pre ++ row :: post) mapping =
    (fst (Backend.parseDataRows pre mapping)
       ++ fst (rows_from mapping post (S (length pre))),
     snd (Backend.parseDataRows pre mapping)
       ++ snd (rows_from mapping post (S (length pre)))).
Proof.
  intros Hall. rewrite parseDataRows_split. cbv zeta.
  unfold Backend.visit_row. rewrite (parseRow_blank mapping row _ Hall).
  reflexivity.
Qed.

Lemma C4_blank_row_is_skipped_witness :
  Backend.parseDataRows ([] ++ sheet [" "; ""; "  "; ""; "a note"] :: [])
    (<["notes" := 4]> plain)
  = ([], []).
Proof.
  rewrite (C4_blank_row_is_skipped (<["notes" := 4]> plain) [] []
             (sheet [" "; ""; "  "; ""; "a note"])).
  - vm_compute. reflexivity.
  - intros r. destruct r; vm_compute; reflexivity.
Defined.

(** [padStart(3, '0')] gives exactly three digits for the row numbers
    below 1000. *)
Lemma padStart0_three_digits (n : nat) :
  n < 1000 -> String.length (JS.padStart0 3 (JS.of_nat n)) = 3.
Proof.
  intros Hn.
  assert (forallb (fun k => Nat.eqb (String.length (JS.padStart0 3 (JS.of_nat k))) 3)
            (seq 0 1000) = true) as Hall by (vm_compute; reflexivity).
  rewrite forallb_forall in Hall.
  apply Nat.eqb_eq, Hall, in_seq. lia.
Qed.

(** The claim C6, worded with the extracted identifier cell, fails on an
    identifier cell that holds the number 0: stringified and trimmed it
    is the non-empty text 0, yet the record gets the fallback. *)
Lemma C6_zero_identifier_is_replaced :
  stringify_and_trim with_id zero_id_row "id" = "0"
  /\ exists story,
       Backend.parseDataRows [zero_id_row] with_id = ([story], [])
       /\ us_id story = "US-002".
Proof.
  split; [vm_compute; reflexivity|].
  eexists. split; vm_compute; reflexivity.
Qed.

(** C6 (amended).  The extracted text of a cell is empty when the
    column is absent or out of range or the cell is falsy (the empty
    string, the number 0, [false]); otherwise it is the cell stringified
    and trimmed.  A data row whose four required cells have a non-empty
    extracted text adds one record and no error.  Its identifier is the
    extracted identifier, or, when that is empty, [US-] followed by the
    row number (index plus 2) padded with zeros to three digits, so
    [US-002] for the first data row; [asA] falls back to [User],
    [iWant] to the description, [soThat] to [I can achieve my goal];
    the other optional fields hold the extracted text of their cell;
    [tags] is empty and [priority] is [medium]. *)
Theorem C6_record_defaults
    (mapping : gmap string nat) (pre post : list (list cell)) (row : list cell) :
  (forall r, extracted mapping row (key r) <> "") ->
  exists story : GherkinUserStory,
    Backend.parseDataRows (pre ++ row :: post) mapping =
      (fst (Backend.parseDataRows pre mapping) ++ [story]
         ++ fst (rows_from mapping post (S (length pre))),
       snd (Backend.parseDataRows pre mapping)
         ++ snd (rows_from mapping post (S (length pre))))
    /\ defaulted (extracted mapping row "id")
         ("US-" +:+ JS.padStart0 3 (JS.of_nat (length pre + 2))) (us_id story)
    /\ (length pre = 0 -> extracted mapping row "id" = "" -> us_id story = "US-002")
    /\ us_description story = extracted mapping row "description"
    /\ us_given story = extracted mapping row "given"
    /\ us_when story = extracted mapping row "when"
    /\ us_then story = extracted mapping row "then"
    /\ defaulted (extracted mapping row "asA") "User" (us_asA story)
    /\ defaulted (extracted mapping row "iWant") (us_description story) (us_iWant story)
    /\ defaulted (extracted mapping row "soThat") "I can achieve my goal"
         (us_soThat story)
    /\ us_acceptanceCriteria story = extracted mapping row "acceptanceCriteria"
    /\ us_requirements story = extracted mapping row "requirements"
    /\ us_notes story = Some (extracted mapping row "notes")
    /\ us_acId story = Some (extracted mapping row "acId")
    /\ (forall property, mapping !! property = None ->
          extracted mapping row property = "")
    /\ (forall property, ~ falsy_value mapping row property ->
          extracted mapping row property = stringify_and_trim mapping row property)
    /\ us_tags story = Some []
    /\ us_priority story = Some medium.
Proof.
  intros Hall. eexists. split.
  { rewrite parseDataRows_split. cbv zeta. unfold Backend.visit_row.
    rewrite (parseRow_complete mapping row _); [reflexivity|].
    intros r. unfold required_text, cell_text.
    rewrite getCellValue_extracted. apply Hall. }
  unfold required_text, cell_text, key. rewrite !getCellValue_extracted.
  cbn [us_id us_description us_given us_when us_then us_asA us_iWant us_soThat
       us_acceptanceCriteria us_requirements us_notes us_acId us_tags us_priority].
  repeat split; try apply or_else_defaulted.
  - intros Hpre Hid. rewrite Hpre, Hid. reflexivity.
  - intros property Hnone. unfold extracted, raw_cell. rewrite Hnone. reflexivity.
  - intros property. apply extracted_stringify.
Qed.

Lemma C6_record_defaults_witness :
  exists story : GherkinUserStory,
    Backend.parseDataRows ([] ++ zero_id_row :: []) with_id = ([story], [])
    /\ us_id story = "US-002" /\ us_asA story = "User"
    /\ us_iWant story = "Login" /\ us_soThat story = "I can achieve my goal"
    /\ us_tags story = Some [] /\ us_priority story = Some medium.
Proof.
  destruct (C6_record_defaults with_id [] [] zero_id_row)
    as [story (Hrows & _ & Hid & Hdesc & _ & _ & _ & HasA & HiWant & HsoThat
               & _ & _ & _ & _ & _ & _ & Htags & Hprio)].
  - intros r. destruct r; vm_compute; discriminate.
  - exists story. split; [exact Hrows|].
    split; [apply Hid; vm_compute; reflexivity|].
    split; [apply (proj2 HasA); vm_compute; reflexivity|].
    split; [rewrite (proj2 HiWant) by (vm_compute; reflexivity);
            rewrite Hdesc; vm_compute; reflexivity|].
    split; [apply (proj2 HsoThat); vm_compute; reflexivity|].
    split; assumption.
Defined.

End Batch.

(** ** The parse report *)

Section Report.

Import ReportSpec.

(** C5, as the claim states it, fails on the earlier parser: a sheet
    with one complete row and one row without its Given cell is
    reported with [success = true] and one error. *)
Lemma C5_copy_reports_success_with_errors :
  ~ (forall grid : list (list cell), copy_coherent grid).
Proof.
  intros H.
  destruct (H [ sheet ["Description"; "Given"; "When"; "Then"];
                sheet ["Login"; "Given a"; "When b"; "Then c"];
                sheet ["Logout"; ""; "When b"; "Then c"] ]) as [_ [Hsucc _]].
  vm_compute in Hsucc. specialize (Hsucc eq_refl). discriminate Hsucc.
Qed.

Lemma length_zero_iff_nil {A : Type} (l : list A) :
  Nat.eqb (length l) 0 = true <-> l = [].
Proof. destruct l; cbn; split; congruence. Qed.

Lemma length_pos_iff_not_nil {A : Type} (l : list A) :
  Nat.ltb 0 (length l) = true <-> l <> [].
Proof. destruct l; cbn; split; congruence. Qed.

(** C5 (amended).  In every report the count of valid rows is the
    number of records.  The current parser sets [success] exactly when
    there are no errors; the earlier parser sets it exactly when there
    is at least one record, and its error count is the number of
    errors. *)
Theorem C5_report_invariants (jsonData : list (list cell)) :
  (let r := Backend.parseExcelFile jsonData in
   coherent (Backend.success r) (Backend.data r) (Backend.errors r)
     (Backend.validRows r))
  /\ (let r := BackendCopy.parseWorksheet jsonData in
      BackendCopy.validStories (BackendCopy.summary r)
        = length (BackendCopy.userStories r)
      /\ BackendCopy.errorCount (BackendCopy.summary r)
        = length (BackendCopy.errors r)
      /\ (BackendCopy.success r = true <-> BackendCopy.userStories r <> [])).
Proof.
  unfold coherent. split.
  - unfold Backend.parseExcelFile.
    destruct jsonData as [|headerRow [|row rows]];
      try (cbn; split; [reflexivity|split; discriminate]).
    destruct (Backend.detectColumnMapping headerRow) as [m|];
      [|cbn; split; [reflexivity|split; discriminate]].
    destruct (Backend.parseDataRows (row :: rows) m) as [stories errs].
    cbn [Backend.success Backend.data Backend.errors Backend.validRows].
    split; [reflexivity|apply length_zero_iff_nil].
  - unfold BackendCopy.parseWorksheet.
    destruct jsonData as [|headerRow [|row rows]];
      try (cbn; repeat split; try reflexivity; try discriminate; congruence).
    destruct (BackendCopy.detectColumnMapping headerRow) as [m|];
      [|cbn; repeat split; try reflexivity; try discriminate; congruence].
    destruct (BackendCopy.scan_rows m (row :: rows) 1 ([], [])) as [stories errs].
    cbn [BackendCopy.success BackendCopy.userStories BackendCopy.errors
         BackendCopy.summary BackendCopy.validStories BackendCopy.errorCount].
    split; [reflexivity|split; [reflexivity|apply length_pos_iff_not_nil]].
Qed.

End Report.

(** ** The record validators *)

Section Validators.

Import RowSpec ValidatorSpec.

Lemma blank_spec (v : option string) :
  Backend.blank v = true <-> empty_after_trim v.
Proof.
  destruct v as [s|]; cbn; [|tauto].
  rewrite negb_true_iff. apply truthy_false.
Qed.

Lemma lacks_prefix_spec (r : Required) (v : option string) :
  Backend.lacks_prefix (JS.toLowerCase (keyword r)) v = true
  <-> lacks_keyword (keyword r) v.
Proof.
  destruct v as [s|]; cbn [Backend.lacks_prefix lacks_keyword]; [|split; [discriminate|tauto]].
  rewrite andb_true_iff, negb_true_iff, truthy_true. reflexivity.
Qed.

Lemma copy_lacks_prefix_spec (r : Required) (s : string) :
  BackendCopy.lacks_prefix (JS.toLowerCase (keyword r)) s = true
  <-> s <> "" /\ JS.startsWith (JS.toLowerCase (keyword r)) (JS.toLowerCase s) = false.
Proof.
  unfold BackendCopy.lacks_prefix.
  rewrite andb_true_iff, negb_true_iff, truthy_true. reflexivity.
Qed.

Lemma sublist_push_if (b : bool) (m : string) (l k : list string) :
  l `sublist_of` k -> Backend.push_if b m l `sublist_of` (k ++ [m]).
Proof.
  intros H. unfold Backend.push_if. destruct b.
  - apply sublist_app; [assumption|reflexivity].
  - rewrite <- (app_nil_r l). apply sublist_app; [assumption|].
    apply sublist_cons. constructor.
Qed.

Lemma In_push_if (b : bool) (m x : string) (l : list string) :
  In x (Backend.push_if b m l) <-> In x l \/ (b = true /\ m = x).
Proof.
  unfold Backend.push_if. destruct b.
  - rewrite in_app_iff. cbn. intuition congruence.
  - intuition congruence.
Qed.

(** Seven guarded pushes give a sublist of the seven messages. *)
Lemma sublist_pushes (b1 b2 b3 b4 b5 b6 b7 : bool) (m1 m2 m3 m4 m5 m6 m7 : string) :
  Backend.push_if b7 m7 (Backend.push_if b6 m6 (Backend.push_if b5 m5
    (Backend.push_if b4 m4 (Backend.push_if b3 m3 (Backend.push_if b2 m2
      (Backend.push_if b1 m1 []))))))
  `sublist_of` [m1; m2; m3; m4; m5; m6; m7].
Proof.
  change [m1; m2; m3; m4; m5; m6; m7]
    with ((((((([] ++ [m1]) ++ [m2]) ++ [m3]) ++ [m4]) ++ [m5]) ++ [m6]) ++ [m7]).
  repeat apply sublist_push_if. constructor.
Qed.

(** The two validators push their messages in the same way. *)
Lemma copy_push_if : BackendCopy.push_if = Backend.push_if.
Proof. reflexivity. Qed.

Local Ltac membership :=
  rewrite !In_push_if; cbn [In];
  intuition (try discriminate; try congruence).

Lemma backend_errors_sublist (story : Backend.PartialStory) :
  snd (Backend.validateUserStory story)
    `sublist_of` all_messages required_message prefix_message.
Proof.
  unfold Backend.validateUserStory. cbn [snd]. apply sublist_pushes.
Qed.

Lemma copy_errors_sublist (story : GherkinUserStory) :
  BackendCopy.validateGherkinStory story
    `sublist_of` all_messages copy_required_message copy_prefix_message.
Proof.
  unfold BackendCopy.validateGherkinStory. rewrite copy_push_if.
  apply sublist_pushes.
Qed.

Lemma backend_required_entry (story : Backend.PartialStory) (r : Required) :
  In (required_message r) (snd (Backend.validateUserStory story))
  <-> empty_after_trim (value story r).
Proof.
  rewrite <- blank_spec.
  unfold Backend.validateUserStory. cbn [snd].
  destruct r; cbn [value]; membership.
Qed.

Lemma backend_prefix_entry (story : Backend.PartialStory) (r : Required) :
  r <> Description ->
  In (prefix_message r) (snd (Backend.validateUserStory story))
  <-> lacks_keyword (keyword r) (value story r).
Proof.
  intros Hr. rewrite <- lacks_prefix_spec.
  unfold Backend.validateUserStory. cbn [snd].
  destruct r; [contradiction| | |]; cbn [value keyword];
    change (JS.toLowerCase "Given") with "given";
    change (JS.toLowerCase "When") with "when";
    change (JS.toLowerCase "Then") with "then";
    membership.
Qed.

Lemma copy_required_entry (story : GherkinUserStory) (r : Required) :
  In (copy_required_message r) (BackendCopy.validateGherkinStory story)
  <-> copy_value story r = "".
Proof.
  rewrite <- truthy_false, <- negb_true_iff.
  unfold BackendCopy.validateGherkinStory. rewrite copy_push_if.
  destruct r; cbn [copy_value]; membership.
Qed.

Lemma copy_prefix_entry (story : GherkinUserStory) (r : Required) :
  r <> Description ->
  In (copy_prefix_message r) (BackendCopy.validateGherkinStory story)
  <-> copy_value story r <> ""
      /\ JS.startsWith (JS.toLowerCase (keyword r))
           (JS.toLowerCase (copy_value story r)) = false.
Proof.
  intros Hr. rewrite <- copy_lacks_prefix_spec.
  unfold BackendCopy.validateGherkinStory. rewrite copy_push_if.
  destruct r; [contradiction| | |]; cbn [copy_value keyword];
    change (JS.toLowerCase "Given") with "given";
    change (JS.toLowerCase "When") with "when";
    change (JS.toLowerCase "Then") with "then";
    membership.
Qed.

Lemma messages_NoDup :
  NoDup (all_messages required_message prefix_message)
  /\ NoDup (all_messages copy_required_message copy_prefix_message).
Proof. split; apply (bool_decide_unpack _); vm_compute; exact I. Qed.

(** C7, as the claim states it, fails on the earlier validator, which
    does not trim: a record whose description is one space has a
    description that is empty after trimming and gets no entry. *)
Lemma C7_copy_accepts_blank_description :
  ~ (forall story : GherkinUserStory, copy_lists_trimmed_blanks story).
Proof.
  intros H.
  specialize (H (mkStory "US-1" " " "" "" "" "" "" "Given a" "When b" "Then c"
                   None None None None) Description eq_refl).
  vm_compute in H. exact H.
Qed.

(** C7 (amended).  The error list of [validateUserStory] holds, in the
    order of the checks and without repetition, the entry
    [<FieldName> is required] of exactly those of description, given,
    when, then that are missing or empty after trimming, and the entry
    [<FieldName> should start with ...] of exactly those of given, when,
    then that are non-empty and do not start, in lower case, with their
    keyword; [valid] holds exactly when the list is empty.  The earlier
    [validateGherkinStory] returns the error list alone and differs in
    one point: it does not trim, so a field has its [is required] entry
    exactly when it is the empty string. *)
Theorem C7_validator_error_lists
    (story : Backend.PartialStory) (full : GherkinUserStory) :
  (let valid := fst (Backend.validateUserStory story) in
   let errors := snd (Backend.validateUserStory story) in
   errors `sublist_of` all_messages required_message prefix_message
   /\ NoDup errors
   /\ (forall r, In (required_message r) errors <-> empty_after_trim (value story r))
   /\ (forall r, r <> Description ->
         (In (prefix_message r) errors <-> lacks_keyword (keyword r) (value story r)))
   /\ (valid = true <-> errors = []))
  /\ (let errors := BackendCopy.validateGherkinStory full in
      errors `sublist_of` all_messages copy_required_message copy_prefix_message
      /\ NoDup errors
      /\ (forall r, In (copy_required_message r) errors <-> copy_value full r = "")
      /\ (forall r, r <> Description ->
            (In (copy_prefix_message r) errors
             <-> copy_value full r <> ""
                 /\ JS.startsWith (JS.toLowerCase (keyword r))
                      (JS.toLowerCase (copy_value full r)) = false))).
Proof.
  cbv zeta. split.
  - split; [apply backend_errors_sublist|].
    split; [exact (sublist_NoDup _ _ (proj1 messages_NoDup)
                     (backend_errors_sublist story))|].
    split; [apply backend_required_entry|].
    split; [apply backend_prefix_entry|].
    unfold Backend.validateUserStory. cbn [fst snd]. apply length_zero_iff_nil.
  - split; [apply copy_errors_sublist|].
    split; [exact (sublist_NoDup _ _ (proj2 messages_NoDup)
                     (copy_errors_sublist full))|].
    split; [apply copy_required_entry|apply copy_prefix_entry].
Qed.

Lemma C7_validator_error_lists_witness :
  In (prefix_message Given)
     (snd (Backend.validateUserStory
             (Backend.mkPartial (Some "Login") (Some " Given a") (Some "When b") None))).
Proof.
  destruct (C7_validator_error_lists
              (Backend.mkPartial (Some "Login") (Some " Given a") (Some "When b") None)
              (mkStory "" "" "" "" "" "" "" "" "" "" None None None None))
    as [(_ & _ & _ & Hprefix & _) _].
  apply (Hprefix Given); [discriminate|].
  vm_compute. split; [discriminate|reflexivity].
Defined.

End Validators.

(** ** The mock provider *)

Section Mock.

Import MockSpec.

Variable clock : nat -> Z.
Variable toISOString : Z -> string.
Variable context : MockAI.TestGenerationContext.

Lemma generate_pair_origins (story : GherkinUserStory) (module : string)
    (acc : list MockAI.TestCase) (n : nat) :
  let out := fst (MockAI.generate_pair clock context story module acc n) in
  map origin out =
    map origin acc
    ++ map (fun k => (Some (us_id story), module, Some k))
         (pair_kinds (MockAI.includeNegativeTests context))
  /\ (Forall edge_is_low acc -> Forall edge_is_low out).
Proof.
  unfold MockAI.generate_pair, MockAI.createPositiveTestCase,
    MockAI.createNegativeTestCase, MockAI.createEdgeCaseTest,
    Clock.bind, Clock.ret, Clock.now.
  destruct (MockAI.includeNegativeTests context); cbn [fst pair_kinds map].
  - split.
    + rewrite <- !app_assoc, map_app. reflexivity.
    + intros Hacc. rewrite <- !app_assoc. apply Forall_app. split; [assumption|].
      repeat constructor; intros Hk; cbv in Hk; try discriminate Hk; reflexivity.
  - split.
    + rewrite <- !app_assoc, map_app. reflexivity.
    + intros Hacc. rewrite <- !app_assoc. apply Forall_app. split; [assumption|].
      repeat constructor; intros Hk; cbv in Hk; try discriminate Hk; reflexivity.
Qed.

Lemma for_modules_origins (story : GherkinUserStory) (modules : list string)
    (acc : list MockAI.TestCase) (n : nat) :
  let out := fst (MockAI.for_modules clock context story modules acc n) in
  map origin out =
    map origin acc
    ++ flat_map (fun module =>
         map (fun k => (Some (us_id story), module, Some k))
             (pair_kinds (MockAI.includeNegativeTests context))) modules
  /\ (Forall edge_is_low acc -> Forall edge_is_low out).
Proof.
  cbv zeta. revert acc n. induction modules as [|module rest IH]; intros acc n.
  - cbn. rewrite app_nil_r. tauto.
  - cbn [MockAI.for_modules flat_map]. unfold Clock.bind.
    pose proof (generate_pair_origins story module acc n) as Hpair. cbv zeta in Hpair.
    destruct (MockAI.generate_pair clock context story module acc n) as [acc' n'].
    cbn [fst] in Hpair. destruct Hpair as [Ho Hl].
    destruct (IH acc' n') as [Ho' Hl']. split.
    + rewrite Ho', Ho, <- app_assoc. reflexivity.
    + auto.
Qed.

Lemma for_stories_origins (stories : list GherkinUserStory)
    (acc : list MockAI.TestCase) (n : nat) :
  let out := fst (MockAI.for_stories clock context stories acc n) in
  map origin out =
    map origin acc
    ++ flat_map (fun story =>
         flat_map (fun module =>
           map (fun k => (Some (us_id story), module, Some k))
               (pair_kinds (MockAI.includeNegativeTests context)))
           (MockAI.selectedModules context)) stories
  /\ (Forall edge_is_low acc -> Forall edge_is_low out).
Proof.
  cbv zeta. revert acc n. induction stories as [|story rest IH]; intros acc n.
  - cbn. rewrite app_nil_r. tauto.
  - cbn [MockAI.for_stories flat_map]. unfold Clock.bind.
    pose proof (for_modules_origins story (MockAI.selectedModules context) acc n)
      as Hmods. cbv zeta in Hmods.
    destruct (MockAI.for_modules clock context story
                (MockAI.selectedModules context) acc n) as [acc' n'].
    cbn [fst] in Hmods. destruct Hmods as [Ho Hl].
    destruct (IH acc' n') as [Ho' Hl']. split.
    + rewrite Ho', Ho, <- app_assoc. reflexivity.
    + auto.
Qed.

Lemma expected_origins_length :
  length (expected_origins context) =
    length (MockAI.userStories context) * length (MockAI.selectedModules context)
    * (if MockAI.includeNegativeTests context then 3 else 2).
Proof.
  unfold expected_origins.
  assert (length (pair_kinds (MockAI.includeNegativeTests context))
          = if MockAI.includeNegativeTests context then 3 else 2) as Hk
    by (destruct (MockAI.includeNegativeTests context); reflexivity).
  induction (MockAI.userStories context) as [|story rest IH]; [reflexivity|].
  cbn [flat_map]. rewrite length_app, IH. cbn [length].
  assert (forall modules : list string,
    length (flat_map (fun module =>
              map (fun k => (Some (us_id story), module, Some k))
                  (pair_kinds (MockAI.includeNegativeTests context))) modules)
    = length modules * (if MockAI.includeNegativeTests context then 3 else 2)) as Hm.
  { induction modules as [|m ms IHm]; [reflexivity|].
    cbn [flat_map]. rewrite length_app, length_map, IHm, Hk. cbn [length]. lia. }
  rewrite Hm. lia.
Qed.

(** C8.  The mock provider answers with [success = true] and, for
    every story and every selected module in turn, a positive artifact,
    a negative one when the negative-tests flag is set, and an edge
    artifact: S * M * 3 artifacts with the flag and S * M * 2 without.
    Every edge artifact has priority [low]. *)
Theorem C8_mock_provider_artifacts (n : nat) :
  let result := fst (MockAI.generateTestCases clock toISOString context n) in
  MockAI.success result = true
  /\ map origin (MockAI.testCases result) = expected_origins context
  /\ length (MockAI.testCases result) =
       length (MockAI.userStories context) * length (MockAI.selectedModules context)
       * (if MockAI.includeNegativeTests context then 3 else 2)
  /\ Forall edge_is_low (MockAI.testCases result).
Proof.
  cbv zeta. unfold MockAI.generateTestCases, Clock.bind, Clock.now, Clock.ret.
  pose proof (for_stories_origins (MockAI.userStories context) [] (S n)) as H.
  cbv zeta in H.
  destruct (MockAI.for_stories clock context (MockAI.userStories context) [] (S n))
    as [cases n'].
  cbn [fst] in H. destruct H as [Ho Hl].
  cbn [fst MockAI.success MockAI.testCases].
  split; [reflexivity|]. split; [exact Ho|].
  split; [|apply Hl; constructor].
  rewrite <- (length_map origin), Ho. apply expected_origins_length.
Qed.

End Mock.

(** The scenario of one story and two modules: six artifacts with the
    negative tests, four without. *)
Example mock_one_story_two_modules :
  let story := mkStory "US-002" "Login works" "User" "Login works"
                 "I can achieve my goal" "" "" "Given a" "When b" "Then c"
                 (Some "") (Some "") (Some []) (Some medium) in
  let run flag :=
    fst (MockAI.generateTestCases (fun n => Z.of_nat n) (fun _ => "")
           (MockAI.mkContext [story] ["ticketing"; "upsize"] "travel_agent"
              MockAI.full flag false false) 0) in
  length (MockAI.testCases (run true)) = 6
  /\ length (MockAI.testCases (run false)) = 4
  /\ map MockAI.tc_id (MockAI.testCases (run false))
     = ["TC_US-002_ticketing_POS_1"; "TC_US-002_ticketing_EDGE_2";
        "TC_US-002_upsize_POS_3"; "TC_US-002_upsize_EDGE_4"].
Proof. vm_compute. repeat split; reflexivity. Qed.

(** ** The registries *)

Section Registries.

Import Registry RegistrySpec.


Context {World Context_ Result : Type}.


End Registries.

Section RegistryWitness.

Import Registry RegistrySpec.


End RegistryWitness.

(** ** The remote adapters *)

Section Adapters.

Import Remote RemoteSpec.

(** C10, as the claim states it, fails: the result type of the adapters
    has no [success] property.  When the call of the OpenAI adapter
    throws, the object returned has the properties testCases,
    generationTime, provider and metadata, nothing else. *)
Lemma C10_failure_result_has_no_success_flag :
  ~ failure_sets_success_flag.
Proof.
  intros H.
  destruct (H unit unit unit (fun _ => "prompt")
              (fun _ _ => inl "timeout") (fun _ _ => inl "timeout")
              (fun _ => inl "bad json") (fun _ => inr [])
              (fun n => Z.of_nat n) OpenAI "gpt-4" tt "timeout" 0
              (openai_call_fails _ _ _ _ _ _ _ _ _ _ "timeout" eq_refl))
    as [result [Hr Hflag]].
  vm_compute in Hr. injection Hr as <-.
  vm_compute in Hflag. intuition discriminate.
Qed.

Variables TestCase TestGenerationContext Json : Type.
Variable buildAirlinePrompt : TestGenerationContext -> string.
Variable openai_create : string -> string -> string + ChatCompletion.
Variable gemini_generateContent : string -> string -> string + string.
Variable JSON_parse : string -> string + Json.
Variable testCases_of : Json -> string + list TestCase.
Variable clock : nat -> Z.

(** A failure makes the [try] block throw its message. *)
Lemma attempt_throws (a : Adapter) (model_name : string)
    (context : TestGenerationContext) (message : string) (startTime : Z) (n : nat) :
  Fails TestCase TestGenerationContext Json buildAirlinePrompt openai_create
    gemini_generateContent JSON_parse testCases_of model_name context a message ->
  fst (attempt TestCase TestGenerationContext Json buildAirlinePrompt openai_create
         gemini_generateContent JSON_parse testCases_of clock
         a model_name context startTime n) = inl message.
Proof.
  intros Hf. unfold attempt.
  destruct Hf as [e Hc|response Hc Hn|response text e Hc Ht Hne Hp
                 |response text parsed e Hc Ht Hne Hp Hs
                 |e Hc|text e Hc Hp|text parsed e Hc Hp Hs];
    unfold openai_try, gemini_try, parse_response, Clock.bind, Clock.ret, Clock.now;
    rewrite Hc; try reflexivity.
  - destruct Hn as [-> | ->]; reflexivity.
  - rewrite Ht. apply truthy_true in Hne. rewrite Hne. cbn [fst]. now rewrite Hp.
  - rewrite Ht. apply truthy_true in Hne. rewrite Hne. cbn [fst]. now rewrite Hp, Hs.
  - cbn [fst]. now rewrite Hp.
  - cbn [fst]. now rewrite Hp, Hs.
Qed.

(** Whatever the external service and the parser do, an adapter returns
    a result: no error is thrown to the caller. *)
Lemma adapter_never_throws (a : Adapter) (model_name : string)
    (context : TestGenerationContext) (n : nat) :
  exists result,
    fst (generateTestCases TestCase TestGenerationContext Json buildAirlinePrompt
           openai_create gemini_generateContent JSON_parse testCases_of clock
           a model_name context n) = inr result.
Proof.
  unfold generateTestCases, try_catch, Clock.bind. cbn [Clock.now].
  destruct (attempt TestCase TestGenerationContext Json buildAirlinePrompt
              openai_create gemini_generateContent JSON_parse testCases_of clock
              a model_name context (clock n) (S n)) as [[message|result] n'].
  - unfold on_failure, Clock.bind, Clock.ret, Clock.now. cbn [fst]. eexists. reflexivity.
  - exists result. reflexivity.
Qed.

(** C10 (amended).  When the external call of an adapter or the parsing
    of its answer fails, [generateTestCases] throws nothing: it returns
    a result with an empty list of test cases, the counts
    totalGenerated = 0, successful = 0 and failed = 1, the single warning
    [Generation failed: <message>], the name of the adapter as provider,
    and no model; the object has the properties testCases,
    generationTime, provider and metadata alone (there is no [success]
    flag). *)
Theorem C10_adapter_failure_result (a : Adapter) (model_name : string)
    (context : TestGenerationContext) (message : string) (n : nat) :
  Fails TestCase TestGenerationContext Json buildAirlinePrompt openai_create
    gemini_generateContent JSON_parse testCases_of model_name context a message ->
  exists result,
    fst (generateTestCases TestCase TestGenerationContext Json buildAirlinePrompt
           openai_create gemini_generateContent JSON_parse testCases_of clock
           a model_name context n) = inr result
    /\ testCases result = []
    /\ metadata result =
         {| totalGenerated := 0; successful := 0; failed := 1;
            warnings := ["Generation failed: " +:+ message] |}
    /\ provider result = adapter_name a
    /\ model result = None
    /\ tokensUsed result = None
    /\ property_names result = ["testCases"; "generationTime"; "provider"; "metadata"].
Proof.
  intros Hf.
  unfold generateTestCases, try_catch, Clock.bind. cbn [Clock.now].
  pose proof (attempt_throws a model_name context message (clock n) (S n) Hf) as Ht.
  match type of Ht with
  | fst ?c = _ => destruct c as [outcome n']
  end.
  cbn [fst] in Ht. subst outcome.
  unfold on_failure, Clock.bind, Clock.ret, Clock.now. cbn [fst].
  eexists. split; [reflexivity|]. cbn. repeat split; reflexivity.
Qed.

End Adapters.

Section AdapterWitness.

Import Remote.

Lemma C10_adapter_failure_result_witness :
  exists result,
    RemoteSpec.gemini_on_prose = inr result
    /\ testCases result = []
    /\ metadata result =
         {| totalGenerated := 0; successful := 0; failed := 1;
            warnings :=
              ["Generation failed: Unexpected token S in JSON at position 0"] |}.
Proof.
  destruct (C10_adapter_failure_result unit unit unit (fun _ => "prompt")
              (fun _ _ => inl "unused") (fun _ _ => inr "Sorry, I cannot help")
              (fun _ => inl "Unexpected token S in JSON at position 0")
              (fun _ => inr []) (fun n => Z.of_nat n)
              Gemini "gemini-pro" tt "Unexpected token S in JSON at position 0" 0)
    as (result & Hr & Hcases & Hmeta & _).
  - eapply gemini_parse_fails; reflexivity.
  - exists result. split; [exact Hr|]. split; [exact Hcases|exact Hmeta].
Defined.

End AdapterWitness.

(** * Further properties *)

(** ** The mapper: acceptance and the columns it points to *)

Section MapperMore.

Import MapperSpec SheetSpec.

Lemma first_matching_Some (ps : list (string * Regex.pattern)) (text field : string) :
  first_matching ps text = Some field ->
  exists pattern, In (field, pattern) ps /\ Regex.test pattern text = true.
Proof.
  unfold first_matching. intros H.
  destruct (List.find (fun fp => Regex.test (snd fp) text) ps) as [[f p]|] eqn:E;
    [|discriminate].
  injection H as <-. apply find_some in E as [Hin Ht]. exists p. auto.
Qed.



(** X2. Every column of an accepted mapping of the current mapper lies
    inside the header row and holds a string that the pattern of its
    field matches. *)
Theorem backend_mapping_points_to_matching_header
    (headerRow : list cell) (mapping : gmap string nat) (field : string) (i : nat) :
  Backend.detectColumnMapping headerRow = Some mapping ->
  mapping !! field = Some i ->
  i < length headerRow
  /\ exists h pattern,
       headerRow !! i = Some (CStr h)
       /\ In (field, pattern) Backend.columnPatterns
       /\ Regex.test pattern (JS.toLowerCase (JS.trim h)) = true.
Proof.
  unfold Backend.detectColumnMapping.
  destruct (Backend.hasRequiredFields _); [|discriminate].
  intros [= <-] Hl. rewrite backend_scan_lookup, lookup_empty in Hl.
  destruct (last_column headerRow field) as [j|] eqn:E; [|discriminate].
  injection Hl as <-. cbn [Nat.add] in *.
  destruct (last_column_Some _ _ _ E) as [[header [Hh Hf]] _].
  split; [eapply lookup_lt_Some; exact Hh|].
  destruct header as [h|t shown]; [|discriminate].
  unfold header_field in Hf. destruct (JS.truthy h); [|discriminate].
  apply first_matching_Some in Hf as [pattern [Hin Ht]].
  exists h, pattern. auto.
Qed.

Lemma backend_mapping_points_to_matching_header_witness :
  3 < length (sheet ["ID"; "Title"; "Step"; "Setup"; "Expected"])
  /\ exists h pattern,
       sheet ["ID"; "Title"; "Step"; "Setup"; "Expected"] !! 3 = Some (CStr h)
       /\ In ("given", pattern) Backend.columnPatterns
       /\ Regex.test pattern (JS.toLowerCase (JS.trim h)) = true.
Proof.
  apply (backend_mapping_points_to_matching_header
           (sheet ["ID"; "Title"; "Step"; "Setup"; "Expected"])
           (Backend.scan_headers
              (sheet ["ID"; "Title"; "Step"; "Setup"; "Expected"]) 0 ∅)).
  - vm_compute. reflexivity.
  - vm_compute. reflexivity.
Defined.

Lemma copy_assign_first_sound (h : string) (index : nat)
    (ps : list (string * Regex.pattern)) (m : gmap string nat)
    (Q : string -> nat -> Prop) :
  (forall key pattern, In (key, pattern) ps ->
     Regex.test pattern (JS.trim h) = true -> Q key index) ->
  (forall key i, m !! key = Some i -> Q key i) ->
  forall key i, BackendCopy.assign_first ps (JS.trim h) index m !! key = Some i ->
                Q key i.
Proof.
  induction ps as [|[k p] rest IH]; intros Hnew Hold key i; cbn [BackendCopy.assign_first].
  - apply Hold.
  - destruct (Regex.test p (JS.trim h) && BackendCopy.not_mapped m k) eqn:E.
    + apply andb_true_iff in E as [Et _].
      destruct (decide (k = key)) as [->|Hne].
      * rewrite lookup_insert_eq. intros [= <-]. eapply Hnew; [left; reflexivity|exact Et].
      * rewrite lookup_insert_ne by assumption. apply Hold.
    + apply IH; [|assumption]. intros key' pattern Hin. apply Hnew. now right.
Qed.

Lemma copy_scan_sound (full : list cell) (rest : list cell) (k : nat)
    (m : gmap string nat) :
  (forall j, rest !! j = full !! (k + j)) ->
  (forall key i, m !! key = Some i -> copy_points_to full key i) ->
  forall key i, BackendCopy.scan_headers rest k m !! key = Some i ->
                copy_points_to full key i.
Proof.
  revert k m. induction rest as [|header rest IH]; intros k m Hfull Hm key i.
  - cbn. apply Hm.
  - cbn [BackendCopy.scan_headers]. apply IH.
    + intros j. transitivity (full !! (k + S j)); [exact (Hfull (S j))|].
      f_equal. lia.
    + clear key i. intros key i.
      destruct header as [h|t shown]; [|apply Hm].
      unfold BackendCopy.visit_header. destruct (JS.truthy h); [|apply Hm].
      apply (copy_assign_first_sound h k BackendCopy.patterns m (copy_points_to full));
        [|exact Hm].
      intros key' pattern Hin Ht.
      pose proof (Hfull 0) as H0. rewrite Nat.add_0_r in H0.
      split; [eapply lookup_lt_Some; symmetry; exact H0|].
      exists h, pattern. split; [symmetry; exact H0|]. auto.
Qed.

(** X3. The same for the earlier mapper, whose guard does not change what a
    column that is assigned must look like: every column of an accepted
    mapping lies inside the header row and holds a string that the
    pattern of its key matches. *)
Theorem copy_mapping_points_to_matching_header
    (headerRow : list cell) (mapping : gmap string nat) (key : string) (i : nat) :
  BackendCopy.detectColumnMapping headerRow = Some mapping ->
  mapping !! key = Some i ->
  i < length headerRow
  /\ exists h pattern,
       headerRow !! i = Some (CStr h)
       /\ In (key, pattern) BackendCopy.patterns
       /\ Regex.test pattern (JS.trim h) = true.
Proof.
  unfold BackendCopy.detectColumnMapping.
  destruct (BackendCopy.hasRequired _); [|discriminate].
  intros [= <-]. apply (copy_scan_sound headerRow headerRow 0 ∅).
  - intros j. reflexivity.
  - intros key' i'. rewrite lookup_empty. discriminate.
Qed.

Lemma copy_mapping_points_to_matching_header_witness :
  2 < length (sheet ["Summary"; "Setup"; "Trigger"; "Expected"])
  /\ exists h pattern,
       sheet ["Summary"; "Setup"; "Trigger"; "Expected"] !! 2 = Some (CStr h)
       /\ In ("when", pattern) BackendCopy.patterns
       /\ Regex.test pattern (JS.trim h) = true.
Proof.
  apply (copy_mapping_points_to_matching_header
           (sheet ["Summary"; "Setup"; "Trigger"; "Expected"])
           (BackendCopy.scan_headers
              (sheet ["Summary"; "Setup"; "Trigger"; "Expected"]) 0 ∅)).
  - vm_compute. reflexivity.
  - vm_compute. reflexivity.
Defined.

End MapperMore.

(** ** Sheets as a whole *)

Section SheetsMore.

Import RowSpec SheetSpec.

Lemma trimEnd_idempotent (s : string) : JS.trimEnd (JS.trimEnd s) = JS.trimEnd s.
Proof.
  induction s as [|c s IH]; [reflexivity|].
  cbn [JS.trimEnd]. destruct (JS.trimEnd s) as [|d u] eqn:E.
  - destruct (JS.is_space c) eqn:Ec; [reflexivity|].
    cbn [JS.trimEnd]. now rewrite Ec.
  - remember (String d u) as t eqn:Et.
    cbn [JS.trimEnd]. rewrite IH. subst t. reflexivity.
Qed.

Lemma trimStart_fixed (s : string) :
  match s with String c _ => JS.is_space c = false | EmptyString => True end ->
  JS.trimStart s = s.
Proof. destruct s as [|c s]; cbn; [reflexivity|]. now intros ->. Qed.

Lemma trimStart_head (s : string) :
  match JS.trimStart s with
  | String c _ => JS.is_space c = false
  | EmptyString => True
  end.
Proof.
  induction s as [|c s IH]; cbn; [exact I|].
  destruct (JS.is_space c) eqn:E; [exact IH|exact E].
Qed.

Lemma trimEnd_head (s : string) :
  match s with String c _ => JS.is_space c = false | EmptyString => True end ->
  match JS.trimEnd s with
  | String c _ => JS.is_space c = false
  | EmptyString => True
  end.
Proof.
  destruct s as [|c s]; cbn; [trivial|]. intros Hc.
  destruct (JS.trimEnd s); [now rewrite Hc|assumption].
Qed.

(** Trimming twice is trimming once. *)
Lemma trim_idempotent (s : string) : JS.trim (JS.trim s) = JS.trim s.
Proof.
  unfold JS.trim.
  rewrite (trimStart_fixed (JS.trimEnd (JS.trimStart s))).
  - apply trimEnd_idempotent.
  - apply trimEnd_head, trimStart_head.
Qed.

Lemma getCellValue_trimmed (row : list cell) (column : option nat) :
  trimmed (Backend.getCellValue row column).
Proof.
  unfold trimmed, Backend.getCellValue.
  destruct column as [i|]; [|reflexivity].
  destruct (row !! i) as [value|]; [|reflexivity].
  destruct (cell_truthy value); [apply trim_idempotent|reflexivity].
Qed.

Lemma or_else_nonempty (value fallback : string) :
  fallback <> "" -> JS.or_else value fallback <> "".
Proof. unfold JS.or_else. destruct value; cbn; [auto|discriminate]. Qed.

(** Every record that [parseRow] builds is well formed. *)
Lemma parseRow_well_formed (mapping : gmap string nat) (row : list cell)
    (rowNumber : nat) (story : GherkinUserStory) :
  Backend.parseRow row mapping rowNumber = Returned (Some story) ->
  well_formed story.
Proof.
  unfold Backend.parseRow.
  destruct (JS.truthy (Backend.getCellValue row (mapping !! "description"))) eqn:Ed;
  destruct (JS.truthy (Backend.getCellValue row (mapping !! "given"))) eqn:Eg;
  destruct (JS.truthy (Backend.getCellValue row (mapping !! "when"))) eqn:Ew;
  destruct (JS.truthy (Backend.getCellValue row (mapping !! "then"))) eqn:Et;
  cbn [negb andb]; try discriminate.
  intros [= <-]. apply truthy_true in Ed, Eg, Ew, Et.
  unfold well_formed. cbn [us_id us_description us_asA us_iWant us_soThat us_given
    us_when us_then us_tags us_priority].
  repeat split; try assumption; try apply getCellValue_trimmed;
    apply or_else_nonempty; try assumption; discriminate.
Qed.

Lemma scan_rows_Forall (P : GherkinUserStory -> Prop) (mapping : gmap string nat)
    (rows : list (list cell)) (k : nat) (acc : list GherkinUserStory * list string) :
  (forall row n story,
     Backend.parseRow row mapping n = Returned (Some story) -> P story) ->
  Forall P (fst acc) ->
  Forall P (fst (Backend.scan_rows mapping rows k acc)).
Proof.
  intros HP. revert k acc. induction rows as [|row rest IH]; intros k [stories errs] Hacc.
  - exact Hacc.
  - cbn [Backend.scan_rows]. apply IH. unfold Backend.visit_row.
    destruct (Backend.parseRow row mapping (k + 2)) as [message|[story|]] eqn:E;
      cbn [fst] in *; try assumption.
    apply Forall_app. split; [assumption|]. constructor; [|constructor].
    eapply HP. exact E.
Qed.

(** X4. Whatever the sheet, every record of the report has a non-empty
    identifier, description, role, goal, benefit, given, when and then;
    its four required texts are trimmed; it has no tags and the priority
    [medium]. *)
Theorem report_records_are_well_formed (jsonData : list (list cell)) :
  Forall well_formed (Backend.data (Backend.parseExcelFile jsonData)).
Proof.
  unfold Backend.parseExcelFile.
  destruct jsonData as [|headerRow [|row rows]]; try (cbn; constructor).
  destruct (Backend.detectColumnMapping headerRow) as [m|]; [|cbn; constructor].
  pose proof (scan_rows_Forall well_formed m (row :: rows) 0 ([], [])
                (parseRow_well_formed m) (List.Forall_nil _)) as H.
  unfold Backend.parseDataRows.
  destruct (Backend.scan_rows m (row :: rows) 0 ([], [])) as [stories errs].
  exact H.
Qed.

Lemma visit_row_by_kind (mapping : gmap string nat) (row : list cell) (k : nat)
    (stories : list GherkinUserStory) (errs : list string) :
  let out := Backend.visit_row mapping row k (stories, errs) in
  length (fst out) = length stories + (if is_kind Complete mapping row then 1 else 0)
  /\ length (snd out) = length errs + (if is_kind Partial mapping row then 1 else 0).
Proof.
  cbv zeta. unfold Backend.visit_row, Backend.parseRow, is_kind, row_kind.
  cbv beta iota delta [required_text cell_text key map forallb existsb].
  destruct (JS.truthy (Backend.getCellValue row (mapping !! "description")));
  destruct (JS.truthy (Backend.getCellValue row (mapping !! "given")));
  destruct (JS.truthy (Backend.getCellValue row (mapping !! "when")));
  destruct (JS.truthy (Backend.getCellValue row (mapping !! "then")));
  cbn [negb andb orb fst snd]; rewrite ?length_app; cbn [length]; lia.
Qed.

Lemma scan_rows_counts (mapping : gmap string nat) (rows : list (list cell))
    (k : nat) (acc : list GherkinUserStory * list string) :
  let out := Backend.scan_rows mapping rows k acc in
  length (fst out) = length (fst acc) + count_kind Complete mapping rows
  /\ length (snd out) = length (snd acc) + count_kind Partial mapping rows.
Proof.
  cbv zeta. revert k acc. induction rows as [|row rest IH]; intros k [stories errs].
  - cbn. lia.
  - cbn [Backend.scan_rows].
    pose proof (visit_row_by_kind mapping row k stories errs) as Hv. cbv zeta in Hv.
    destruct (Backend.visit_row mapping row k (stories, errs)) as [s' e'].
    cbn [fst snd] in Hv. destruct Hv as [Hs He].
    destruct (IH (S k) (s', e')) as [IHs IHe]. cbn [fst snd] in *.
    unfold count_kind in *. cbn [List.filter].
    destruct (is_kind Complete mapping row), (is_kind Partial mapping row);
      cbn [length]; split; lia.
Qed.

Lemma kinds_partition (mapping : gmap string nat) (rows : list (list cell)) :
  count_kind Blank mapping rows + count_kind Partial mapping rows
  + count_kind Complete mapping rows = length rows.
Proof.
  assert (forall row,
            (if is_kind Blank mapping row then 1 else 0)
            + (if is_kind Partial mapping row then 1 else 0)
            + (if is_kind Complete mapping row then 1 else 0) = 1) as Hone
    by (intros row; unfold is_kind; destruct (row_kind mapping row); reflexivity).
  unfold count_kind. induction rows as [|row rest IH]; [reflexivity|].
  cbn [List.filter]. specialize (Hone row).
  destruct (is_kind Blank mapping row), (is_kind Partial mapping row),
    (is_kind Complete mapping row); cbn [length] in *; lia.
Qed.

(** X5. Once the header row is accepted, every data row counts exactly
    once: the records are as many as the complete rows, the errors as
    many as the partial rows, and together with the blank rows they add
    up to [totalRows]. *)
Theorem accepted_report_counts (headerRow row : list cell) (rows : list (list cell))
    (mapping : gmap string nat) :
  Backend.detectColumnMapping headerRow = Some mapping ->
  let report := Backend.parseExcelFile (headerRow :: row :: rows) in
  Backend.validRows report = count_kind Complete mapping (row :: rows)
  /\ length (Backend.errors report) = count_kind Partial mapping (row :: rows)
  /\ Backend.validRows report + length (Backend.errors report)
     + count_kind Blank mapping (row :: rows) = Backend.totalRows report
  /\ Backend.totalRows report = S (length rows).
Proof.
  intros Hm. cbv zeta. unfold Backend.parseExcelFile. rewrite Hm.
  pose proof (scan_rows_counts mapping (row :: rows) 0 ([], [])) as Hc.
  cbv zeta in Hc. unfold Backend.parseDataRows.
  destruct (Backend.scan_rows mapping (row :: rows) 0 ([], [])) as [stories errs].
  cbn [fst snd length Nat.add] in Hc. destruct Hc as [Hs He].
  cbn [Backend.validRows Backend.errors Backend.totalRows].
  pose proof (kinds_partition mapping (row :: rows)) as Hp. cbn [length] in Hp.
  repeat split; cbn [length]; lia.
Qed.

Lemma accepted_report_counts_witness :
  Backend.validRows (Backend.parseExcelFile three_rows) = 1
  /\ length (Backend.errors (Backend.parseExcelFile three_rows)) = 1
  /\ Backend.totalRows (Backend.parseExcelFile three_rows) = 3.
Proof.
  destruct (accepted_report_counts
              (sheet ["Description"; "Given"; "When"; "Then"])
              (sheet ["Login"; "Given a"; "When b"; "Then c"])
              [ sheet [""; ""; ""; ""]; sheet ["Logout"; ""; "When b"; "Then c"] ]
              plain) as (Hv & He & _ & Ht).
  - vm_compute. reflexivity.
  - unfold three_rows. rewrite Hv, He, Ht. vm_compute. repeat split; reflexivity.
Defined.

(** X6. A record of the parser has all it needs to pass the validator but
    the keywords: it gets no [is required] entry, and it is valid
    exactly when its given, when and then texts start with their
    keywords. *)
Theorem parsed_record_validation (mapping : gmap string nat) (row : list cell)
    (rowNumber : nat) (story : GherkinUserStory) :
  Backend.parseRow row mapping rowNumber = Returned (Some story) ->
  (forall r, ~ In (ValidatorSpec.required_message r)
               (snd (Backend.validateUserStory (as_partial story))))
  /\ (fst (Backend.validateUserStory (as_partial story)) = true
      <-> follows_keywords story).
Proof.
  intros Hrow. apply parseRow_well_formed in Hrow.
  destruct Hrow as (_ & Hd & _ & _ & _ & Hg & Hw & Ht & Td & Tg & Tw & Tt & _).
  unfold trimmed in *.
  assert (Backend.blank (Some (us_description story)) = false) as Bd
    by (cbn; rewrite Td; apply negb_false_iff, truthy_true; assumption).
  assert (Backend.blank (Some (us_given story)) = false) as Bg
    by (cbn; rewrite Tg; apply negb_false_iff, truthy_true; assumption).
  assert (Backend.blank (Some (us_when story)) = false) as Bw
    by (cbn; rewrite Tw; apply negb_false_iff, truthy_true; assumption).
  assert (Backend.blank (Some (us_then story)) = false) as Bt
    by (cbn; rewrite Tt; apply negb_false_iff, truthy_true; assumption).
  apply truthy_true in Hg, Hw, Ht.
  split.
  - intros r. rewrite backend_required_entry, <- blank_spec.
    destruct r; cbn [ValidatorSpec.value as_partial Backend.p_description
      Backend.p_given Backend.p_when Backend.p_then]; congruence.
  - unfold Backend.validateUserStory, follows_keywords. cbn [fst].
    cbn [as_partial Backend.p_description Backend.p_given Backend.p_when
         Backend.p_then].
    rewrite Bd, Bg, Bw, Bt. unfold Backend.lacks_prefix. rewrite Hg, Hw, Ht.
    cbn [andb Backend.push_if].
    destruct (JS.startsWith "given" (JS.toLowerCase (us_given story)));
    destruct (JS.startsWith "when" (JS.toLowerCase (us_when story)));
    destruct (JS.startsWith "then" (JS.toLowerCase (us_then story)));
    cbn; intuition congruence.
Qed.

Lemma parsed_record_validation_witness :
  exists story,
    Backend.parseRow (sheet ["Login"; "Given a"; "b happens"; "Then c"]) plain 2
    = Returned (Some story)
    /\ fst (Backend.validateUserStory (as_partial story)) = false.
Proof.
  eexists. split; [vm_compute; reflexivity|].
  match goal with
  | |- fst (Backend.validateUserStory (as_partial ?s)) = false =>
      destruct (parsed_record_validation plain
                  (sheet ["Login"; "Given a"; "b happens"; "Then c"]) 2 s)
        as [_ Hv]; [vm_compute; reflexivity|]
  end.
  apply not_true_is_false. intros Hvalid. apply Hv in Hvalid.
  destruct Hvalid as (_ & Hw & _). vm_compute in Hw. discriminate Hw.
Defined.

(** X7. On the same mapping and the same row the two parsers tell the
    same: both skip the row, both reject it for the same first missing
    field, or both build a record with the same identifier and the same
    texts in the fields that neither of them defaults. *)
Theorem parsers_agree_on_rows (mapping : gmap string nat) (row : list cell)
    (rowNumber : nat) :
  outcomes_agree (Backend.parseRow row mapping rowNumber)
                 (BackendCopy.parseUserStoryRow row mapping rowNumber).
Proof.
  unfold Backend.parseRow, BackendCopy.parseUserStoryRow. cbv zeta.
  change (BackendCopy.getValue row mapping) with
    (fun key => Backend.getCellValue row (mapping !! key)). cbv beta.
  destruct (JS.truthy (Backend.getCellValue row (mapping !! "description")));
  destruct (JS.truthy (Backend.getCellValue row (mapping !! "given")));
  destruct (JS.truthy (Backend.getCellValue row (mapping !! "when")));
  destruct (JS.truthy (Backend.getCellValue row (mapping !! "then")));
  cbn [negb andb outcomes_agree];
  try exact I;
  try (exists Description; split; reflexivity);
  try (exists Given; split; reflexivity);
  try (exists When; split; reflexivity);
  try (exists Then; split; reflexivity).
  cbn. repeat split; reflexivity.
Qed.

End SheetsMore.

(** ** Synthesized identifiers *)

Section Identifiers.

Import RowSpec SheetSpec.

Lemma to_uint_normal (n : nat) :
  Nat.to_uint n <> Decimal.Nil
  /\ forall d, Nat.to_uint n = Decimal.D0 d -> d = Decimal.Nil.
Proof.
  assert (Nat.to_uint n = Decimal.unorm (Nat.to_uint n)) as Hn.
  { rewrite <- (DecimalNat.Unsigned.to_of (Nat.to_uint n)).
    now rewrite DecimalNat.Unsigned.of_to. }
  rewrite Hn. unfold Decimal.unorm.
  destruct (Decimal.nzhead (Nat.to_uint n)) eqn:E;
    split; try discriminate; try (intros d' [= <-]; reflexivity).
  intros d' Hd. exfalso. rewrite <- E in Hd.
  exact (DecimalFacts.nzhead_nonzero _ _ Hd).
Qed.

Lemma of_nat_inj (m n : nat) : JS.of_nat m = JS.of_nat n -> m = n.
Proof.
  unfold JS.of_nat. intros H. apply DecimalNat.Unsigned.to_uint_inj.
  pose proof (NilZero.usu _ (proj1 (to_uint_normal m))) as Hm.
  pose proof (NilZero.usu _ (proj1 (to_uint_normal n))) as Hn.
  rewrite H in Hm. congruence.
Qed.

(** A decimal numeral is not empty, and starts with the digit 0 only
    when it is [0]. *)
Lemma of_nat_head (n : nat) :
  match JS.of_nat n with
  | EmptyString => False
  | String c rest => c = "0"%char -> rest = EmptyString
  end.
Proof.
  unfold JS.of_nat. destruct (to_uint_normal n) as [Hnil Hzero].
  destruct (Nat.to_uint n) as [|d|d|d|d|d|d|d|d|d|d] eqn:E;
    try contradiction; cbn; try discriminate.
  intros _. now rewrite (Hzero d eq_refl).
Qed.

Lemma padStart0_inj (a b : string) :
  match a with String c r => c = "0"%char -> r = "" | _ => False end ->
  match b with String c r => c = "0"%char -> r = "" | _ => False end ->
  JS.padStart0 3 a = JS.padStart0 3 b -> a = b.
Proof.
  unfold JS.padStart0.
  destruct a as [|a1 [|a2 [|a3 a']]]; [contradiction| | |];
  destruct b as [|b1 [|b2 [|b3 b']]]; try contradiction;
  cbn; intros Ha Hb H; inversion H; subst; try reflexivity;
  try (specialize (Ha eq_refl); discriminate);
  try (specialize (Hb eq_refl); discriminate).
Qed.

(** X8. Rows at different positions that have no identifier of their own
    get different identifiers. *)
Theorem synthesized_identifiers_differ (mapping : gmap string nat)
    (row1 row2 : list cell) (n1 n2 : nat) (story1 story2 : GherkinUserStory) :
  n1 <> n2 ->
  cell_text mapping row1 "id" = "" -> cell_text mapping row2 "id" = "" ->
  Backend.parseRow row1 mapping n1 = Returned (Some story1) ->
  Backend.parseRow row2 mapping n2 = Returned (Some story2) ->
  us_id story1 <> us_id story2.
Proof.
  intros Hn H1 H2 P1 P2 Heq.
  assert (forall row n story,
            cell_text mapping row "id" = "" ->
            Backend.parseRow row mapping n = Returned (Some story) ->
            us_id story = "US-" +:+ JS.padStart0 3 (JS.of_nat n)) as Hid.
  { intros row n story Hc. unfold Backend.parseRow.
    unfold cell_text in Hc. rewrite Hc.
    destruct (JS.truthy (Backend.getCellValue row (mapping !! "description")));
    destruct (JS.truthy (Backend.getCellValue row (mapping !! "given")));
    destruct (JS.truthy (Backend.getCellValue row (mapping !! "when")));
    destruct (JS.truthy (Backend.getCellValue row (mapping !! "then")));
    cbn [negb andb]; try discriminate.
    intros [= <-]. reflexivity. }
  rewrite (Hid _ _ _ H1 P1), (Hid _ _ _ H2 P2) in Heq.
  cbn in Heq. injection Heq as Heq.
  apply padStart0_inj in Heq; [|apply of_nat_head|apply of_nat_head].
  apply of_nat_inj in Heq. contradiction.
Qed.

Lemma synthesized_identifiers_differ_witness :
  exists story1 story2,
    Backend.parseRow (sheet ["Login"; "Given a"; "When b"; "Then c"]) plain 2
    = Returned (Some story1)
    /\ Backend.parseRow (sheet ["Login"; "Given a"; "When b"; "Then c"]) plain 1002
       = Returned (Some story2)
    /\ us_id story1 <> us_id story2.
Proof.
  eexists. eexists. split; [vm_compute; reflexivity|].
  split; [vm_compute; reflexivity|].
  eapply (synthesized_identifiers_differ plain
            (sheet ["Login"; "Given a"; "When b"; "Then c"])
            (sheet ["Login"; "Given a"; "When b"; "Then c"]) 2 1002).
  - lia.
  - vm_compute. reflexivity.
  - vm_compute. reflexivity.
  - vm_compute. reflexivity.
  - vm_compute. reflexivity.
Defined.

End Identifiers.

(** ** The tags of the earlier parser *)

Section Tags.

Import ArtifactSpec.

Lemma split_comma_no_comma (s : string) :
  Forall (fun piece => contains ","%char piece = false) (JS.split_comma s).
Proof.
  induction s as [|c s IH]; cbn [JS.split_comma]; [repeat constructor|].
  destruct (Ascii.eqb c ","%char) eqn:E.
  - constructor; [reflexivity|exact IH].
  - destruct (JS.split_comma s) as [|piece pieces].
    + repeat constructor. cbn [contains]. rewrite Ascii.eqb_sym, E. reflexivity.
    + inversion IH as [|? ? Hp Hps]; subst. constructor; [|assumption].
      cbn [contains]. rewrite Ascii.eqb_sym, E. exact Hp.
Qed.

Lemma trimStart_no_char (c : ascii) (s : string) :
  contains c s = false -> contains c (JS.trimStart s) = false.
Proof.
  induction s as [|d s IH]; cbn; [auto|].
  destruct (JS.is_space d); [|auto].
  intros H. apply orb_false_iff in H as [_ H]. auto.
Qed.

Lemma trimEnd_no_char (c : ascii) (s : string) :
  contains c s = false -> contains c (JS.trimEnd s) = false.
Proof.
  induction s as [|d s IH]; cbn [JS.trimEnd contains]; [auto|].
  intros H. apply orb_false_iff in H as [Hd Hs]. specialize (IH Hs).
  destruct (JS.trimEnd s) as [|e u].
  - destruct (JS.is_space d); cbn; [reflexivity|]. now rewrite Hd.
  - cbn [contains] in *. now rewrite Hd, IH.
Qed.

(** X9. Every tag that the earlier parser reads from a cell is non-empty,
    trimmed and free of commas. *)
Theorem parsed_tags_are_clean (tagsText : string) :
  Forall clean_tag (BackendCopy.parse_tags tagsText).
Proof.
  unfold BackendCopy.parse_tags. destruct (JS.truthy tagsText); [|constructor].
  apply List.Forall_forall. intros tag Hin.
  apply list_elem_of_In, list_elem_of_filter in Hin as [Ht Hin].
  apply list_elem_of_In, in_map_iff in Hin as [piece [<- Hp]].
  split; [now apply truthy_true|]. split; [apply trim_idempotent|].
  unfold JS.trim. apply trimEnd_no_char, trimStart_no_char.
  pose proof (split_comma_no_comma tagsText) as Hall.
  rewrite List.Forall_forall in Hall. now apply Hall.
Qed.

End Tags.

(** ** The artifacts and the tallies of the mock provider *)

Section MockMore.

Import MockSpec ArtifactSpec.

Variable clock : nat -> Z.
Variable toISOString : Z -> string.
Variable context : MockAI.TestGenerationContext.

Lemma generate_pair_Forall (P : MockAI.TestCase -> Prop)
    (story : GherkinUserStory) (module : string)
    (acc : list MockAI.TestCase) (n : nat) :
  (forall k, P (fst (MockAI.createPositiveTestCase clock story module context k))) ->
  (forall k, P (fst (MockAI.createNegativeTestCase clock story module context k))) ->
  (forall k, P (fst (MockAI.createEdgeCaseTest clock story module context k))) ->
  Forall P acc ->
  Forall P (fst (MockAI.generate_pair clock context story module acc n)).
Proof.
  intros Hpos Hneg Hedge Hacc.
  unfold MockAI.generate_pair, Clock.bind, Clock.ret.
  specialize (Hpos n).
  destruct (MockAI.createPositiveTestCase clock story module context n) as [p n1].
  destruct (MockAI.includeNegativeTests context).
  - specialize (Hneg n1).
    destruct (MockAI.createNegativeTestCase clock story module context n1) as [q n2].
    specialize (Hedge n2).
    destruct (MockAI.createEdgeCaseTest clock story module context n2) as [e n3].
    cbn [fst] in *. repeat (apply Forall_app; split); auto.
  - specialize (Hedge n1).
    destruct (MockAI.createEdgeCaseTest clock story module context n1) as [e n3].
    cbn [fst] in *. repeat (apply Forall_app; split); auto.
Qed.

Lemma for_modules_Forall (P : MockAI.TestCase -> Prop)
    (story : GherkinUserStory) (modules : list string)
    (acc : list MockAI.TestCase) (n : nat) :
  (forall module k, In module modules ->
     P (fst (MockAI.createPositiveTestCase clock story module context k))
     /\ P (fst (MockAI.createNegativeTestCase clock story module context k))
     /\ P (fst (MockAI.createEdgeCaseTest clock story module context k))) ->
  Forall P acc ->
  Forall P (fst (MockAI.for_modules clock context story modules acc n)).
Proof.
  revert acc n. induction modules as [|module rest IH]; intros acc n HP Hacc.
  - exact Hacc.
  - cbn [MockAI.for_modules]. unfold Clock.bind.
    pose proof (generate_pair_Forall P story module acc n
                  (fun k => proj1 (HP module k (or_introl eq_refl)))
                  (fun k => proj1 (proj2 (HP module k (or_introl eq_refl))))
                  (fun k => proj2 (proj2 (HP module k (or_introl eq_refl))))
                  Hacc) as Hpair.
    destruct (MockAI.generate_pair clock context story module acc n) as [acc' n'].
    apply IH; [|exact Hpair].
    intros m k Hin. apply HP. now right.
Qed.

Lemma for_stories_Forall (P : MockAI.TestCase -> Prop)
    (stories : list GherkinUserStory) (acc : list MockAI.TestCase) (n : nat) :
  (forall story module k, In story stories ->
     In module (MockAI.selectedModules context) ->
     P (fst (MockAI.createPositiveTestCase clock story module context k))
     /\ P (fst (MockAI.createNegativeTestCase clock story module context k))
     /\ P (fst (MockAI.createEdgeCaseTest clock story module context k))) ->
  Forall P acc ->
  Forall P (fst (MockAI.for_stories clock context stories acc n)).
Proof.
  revert acc n. induction stories as [|story rest IH]; intros acc n HP Hacc.
  - exact Hacc.
  - cbn [MockAI.for_stories]. unfold Clock.bind.
    pose proof (for_modules_Forall P story (MockAI.selectedModules context) acc n
                  (fun module k Hin => HP story module k (or_introl eq_refl) Hin)
                  Hacc) as Hmods.
    destruct (MockAI.for_modules clock context story
                (MockAI.selectedModules context) acc n) as [acc' n'].
    apply IH; [|exact Hmods].
    intros s m k Hs. apply HP. now right.
Qed.

(** X10. Every artifact of the mock provider has four steps numbered 1 to 4,
    one of the selected modules as its module and as its third tag, the
    user type of the context, and the identifier and the tags of one of
    the stories of the context. *)
Theorem mock_artifacts_are_shaped (n : nat) :
  Forall (shaped context)
    (MockAI.testCases (fst (MockAI.generateTestCases clock toISOString context n))).
Proof.
  unfold MockAI.generateTestCases, Clock.bind, Clock.now, Clock.ret.
  pose proof (for_stories_Forall (shaped context) (MockAI.userStories context) []
                (S n)) as H.
  destruct (MockAI.for_stories clock context (MockAI.userStories context) [] (S n))
    as [cases n'].
  cbn [fst MockAI.testCases] in *. apply H; [|constructor].
  intros story module k Hs Hm.
  unfold shaped, MockAI.createPositiveTestCase, MockAI.createNegativeTestCase,
    MockAI.createEdgeCaseTest, Clock.bind, Clock.ret, Clock.now.
  cbn [fst MockAI.steps MockAI.module MockAI.tc_userType MockAI.sourceStoryId
       MockAI.tags map MockAI.stepNumber MockAI.navigate].
  repeat split; try assumption; try reflexivity;
    exists story; repeat split; assumption || reflexivity.
Qed.

Lemma bump_lookup (key other : string) (acc : gmap string MockAI.Tally) :
  MockAI.bump key acc !! other =
    if String.eqb key other then bumped key (acc !! other) else acc !! other.
Proof.
  unfold MockAI.bump, MockAI.assign, MockAI.incremented, bumped.
  destruct (String.eqb key other) eqn:E.
  - apply String.eqb_eq in E as ->.
    destruct (acc !! other) as [[n|s]|] eqn:Ha.
    + apply lookup_insert_eq.
    + rewrite lookup_insert_eq. destruct (JS.truthy s); reflexivity.
    + destruct (MockAI.Object_prototype other) as [[name|]|];
        [apply lookup_insert_eq|exact Ha|apply lookup_insert_eq].
  - apply String.eqb_neq in E.
    destruct (acc !! key) as [v|]; [now apply lookup_insert_ne|].
    destruct (MockAI.Object_prototype key) as [[name|]|];
      [now apply lookup_insert_ne|reflexivity|now apply lookup_insert_ne].
Qed.

Lemma tally_fold (key_of : MockAI.TestCase -> string) (key : string)
    (testCases : list MockAI.TestCase) (acc : gmap string MockAI.Tally) :
  fold_left (fun acc test => MockAI.bump (key_of test) acc) testCases acc !! key =
    Nat.iter (occurrences key_of key testCases) (bumped key) (acc !! key).
Proof.
  unfold occurrences. revert acc.
  induction testCases as [|test rest IH]; intros acc; [reflexivity|].
  cbn [fold_left List.filter]. rewrite IH, bump_lookup.
  destruct (String.eqb (key_of test) key) eqn:E; [|reflexivity].
  apply String.eqb_eq in E. rewrite E.
  cbn [length]. now rewrite Nat.iter_succ_r.
Qed.

Lemma ones_snoc (n : nat) : ones n +:+ "1" = "1" +:+ ones n.
Proof.
  induction n as [|n IH]; [reflexivity|].
  change (String "1" (ones n +:+ "1") = String "1" (String "1" (ones n))).
  f_equal. exact IH.
Qed.

Lemma append_ones (s : string) (n : nat) :
  (s +:+ ones (S n)) +:+ "1" = s +:+ ones (S (S n)).
Proof.
  induction s as [|c s IH].
  - exact (ones_snoc (S n)).
  - change (String c ((s +:+ ones (S n)) +:+ "1") = String c (s +:+ ones (S (S n)))).
    f_equal. exact IH.
Qed.

(** Starting from an empty object, [n] occurrences of a key leave what
    [expected_tally] says. *)
Lemma bumped_iter (key : string) (n : nat) :
  Nat.iter n (bumped key) None = expected_tally key n.
Proof.
  destruct n as [|n]; [reflexivity|].
  unfold expected_tally.
  destruct (MockAI.Object_prototype key) as [[name|]|] eqn:Hp.
  - induction n as [|n IH].
    + cbn. rewrite Hp. reflexivity.
    + rewrite Nat.iter_succ, IH. cbn [bumped].
      assert (JS.truthy (MockAI.native_source name +:+ ones (S n)) = true) as ->
        by reflexivity.
      now rewrite append_ones.
  - induction n as [|n IH].
    + cbn. rewrite Hp. reflexivity.
    + rewrite Nat.iter_succ, IH. cbn. rewrite Hp. reflexivity.
  - induction n as [|n IH].
    + cbn. rewrite Hp. reflexivity.
    + rewrite Nat.iter_succ, IH. cbn [bumped]. do 2 f_equal. lia.
Qed.

Lemma occurrences_pos (key_of : MockAI.TestCase -> string) (key : string)
    (testCases : list MockAI.TestCase) :
  occurrences key_of key testCases <> 0 ->
  exists test, In test testCases /\ key_of test = key.
Proof.
  unfold occurrences. intros Hn.
  destruct (List.filter (fun test => String.eqb (key_of test) key) testCases)
    as [|test rest] eqn:E; [contradiction|].
  assert (In test (List.filter (fun test => String.eqb (key_of test) key) testCases))
    as Hin by (rewrite E; now left).
  apply filter_In in Hin as [Hin Heq]. apply String.eqb_eq in Heq. eauto.
Qed.

Lemma tallies_lookup (testCases : list MockAI.TestCase) (key : string) :
  MockAI.countByModule testCases !! key
    = expected_tally key (occurrences MockAI.module key testCases)
  /\ MockAI.countByPriority testCases !! key
    = counted (occurrences (fun test => MockAI.priority_name (MockAI.priority test))
                 key testCases).
Proof.
  unfold MockAI.countByModule, MockAI.countByPriority.
  rewrite !tally_fold, !lookup_empty, !bumped_iter. split; [reflexivity|].
  destruct (occurrences _ key testCases) as [|n] eqn:E; [reflexivity|].
  destruct (occurrences_pos (fun test => MockAI.priority_name (MockAI.priority test))
              key testCases) as [test [_ <-]]; [rewrite E; discriminate|].
  unfold expected_tally, counted. destruct (MockAI.priority test); reflexivity.
Qed.

(** X11. The tallies are built in a plain object.  For a key that is no
    property of [Object.prototype], [countByModule] holds the number of
    test cases of that module, and nothing when there is none.  Under
    the name of a method of [Object.prototype] it holds a string, the
    rendering of the method followed by one digit 1 for each test case,
    and under [__proto__] it holds nothing.  [countByPriority] holds
    the number of test cases of each priority, whose four names are no
    such properties. *)
Theorem tallies_count (testCases : list MockAI.TestCase) (key : string) :
  MockAI.countByModule testCases !! key
    = expected_tally key (occurrences MockAI.module key testCases)
  /\ (MockAI.Object_prototype key = None ->
      MockAI.countByModule testCases !! key
        = counted (occurrences MockAI.module key testCases))
  /\ MockAI.countByModule testCases !! "__proto__" = None
  /\ MockAI.countByPriority testCases !! key
    = counted (occurrences (fun test => MockAI.priority_name (MockAI.priority test))
                 key testCases).
Proof.
  destruct (tallies_lookup testCases key) as [Hm Hp].
  split; [exact Hm|]. split; [|split; [|exact Hp]].
  - intros Hkey. rewrite Hm. unfold expected_tally, counted. now rewrite Hkey.
  - rewrite (proj1 (tallies_lookup testCases "__proto__")).
    unfold expected_tally.
    destruct (occurrences MockAI.module "__proto__" testCases); reflexivity.
Qed.

(** X12. In the summary of the mock provider [totalGenerated] is the number
    of artifacts, the tally by priority holds the number of artifacts
    of each priority, and the tally by module holds, for every module
    name that is no property of [Object.prototype], the number of
    artifacts of that module; [errors] is empty. *)
Theorem mock_summary_matches_artifacts (n : nat) (key : string) :
  let result := fst (MockAI.generateTestCases clock toISOString context n) in
  MockAI.totalGenerated (MockAI.summary result) = length (MockAI.testCases result)
  /\ MockAI.byModule (MockAI.summary result) !! key
     = expected_tally key (occurrences MockAI.module key (MockAI.testCases result))
  /\ (MockAI.Object_prototype key = None ->
      MockAI.byModule (MockAI.summary result) !! key
      = counted (occurrences MockAI.module key (MockAI.testCases result)))
  /\ MockAI.byPriority (MockAI.summary result) !! key
     = counted (occurrences (fun test => MockAI.priority_name (MockAI.priority test))
                  key (MockAI.testCases result))
  /\ MockAI.errors result = [].
Proof.
  cbv zeta. unfold MockAI.generateTestCases, Clock.bind, Clock.now, Clock.ret.
  destruct (MockAI.for_stories clock context (MockAI.userStories context) [] (S n))
    as [cases n'].
  cbn [fst MockAI.summary MockAI.testCases MockAI.totalGenerated MockAI.byModule
       MockAI.byPriority MockAI.errors].
  destruct (tallies_lookup cases key) as [Hm Hp].
  split; [reflexivity|]. split; [exact Hm|]. split; [|split; [exact Hp|reflexivity]].
  intros Hkey. rewrite Hm. unfold expected_tally, counted. now rewrite Hkey.
Qed.

End MockMore.

(** ** The registries: registration, start-up and the default provider *)

Section RegistryMore.

Import Registry RegistryInit StartupSpec.

Lemma append_cancel (s a b : string) : s +:+ a = s +:+ b -> a = b.
Proof. induction s as [|c s IH]; cbn; [auto|]. intros [= H]. auto. Qed.

Context {World Context_ Result : Type}.

(** X13. Registering a provider under a name changes what that name selects
    and nothing else: a request whose selected name is another one runs
    as before, and a request for the new name reaches the new provider;
    likewise [validateProvider] answers for the other names as before,
    and for the new name as the new provider does. *)
Theorem register_then_request
    (service : AIServiceCopy World Context_ Result)
    (name : string) (provider : BaseAIProvider World Context_ Result)
    (context : Context_) (providerName : option string) (w : World) :
  let registered := registerProvider name provider service in
  (selectedProvider service providerName <> name ->
   generateTestCases_copy registered context providerName w
   = generateTestCases_copy service context providerName w)
  /\ (selectedProvider service providerName = name ->
      generateTestCases_copy registered context providerName w
      = (let '(isValid, w1) := validateConfiguration provider w in
         if isValid
         then let '(result, w2) := generateTestCases provider context w1 in
              (inr result, w2)
         else (inl ("AI provider '" +:+ name +:+ "' is not properly configured"), w1)))
  /\ (forall other, other <> name ->
        validateProvider registered other w = validateProvider service other w)
  /\ validateProvider registered name w = validateConfiguration provider w.
Proof.
  cbv zeta.
  unfold generateTestCases_copy, validateProvider, registerProvider, selectedProvider.
  cbn [copy_providers copy_defaultProvider].
  split; [|split; [|split]].
  - intros Hsel. now rewrite lookup_insert_ne by congruence.
  - intros Hsel. rewrite Hsel, lookup_insert_eq. reflexivity.
  - intros other Hne. now rewrite lookup_insert_ne by congruence.
  - rewrite lookup_insert_eq. reflexivity.
Qed.

Variable new_OpenAIProvider : string -> string -> BaseAIProvider World Context_ Result.
Variable new_GeminiProvider : string -> string -> BaseAIProvider World Context_ Result.
Variable new_MockAIProvider : BaseAIProvider World Context_ Result.

(** X14. After start-up the mock provider is registered, [openai] and
    [gemini] are registered exactly when their key is set to a non-empty
    value, and no other name is.  The default name is [openai] when its
    key is set, else [gemini] when its key is set, else [mock]; it is
    always registered, so a request under the default name never fails
    with the not-found error. *)
Theorem startup_registry (env : Env) (context : Context_) (w : World) :
  let service :=
    initializeProviders new_OpenAIProvider new_GeminiProvider new_MockAIProvider env in
  providers service !! "mock" = Some new_MockAIProvider
  /\ (is_Some (providers service !! "openai") <-> is_set (OPENAI_API_KEY env) = true)
  /\ (is_Some (providers service !! "gemini") <-> is_set (GEMINI_API_KEY env) = true)
  /\ (forall name, is_Some (providers service !! name) ->
        name = "openai" \/ name = "gemini" \/ name = "mock")
  /\ getDefaultProvider service
     = (if is_set (OPENAI_API_KEY env) then "openai"
        else if is_set (GEMINI_API_KEY env) then "gemini" else "mock")
  /\ is_Some (providers service !! getDefaultProvider service)
  /\ fst (generateTestCases_env service (getDefaultProvider service) context w)
     <> inl ("Provider " +:+ getDefaultProvider service +:+ " not found").
Proof.
  cbv zeta. unfold initializeProviders, getDefaultProvider, is_set.
  assert (forall (m : gmap string (BaseAIProvider World Context_ Result)) name,
            is_Some (m !! name) -> forall k v, is_Some (<[k := v]> m !! name)) as Hmono.
  { intros m name Hs k v. destruct (decide (k = name)) as [->|Hne].
    - rewrite lookup_insert_eq. eauto.
    - now rewrite lookup_insert_ne. }
  destruct (OPENAI_API_KEY env) as [openaiKey|];
  try destruct (JS.truthy openaiKey) eqn:Eo;
  destruct (GEMINI_API_KEY env) as [geminiKey|];
  try destruct (JS.truthy geminiKey) eqn:Eg;
  cbn [providers defaultProvider String.eqb Ascii.eqb Bool.eqb];
  (split; [apply lookup_insert_eq|]);
  (split; [rewrite !lookup_insert_ne by discriminate;
           rewrite ?lookup_insert_eq, ?lookup_empty;
           split; [intros [x Hx]; congruence || reflexivity
                  |intros Hx; try discriminate; eauto]|]);
  (split; [rewrite !lookup_insert_ne by discriminate;
           rewrite ?lookup_insert_eq, ?lookup_empty;
           split; [intros [x Hx]; congruence || reflexivity
                  |intros Hx; try discriminate; eauto]|]);
  (split; [intros name [x Hx];
           repeat (apply lookup_insert_Some in Hx as [[<- _]|[_ Hx]]; [tauto|]);
           rewrite lookup_empty in Hx; discriminate|]);
  (split; [reflexivity|]);
  match goal with
  | |- is_Some (?m !! ?d) /\ _ =>
      assert (is_Some (m !! d)) as Hd
        by (rewrite ?lookup_insert_eq; eauto;
            rewrite lookup_insert_ne by discriminate;
            rewrite ?lookup_insert_eq; eauto;
            rewrite lookup_insert_ne by discriminate;
            rewrite ?lookup_insert_eq; eauto)
  end;
  (split; [exact Hd|]);
  unfold generateTestCases_env; cbn [providers];
  destruct Hd as [p Hp]; rewrite Hp;
  destruct (validateConfiguration p w) as [[] w'];
  try destruct (generateTestCases p context w') as [r w'']; cbn [fst];
  try discriminate; intros [= H]; do 2 apply append_cancel in H; discriminate H.
Qed.

End RegistryMore.

Section RegistryMoreWitness.

Import Registry RegistrySpec StartupSpec.

Lemma register_then_request_witness :
  generateTestCases_copy
    (registerProvider "openai" (recording "openai" false 1) one_recorder)
    tt (Some "mock") []
  = generateTestCases_copy one_recorder tt (Some "mock") []
  /\ generateTestCases_copy
       (registerProvider "openai" (recording "openai" false 1) one_recorder)
       tt (Some "openai") []
     = (inl "AI provider 'openai' is not properly configured", [Validated "openai"]).
Proof.
  split.
  - apply (register_then_request one_recorder "openai"
             (recording "openai" false 1) tt (Some "mock") []).
    vm_compute. discriminate.
  - apply (register_then_request one_recorder "openai"
             (recording "openai" false 1) tt (Some "openai") []).
    vm_compute. reflexivity.
Defined.

End RegistryMoreWitness.

(** ** The mock provider behind the first registry *)

Section MockBehindRegistry.

Import Registry.

(** X15. The registry that the constructor builds sends a request without a
    name, with the empty name or with the name [mock] to the mock
    provider, and returns its result: such a request never fails. *)
Theorem default_registry_runs_mock (clock : nat -> Z) (toISOString : Z -> string)
    (context : MockAI.TestGenerationContext) (providerName : option string) (w : nat) :
  providerName = None \/ providerName = Some "" \/ providerName = Some "mock" ->
  generateTestCases_copy (new_AIServiceCopy clock toISOString) context providerName w
  = (inr (fst (MockAI.generateTestCases clock toISOString context w)),
     snd (MockAI.generateTestCases clock toISOString context w)).
Proof.
  intros Hname.
  assert (selectedProvider (new_AIServiceCopy clock toISOString) providerName = "mock")
    as Hsel by (destruct Hname as [->|[->| ->]]; reflexivity).
  unfold generateTestCases_copy. rewrite Hsel.
  unfold new_AIServiceCopy, registerProvider. cbn [copy_providers].
  rewrite lookup_insert_eq.
  cbn [validateConfiguration generateTestCases MockAIProvider
       MockAI.validateConfiguration Clock.ret].
  destruct (MockAI.generateTestCases clock toISOString context w). reflexivity.
Qed.

Lemma default_registry_runs_mock_witness :
  exists result,
    fst (generateTestCases_copy (new_AIServiceCopy (fun n => Z.of_nat n) (fun _ => ""))
           RegistrySpec.empty_context (Some "") 0) = inr result
    /\ MockAI.success result = true.
Proof.
  rewrite (default_registry_runs_mock (fun n => Z.of_nat n) (fun _ => "")
             RegistrySpec.empty_context (Some "") 0) by (right; left; reflexivity).
  eexists. split; reflexivity.
Defined.

End MockBehindRegistry.

(** ** The adapters: every result, and the answers that parse *)

Section AdaptersMore.

Import Remote AnswerSpec.

Lemma fence_length_plain (c : ascii) (rest : string) :
  c <> backquote ->
  match rest with String d _ => d <> backquote | EmptyString => True end ->
  fence_length (String c rest) = None.
Proof.
  intros Hc Hd. unfold fence_length.
  assert (Ascii.eqb "`"%char c = false) as Ec
    by (apply Ascii.eqb_neq; intros <-; apply Hc; reflexivity).
  cbn [JS.startsWith]. rewrite Ec.
  destruct (Ascii.eqb (ascii_of_nat 10) c); [|reflexivity].
  destruct rest as [|d rest]; [reflexivity|].
  assert (Ascii.eqb "`"%char d = false) as Ed
    by (apply Ascii.eqb_neq; intros <-; apply Hd; reflexivity).
  now rewrite Ed.
Qed.

Lemma strip_fences_plain (s suffix : string) :
  ArtifactSpec.contains backquote s = false ->
  match suffix with String d _ => d <> backquote | EmptyString => True end ->
  strip_fences 0 (s +:+ suffix) = s +:+ strip_fences 0 suffix.
Proof.
  intros Hs Hsuf. induction s as [|c s IH]; [reflexivity|].
  cbn [ArtifactSpec.contains] in Hs. apply orb_false_iff in Hs as [Hc Hs].
  apply Ascii.eqb_neq in Hc.
  change (String c s +:+ suffix) with (String c (s +:+ suffix)).
  cbn [strip_fences]. rewrite fence_length_plain.
  - now rewrite IH.
  - congruence.
  - destruct s as [|d s]; [exact Hsuf|].
    cbn [ArtifactSpec.contains] in Hs. apply orb_false_iff in Hs as [Hd _].
    apply Ascii.eqb_neq in Hd. cbn. congruence.
Qed.

(** X16. The cleaning of an answer of Gemini leaves a text without backquotes
    as it is, and unwraps a body without backquotes from its [json]
    fence. *)
Theorem fences_are_unwrapped (body : string) :
  ArtifactSpec.contains backquote body = false ->
  strip_fences 0 body = body
  /\ strip_fences 0 (fenced body) = body.
Proof.
  intros Hb.
  assert (forall s, s +:+ "" = s) as Hnil
    by (induction s as [|c s IH]; [reflexivity|];
        change (String c (s +:+ "") = String c s); f_equal; exact IH).
  split.
  - pose proof (strip_fences_plain body "" Hb I) as H.
    cbn [strip_fences] in H. now rewrite !Hnil in H.
  - unfold fenced.
    change (strip_fences 0 ("```json" +:+ LF +:+ body +:+ LF +:+ "```"))
      with (strip_fences 0 (body +:+ LF +:+ "```")).
    rewrite strip_fences_plain; [|assumption|cbn; discriminate].
    change (strip_fences 0 (LF +:+ "```")) with "".
    apply Hnil.
Qed.

Lemma fences_are_unwrapped_witness :
  strip_fences 0 (fenced "{ }") = "{ }".
Proof.
  apply (fences_are_unwrapped "{ }"). vm_compute. reflexivity.
Defined.

Variables TestCase TestGenerationContext Json : Type.
Variable buildAirlinePrompt : TestGenerationContext -> string.
Variable openai_create : string -> string -> string + ChatCompletion.
Variable gemini_generateContent : string -> string -> string + string.
Variable JSON_parse : string -> string + Json.
Variable testCases_of : Json -> string + list TestCase.
Variable clock : nat -> Z.

(** X18. When the external call answers and the answer parses, the adapter
    returns the parsed test cases as they are, under its model name,
    with the token count of the answer; the time it reports is the time
    between its first two readings of the clock, taken before the call
    and after the answer, and it reads the clock no more. *)
Theorem adapter_success_result (a : Adapter) (model_name : string)
    (context : TestGenerationContext) (cases : list TestCase)
    (tokens : option nat) (n : nat) :
  Answers buildAirlinePrompt openai_create gemini_generateContent JSON_parse
    testCases_of model_name context a cases tokens ->
  generateTestCases TestCase TestGenerationContext Json buildAirlinePrompt
    openai_create gemini_generateContent JSON_parse testCases_of clock
    a model_name context n
  = (inr {| testCases := cases;
            generationTime := (clock (S n) - clock n)%Z;
            tokensUsed := tokens;
            model := Some model_name;
            provider := adapter_name a;
            metadata := {| totalGenerated := length cases;
                           successful := length cases;
                           failed := 0;
                           warnings := [] |} |},
     S (S n)).
Proof.
  intros Ha.
  unfold generateTestCases, try_catch, attempt, openai_try, gemini_try,
    parse_response, Clock.bind, Clock.ret, Clock.now.
  destruct Ha as [response text parsed cases Hc Ht Hne Hp Hs
                 |text parsed cases Hc Hp Hs].
  - rewrite Hc, Ht. apply truthy_true in Hne. rewrite Hne, Hp, Hs. reflexivity.
  - rewrite Hc, Hp, Hs. reflexivity.
Qed.

End AdaptersMore.

Section AdaptersMoreWitness.

Import Remote AnswerSpec.

Lemma adapter_success_result_witness :
  fst (generateTestCases nat unit (list nat) (fun _ => "prompt")
         (fun _ _ => inl "unused") (fun _ _ => inr (fenced "[7]"))
         (fun text => if String.eqb text "[7]" then inr [7] else inl "bad")
         (fun parsed => inr parsed) (fun n => Z.of_nat (10 * n))
         Gemini "gemini-pro" tt 0)
  = inr {| testCases := [7]; generationTime := 10%Z; tokensUsed := None;
           model := Some "gemini-pro"; provider := "Google Gemini";
           metadata := {| totalGenerated := 1; successful := 1; failed := 0;
                          warnings := [] |} |}.
Proof.
  rewrite (adapter_success_result nat unit (list nat) (fun _ => "prompt")
             (fun _ _ => inl "unused") (fun _ _ => inr (fenced "[7]"))
             (fun text => if String.eqb text "[7]" then inr [7] else inl "bad")
             (fun parsed => inr parsed) (fun n => Z.of_nat (10 * n))
             Gemini "gemini-pro" tt [7] None 0).
  - reflexivity.
  - eapply gemini_answers; reflexivity.
Defined.

End AdaptersMoreWitness.

(** ** The adapters on answers of any shape *)

Section AdaptersOnJson.

Import RemoteJson JsonAnswerSpec.

Variable TestGenerationContext : Type.
Variable buildAirlinePrompt : TestGenerationContext -> string.
Variable openai_create : string -> string -> string + Remote.ChatCompletion.
Variable gemini_generateContent : string -> string -> string + string.
Variable JSON_parse : string -> string + Json.
Variable null_read : string -> string.
Variable clock : nat -> Z.

Lemma json_parse_response_consistent (a : Remote.Adapter) (model_name text : string)
    (generationTime : Z) (tokens : option nat) (r : TestGenerationResult) :
  parse_response JSON_parse null_read a model_name text generationTime tokens = inr r ->
  consistent null_read a model_name r.
Proof.
  unfold parse_response.
  destruct (JSON_parse text) as [e|parsed]; [discriminate|].
  destruct (get_testCases null_read parsed) as [e|field]; [discriminate|].
  destruct (get_length null_read (or_empty field)) as [e|count] eqn:Hlen;
    [discriminate|].
  intros [= <-]. unfold consistent.
  cbn [provider testCases metadata totalGenerated successful failed warnings model].
  split; [reflexivity|]. split; [exact Hlen|]. split; [reflexivity|].
  split; [|left; auto].
  intros items Hitems. rewrite Hitems in Hlen. now injection Hlen as <-.
Qed.

Lemma json_attempt_consistent (a : Remote.Adapter) (model_name : string)
    (context : TestGenerationContext) (startTime : Z) (n : nat)
    (r : TestGenerationResult) :
  fst (attempt TestGenerationContext buildAirlinePrompt openai_create
         gemini_generateContent JSON_parse null_read clock
         a model_name context startTime n) = inr r ->
  consistent null_read a model_name r.
Proof.
  unfold attempt, openai_try, gemini_try, Clock.bind, Clock.ret, Clock.now.
  destruct a.
  - destruct (openai_create model_name (buildAirlinePrompt context)) as [e|response];
      [discriminate|].
    destruct (Remote.content response) as [text|]; [|discriminate].
    destruct (JS.truthy text); [|discriminate].
    cbn [fst]. apply json_parse_response_consistent.
  - destruct (gemini_generateContent model_name (buildAirlinePrompt context))
      as [e|text]; [discriminate|].
    cbn [fst]. apply json_parse_response_consistent.
Qed.

(** X17. Whatever the external service answers and whatever JSON value the
    answer parses into, an adapter returns a result and throws nothing.
    The result is either a success without warnings under the model
    name, or a failure with exactly one warning, no model and the empty
    array of test cases.  Its two counts are equal and are the
    [length] of its [testCases]: the number of test cases when that is
    an array, which nothing in the adapter ensures. *)
Theorem adapter_results_are_consistent (a : Remote.Adapter) (model_name : string)
    (context : TestGenerationContext) (n : nat) :
  exists result,
    fst (generateTestCases TestGenerationContext buildAirlinePrompt
           openai_create gemini_generateContent JSON_parse null_read clock
           a model_name context n) = inr result
    /\ consistent null_read a model_name result.
Proof.
  unfold generateTestCases, Remote.try_catch, Clock.bind. cbn [Clock.now].
  pose proof (json_attempt_consistent a model_name context (clock n) (S n)) as Hr.
  destruct (attempt TestGenerationContext buildAirlinePrompt
              openai_create gemini_generateContent JSON_parse null_read clock
              a model_name context (clock n) (S n)) as [[message|result] n'].
  - unfold on_failure, Clock.bind, Clock.ret, Clock.now. cbn [fst].
    eexists. split; [reflexivity|]. unfold consistent.
    cbn [provider testCases metadata totalGenerated successful failed warnings model
         get_length length].
    split; [reflexivity|]. split; [reflexivity|]. split; [reflexivity|].
    split; [intros items [= <-]; reflexivity|].
    right. repeat split. exists message. reflexivity.
  - exists result. split; [reflexivity|]. now apply Hr.
Qed.

(** X25. When every answer that parses has the declared type, that is,
    what the adapter keeps of it is an array, the adapters on arbitrary
    JSON values return exactly the results of the adapters of [Remote],
    whose test cases are the items of that array, and read the clock as
    often. *)
Theorem typed_results_at_run_time (a : Remote.Adapter) (model_name : string)
    (context : TestGenerationContext) (n : nat) :
  (forall text parsed, JSON_parse text = inr parsed -> well_typed null_read parsed) ->
  generateTestCases TestGenerationContext buildAirlinePrompt
    openai_create gemini_generateContent JSON_parse null_read clock
    a model_name context n
  = (sum_map id at_run_time
       (fst (Remote.generateTestCases Json TestGenerationContext Json
               buildAirlinePrompt openai_create gemini_generateContent JSON_parse
               (typed_cases null_read) clock a model_name context n)),
     snd (Remote.generateTestCases Json TestGenerationContext Json
            buildAirlinePrompt openai_create gemini_generateContent JSON_parse
            (typed_cases null_read) clock a model_name context n)).
Proof.
  intros Htyped.
  assert (forall b text t tokens,
            match parse_response JSON_parse null_read b model_name text t tokens with
            | inl e => Remote.parse_response Json Json JSON_parse
                         (typed_cases null_read) b model_name text t tokens = inl e
            | inr r => exists r0,
                Remote.parse_response Json Json JSON_parse
                  (typed_cases null_read) b model_name text t tokens = inr r0
                /\ r = at_run_time r0
            end) as Hparse.
  { intros b text t tokens. unfold parse_response, Remote.parse_response, typed_cases.
    destruct (JSON_parse text) as [e|parsed] eqn:Hp; [reflexivity|].
    specialize (Htyped text parsed Hp). unfold well_typed in Htyped.
    destruct (get_testCases null_read parsed) as [e|field]; [reflexivity|].
    destruct Htyped as [items ->]. cbn [get_length].
    eexists. split; reflexivity. }
  unfold generateTestCases, Remote.generateTestCases, Remote.try_catch, attempt,
    Remote.attempt, openai_try, Remote.openai_try, gemini_try, Remote.gemini_try,
    on_failure, Remote.on_failure, Clock.bind, Clock.ret, Clock.now.
  destruct a.
  - destruct (openai_create model_name (buildAirlinePrompt context)) as [e|response];
      [reflexivity|].
    destruct (Remote.content response) as [text|]; [|reflexivity].
    destruct (JS.truthy text); [|reflexivity].
    specialize (Hparse Remote.OpenAI text (clock (S n) - clock n)%Z
                  (Remote.total_tokens response)).
    destruct (parse_response JSON_parse null_read Remote.OpenAI model_name text
                (clock (S n) - clock n) (Remote.total_tokens response)) as [e|r].
    + rewrite Hparse. reflexivity.
    + destruct Hparse as [r0 [-> ->]]. reflexivity.
  - destruct (gemini_generateContent model_name (buildAirlinePrompt context))
      as [e|text]; [reflexivity|].
    specialize (Hparse Remote.Gemini (JS.trim (Remote.strip_fences 0 text))
                  (clock (S n) - clock n)%Z None).
    destruct (parse_response JSON_parse null_read Remote.Gemini model_name
                (JS.trim (Remote.strip_fences 0 text)) (clock (S n) - clock n) None)
      as [e|r].
    + rewrite Hparse. reflexivity.
    + destruct Hparse as [r0 [-> ->]]. reflexivity.
Qed.

End AdaptersOnJson.

Lemma typed_results_at_run_time_witness :
  RemoteJson.generateTestCases unit (fun _ => "prompt")
    (fun _ _ => inl "unused") (fun _ _ => inr "{...}")
    (fun _ => inr JsonAnswerSpec.array_answer)
    (fun property => "Cannot read properties of null")
    (fun n => Z.of_nat n) Remote.Gemini "gemini-pro" tt 0
  = (sum_map id JsonAnswerSpec.at_run_time
       (fst (Remote.generateTestCases RemoteJson.Json unit RemoteJson.Json
               (fun _ => "prompt") (fun _ _ => inl "unused") (fun _ _ => inr "{...}")
               (fun _ => inr JsonAnswerSpec.array_answer)
               (JsonAnswerSpec.typed_cases (fun property => "Cannot read properties of null"))
               (fun n => Z.of_nat n) Remote.Gemini "gemini-pro" tt 0)),
     snd (Remote.generateTestCases RemoteJson.Json unit RemoteJson.Json
            (fun _ => "prompt") (fun _ _ => inl "unused") (fun _ _ => inr "{...}")
            (fun _ => inr JsonAnswerSpec.array_answer)
            (JsonAnswerSpec.typed_cases (fun property => "Cannot read properties of null"))
            (fun n => Z.of_nat n) Remote.Gemini "gemini-pro" tt 0)).
Proof.
  apply typed_results_at_run_time.
  intros text parsed [= <-]. cbn. eexists. reflexivity.
Defined.

(** An answer whose [testCases] is an object gives a success whose
    counts are [undefined]. *)
Lemma object_answer_counts_are_undefined :
  fst (RemoteJson.generateTestCases unit (fun _ => "prompt")
         (fun _ _ => inl "unused") (fun _ _ => inr "{...}")
         (fun _ => inr JsonAnswerSpec.object_answer)
         (fun property => "Cannot read properties of null")
         (fun n => Z.of_nat n) Remote.Gemini "gemini-pro" tt 0)
  = inr {| RemoteJson.testCases :=
             RemoteJson.JObject [("id", RemoteJson.JString "TC_001")];
           RemoteJson.generationTime := 1;
           RemoteJson.tokensUsed := None;
           RemoteJson.model := Some "gemini-pro";
           RemoteJson.provider := "Google Gemini";
           RemoteJson.metadata :=
             {| RemoteJson.totalGenerated := RemoteJson.Undefined;
                RemoteJson.successful := RemoteJson.Undefined;
                RemoteJson.failed := 0;
                RemoteJson.warnings := [] |} |}.
Proof. reflexivity. Qed.

(** ** Authentication *)

Section Guards.

Import Auth AuthSpec.

Lemma split_space_not_nil (s : string) : split_space s <> [].
Proof.
  induction s as [|c s IH]; cbn; [discriminate|].
  destruct (Ascii.eqb c " "); [discriminate|].
  destruct (split_space s); discriminate.
Qed.

Lemma split_space_word (s rest : string) :
  word s -> split_space (s +:+ " " +:+ rest) = s :: split_space rest.
Proof.
  change (" " +:+ rest) with (String " " rest).
  induction s as [|c s IH]; intros Hs.
  - reflexivity.
  - destruct Hs as [Hc Hs].
    change (split_space (String c (s +:+ String " " rest)) =
            String c s :: split_space rest).
    cbn [split_space].
    destruct (Ascii.eqb c " ") eqn:E; [apply Ascii.eqb_eq in E; contradiction|].
    rewrite (IH Hs). reflexivity.
Qed.

Lemma split_space_last_word (s : string) : word s -> split_space s = [s].
Proof.
  induction s as [|c s IH]; intros Hs; [reflexivity|].
  destruct Hs as [Hc Hs]. cbn [split_space].
  destruct (Ascii.eqb c " ") eqn:E; [apply Ascii.eqb_eq in E; contradiction|].
  rewrite (IH Hs). reflexivity.
Qed.

Variable jwt_verify : string -> VerifyError + JwtPayload.

(** X19. The guard takes the second word of the header for the token,
    whatever the first word is (it need not be [Bearer]) and whatever
    follows the second: the request passes with the payload when the
    token verifies, and is answered with 401 when it does not. *)
Theorem second_word_is_the_token (scheme tok rest : string) :
  word scheme -> word tok -> tok <> "" ->
  let header := Some (scheme +:+ " " +:+ tok +:+ rest) in
  (rest = "" \/ exists more, rest = " " +:+ more) ->
  (forall decoded, jwt_verify tok = inr decoded ->
     authMiddleware jwt_verify header = Next (Some decoded)) /\
  (forall e, jwt_verify tok = inl e ->
     exists message, authMiddleware jwt_verify header = Answer 401 message).
Proof.
  intros Hscheme Htok Hne header Hrest.
  assert (Hsplit : split_space (scheme +:+ " " +:+ tok +:+ rest) !! 1%nat = Some tok).
  { rewrite (split_space_word scheme _ Hscheme).
    destruct Hrest as [->|[more ->]].
    - replace (tok +:+ "") with tok.
      + rewrite (split_space_last_word tok Htok). reflexivity.
      + clear. induction tok as [|c s IH]; [reflexivity|].
        change (String c s = String c (s +:+ "")). f_equal. exact IH.
    - rewrite (split_space_word tok _ Htok). reflexivity. }
  assert (Hheader : JS.truthy (scheme +:+ " " +:+ tok +:+ rest) = true).
  { destruct scheme; reflexivity. }
  assert (Htruthy : JS.truthy tok = true).
  { destruct tok; [contradiction|reflexivity]. }
  subst header. unfold authMiddleware.
  rewrite Hheader, Hsplit, Htruthy. cbn [negb].
  split.
  - intros decoded ->. reflexivity.
  - intros e ->. destruct e; eexists; reflexivity.
Qed.

(** X20. The guard lets a request pass only with the payload of a token that
    is the second piece of the header, is not empty and verifies; every
    answer it gives itself has status 401. *)
Theorem only_verified_tokens_pass (authorization : option string) :
  match authMiddleware jwt_verify authorization with
  | Next passed =>
      exists header tok decoded,
        authorization = Some header /\
        split_space header !! 1%nat = Some tok /\
        tok <> "" /\
        jwt_verify tok = inr decoded /\
        passed = Some decoded
  | Answer status _ => status = 401%nat
  end.
Proof.
  unfold authMiddleware.
  destruct authorization as [header|]; [|reflexivity].
  destruct (JS.truthy header); cbn [negb]; [|reflexivity].
  destruct (split_space header !! 1%nat) as [tok|] eqn:Htok; [|reflexivity].
  destruct (JS.truthy tok) eqn:Htruthy; cbn [negb]; [|reflexivity].
  destruct (jwt_verify tok) as [[| |]|decoded] eqn:Hverify; try reflexivity.
  exists header, tok, decoded. repeat split; try assumption.
  intros ->. discriminate Htruthy.
Qed.



End Guards.

Lemma second_word_is_the_token_witness :
  (forall decoded, AuthSpec.toy_verify "good" = inr decoded ->
     Auth.authMiddleware AuthSpec.toy_verify (Some ("Token good and more")) =
     Auth.Next (Some decoded)) /\
  (forall e, AuthSpec.toy_verify "good" = inl e ->
     exists message,
       Auth.authMiddleware AuthSpec.toy_verify (Some ("Token good and more")) =
       Auth.Answer 401 message).
Proof.
  apply (second_word_is_the_token AuthSpec.toy_verify "Token" "good" " and more").
  - cbn. repeat split; discriminate.
  - cbn. repeat split; discriminate.
  - discriminate.
  - right. exists "and more". reflexivity.
Defined.

Section AuthService.

Import Auth AuthSpec.

Variable DB : Type.
Variable findUnique : string -> DB -> option User.
Variable create : UserData -> DB -> (string + User) * DB.
Variable update_lastLogin : string -> Z -> DB -> (string + unit) * DB.
Variable bcrypt_compare : string -> string -> bool.
Variable bcrypt_hash : string -> nat -> nat -> string.
Variable jwt_sign : JwtPayload -> Z -> string + string.
Variable clock : nat -> Z.

(** X22. A login with an unknown email and a login with a wrong password
    fail with the same message, and neither writes to the database nor
    reads the clock: the last login is not touched and no token is
    signed. *)
Theorem login_refusal_changes_nothing (email password : string) (db : DB) (n : nat) :
  (findUnique email db = None \/
   exists u, findUnique email db = Some u /\
             bcrypt_compare password (user_password u) = false) ->
  login findUnique update_lastLogin bcrypt_compare jwt_sign clock
    email password (db, n) = (inl "Invalid email or password", (db, n)).
Proof.
  intros [H|[u [H Hcmp]]]; unfold login; rewrite H; [reflexivity|].
  rewrite Hcmp. reflexivity.
Qed.

(** X23. A registration with an email that is taken, or with a password of
    fewer than six characters, fails before anything is hashed, stored
    or signed; when both hold, the message is the one of the taken
    email. *)
Theorem register_refusal_changes_nothing (userData : Registration) (db : DB) (n : nat) :
  (findUnique (reg_email userData) db <> None \/
   String.length (reg_password userData) < 6) ->
  exists message,
    register findUnique create bcrypt_hash jwt_sign clock userData (db, n) =
      (inl message, (db, n)) /\
    (findUnique (reg_email userData) db <> None ->
       message = "User with this email already exists") /\
    (findUnique (reg_email userData) db = None ->
       message = "Password must be at least 6 characters long").
Proof.
  intros H. unfold register.
  destruct (findUnique (reg_email userData) db) as [u|] eqn:Hfind.
  - eexists. split; [reflexivity|]. split; [reflexivity|discriminate].
  - destruct H as [H|H]; [contradiction|].
    apply Nat.ltb_lt in H. rewrite H.
    eexists. split; [reflexivity|]. split; [contradiction|reflexivity].
Qed.

(** X24. After a registration that succeeded, a login with the same email
    and password gets past the two checks: when the update of the last
    login and the signing succeed, it returns the same user as the
    registration did, with the new token.  This needs of the database
    that a created row is found by its email and keeps the email and the
    password given, and of the hashing that a password matches its own
    hash. *)
Theorem register_then_login (userData : Registration) (db db' db'' : DB)
    (n n' : nat) (registered : AuthResult) (signed : string) :
  (forall data d u d', create data d = (inr u, d') ->
     findUnique (data_email data) d' = Some u /\
     user_password u = data_password data) ->
  (forall password rounds salt,
     bcrypt_compare password (bcrypt_hash password rounds salt) = true) ->
  register findUnique create bcrypt_hash jwt_sign clock userData (db, n) =
    (inr registered, (db', n')) ->
  update_lastLogin (pub_id (user registered)) (clock n') db' = (inr tt, db'') ->
  jwt_sign (payload_for (user registered)) (clock (S n')) = inr signed ->
  login findUnique update_lastLogin bcrypt_compare jwt_sign clock
    (reg_email userData) (reg_password userData) (db', n') =
    (inr {| user := user registered; token := signed |}, (db'', S (S n'))).
Proof.
  intros Hstore Hhash Hreg Hupdate Hsign. unfold register in Hreg.
  destruct (findUnique (reg_email userData) db); [discriminate|].
  destruct (Nat.ltb _ 6); [discriminate|].
  destruct (create _ db) as [[e|u] d] eqn:Hcreate; [discriminate|].
  destruct (jwt_sign (payload_of u) _) as [e|t]; [discriminate|].
  injection Hreg as <- <- <-.
  apply Hstore in Hcreate as [Hfind Hpw]. cbn in Hfind, Hpw.
  cbn in Hupdate, Hsign.
  unfold login. rewrite Hfind, Hpw, Hhash. cbn [negb].
  rewrite Hupdate.
  change (payload_for (public u)) with (payload_of u) in Hsign.
  rewrite Hsign. reflexivity.
Qed.

End AuthService.

Lemma login_refusal_changes_nothing_witness :
  AuthSpec.toy_login "ann@example.com" "secret1" ([], 0%nat) =
  (inl "Invalid email or password", ([], 0%nat)).
Proof.
  apply login_refusal_changes_nothing. left. reflexivity.
Defined.

Lemma register_refusal_changes_nothing_witness :
  exists message,
    Auth.register AuthSpec.rows_findUnique AuthSpec.rows_create AuthSpec.toy_hash
      AuthSpec.toy_sign AuthSpec.toy_clock
      (Auth.mkRegistration "bob@example.com" "Bob" "12345" None None) ([], 0%nat) =
      (inl message, ([], 0%nat)) /\
    (AuthSpec.rows_findUnique "bob@example.com" [] <> None ->
       message = "User with this email already exists") /\
    (AuthSpec.rows_findUnique "bob@example.com" [] = None ->
       message = "Password must be at least 6 characters long").
Proof.
  apply (register_refusal_changes_nothing AuthSpec.Rows AuthSpec.rows_findUnique AuthSpec.rows_create
           AuthSpec.toy_hash AuthSpec.toy_sign AuthSpec.toy_clock
           (Auth.mkRegistration "bob@example.com" "Bob" "12345" None None) [] 0%nat).
  right. cbn. lia.
Defined.

Lemma register_then_login_witness :
  exists registered db' n' signed,
    AuthSpec.toy_register AuthSpec.ann ([], 0%nat) = (inr registered, (db', n')) /\
    AuthSpec.toy_login "ann@example.com" "secret1" (db', n') =
      (inr {| Auth.user := Auth.user registered; Auth.token := signed |},
       (db', S (S n'))).
Proof.
  eexists _, _, _, _. split; [reflexivity|].
  apply (register_then_login AuthSpec.Rows AuthSpec.rows_findUnique AuthSpec.rows_create
           AuthSpec.rows_update AuthSpec.toy_compare AuthSpec.toy_hash
           AuthSpec.toy_sign AuthSpec.toy_clock AuthSpec.ann [] _ _ 0%nat).
  - intros data d u d'. unfold AuthSpec.rows_create.
    destruct (AuthSpec.rows_findUnique (Auth.data_email data) d); [discriminate|].
    intros [= <- <-]. unfold AuthSpec.rows_findUnique. simpl.
    rewrite String.eqb_refl. split; reflexivity.
  - intros password rounds salt. apply String.eqb_refl.
  - reflexivity.
  - reflexivity.
  - reflexivity.
Defined.
